(** * softcon_finetune.py: band transforms, country splitter, model assembly

    A shallow embedding of the parts of [softcon_finetune.py] that belong to
    the script itself: the band/transform pipelines, the country-specific
    train/validation splitter and the assembly of the model objects that are
    handed to the trainer and saved.

    Conventions of the embedding:
    - floating-point numbers are IEEE 754 values ([spec_float]) with the
      operations of the platform written out at their precision: binary64
      for Python floats, binary32 for the [np.float32] arrays;
    - a raised Python exception is the left injection of a sum;
    - Python objects that are shared and mutated (parameter tensors) live in
      an explicit store, addressed by location;
    - the operations of torchvision, of [random], of the LoRA wrapper and of
      the trainer are not part of the script: each library is an interface
      (a class of operations), and what is assumed of it is a class of
      laws. *)

From Stdlib Require Import ZArith QArith Qround Lia.
From Stdlib Require Import Floats.SpecFloat.
From stdpp Require Import base option list strings pretty gmap fin_maps fin_sets.

Close Scope Q_scope.
Local Open Scope string_scope.

(** ** Python exceptions *)

Inductive PyErr :=
| ValueError (msg : string)
| OverflowError (msg : string)
| RuntimeError (msg : string)
| IndexError (msg : string).

(** The result of a call: the exception raised, or the value returned. *)
Definition result (A : Type) : Type := PyErr + A.

#[global] Instance result_ret : MRet result := λ _ a, inr a.
#[global] Instance result_bind : MBind result := λ _ _ k r,
  match r with
  | inl e => inl e
  | inr a => k a
  end.
#[global] Instance result_fmap : FMap result := λ _ _ f r,
  match r with
  | inl e => inl e
  | inr a => inr (f a)
  end.

(** ** IEEE 754 arithmetic at the two precisions the script uses *)

Module IEEE.

Abbreviation float := spec_float.

(** Python [float] and NumPy's default dtype: binary64. *)
Definition f64_of_Z (z : Z) : float := binary_normalize 53 1024 z 0 false.
Definition f64_mul : float → float → float := SFmul 53 1024.
Definition f64_div : float → float → float := SFdiv 53 1024.

(** A decimal literal of the source, read as the nearest binary64. *)
Definition f64_of_Q (q : Q) : float :=
  f64_div (f64_of_Z (Qnum q)) (f64_of_Z (Zpos (Qden q))).

(** [np.float32]: binary32. *)
Definition f32_of_f64 (x : float) : float :=
  match x with
  | S754_finite s m e => binary_round 24 128 s m e
  | _ => x
  end.
Definition f32_sub : float → float → float := SFsub 24 128.
Definition f32_div : float → float → float := SFdiv 24 128.

Definition zero : float := S754_zero false.

(** The integer part of a finite float, rounded toward zero. *)
Definition trunc_finite (s : bool) (m : positive) (e : Z) : Z :=
  cond_Zopp s (match e with
               | Zneg p => Z.shiftr (Zpos m) (Zpos p)
               | _ => Z.shiftl (Zpos m) e
               end).

(** The largest integer below a finite float. *)
Definition floor_finite (s : bool) (m : positive) (e : Z) : Z :=
  match e with
  | Zneg p => (cond_Zopp s (Zpos m)) / 2 ^ Zpos p
  | _ => cond_Zopp s (Z.shiftl (Zpos m) e)
  end%Z.

End IEEE.

Import IEEE.

(** [int(x)] for a float [x]. *)
Definition py_int (x : float) : result Z :=
  match x with
  | S754_zero _ => inr 0%Z
  | S754_finite s m e => inr (trunc_finite s m e)
  | S754_infinity _ => inl (OverflowError "cannot convert float infinity to integer")
  | S754_nan => inl (ValueError "cannot convert float NaN to integer")
  end.

(** [math.floor(x)] for a float [x]. *)
Definition py_floor (x : float) : result Z :=
  match x with
  | S754_zero _ => inr 0%Z
  | S754_finite s m e => inr (floor_finite s m e)
  | S754_infinity _ => inl (OverflowError "cannot convert float infinity to integer")
  | S754_nan => inl (ValueError "cannot convert float NaN to integer")
  end.

(** [n * x] for an int [n] and a float [x]: the int is converted first. *)
Definition py_int_to_float (n : Z) : result float :=
  match f64_of_Z n with
  | S754_infinity _ => inl (OverflowError "int too large to convert to float")
  | x => inr x
  end.

Definition py_int_mul_float (n : Z) (x : float) : result float :=
  nf ← py_int_to_float n; mret (f64_mul nf x).

(** A float that is zero, or positive with a value of at most the integer
    [N] (and an exponent that is not positive). *)
Definition at_most (N : Z) (x : float) : Prop :=
  match x with
  | S754_zero _ => True
  | S754_finite false m e => (e ≤ 0 ∧ Zpos m ≤ N * 2 ^ (- e))%Z
  | _ => False
  end.

(** A binary64 number between 0 and 1: what a fraction such as
    [train_frac] is expected to be. *)
Definition is_fraction (x : float) : Prop :=
  valid_binary 53 1024 x = true
  ∧ SFleb zero x = true
  ∧ SFleb x (f64_of_Z 1) = true.

(** A float that is zero or positive, with an exponent of at most [F] and a
    value from [lo * 2 ^ F] to [hi * 2 ^ F]. *)
Definition between (lo hi F : Z) (x : float) : Prop :=
  match x with
  | S754_zero _ => (lo ≤ 0 ≤ hi)%Z
  | S754_finite false m e =>
      (e ≤ F ∧ lo * 2 ^ (F - e) ≤ Zpos m ≤ hi * 2 ^ (F - e))%Z
  | _ => False
  end.

(** The floor of the product of the integer [n] and the number that the
    float [x] holds, the product taken in the real numbers: what
    "floor(n_samples * train_frac)" says, to be compared with
    [int(n_samples * train_frac)] of the code, whose product is a float. *)
Definition floor_of_product (n : Z) (x : float) : option Z :=
  match x with
  | S754_zero _ => Some 0%Z
  | S754_finite s m e =>
      Some (match e with
            | Zneg p => (n * cond_Zopp s (Zpos m)) / 2 ^ Zpos p
            | _ => n * cond_Zopp s (Zpos m) * 2 ^ e
            end)%Z
  | _ => None
  end.

(** ** Band information and statistics (module-level constants) *)

Definition ALL_BANDS_S2_L2A : list string :=
  [ "B1"; "B2"; "B3"; "B4"; "B5"; "B6"; "B7"; "B8"; "B8A"; "B9"; "B10";
    "B11"; "B12" ].

Definition S2A_MEAN : list Q :=
  [ 752.40087073; 884.29673756; 1144.16202635; 1297.47289228;
    1624.90992062; 2194.6423161; 2422.21248945; 2517.76053101;
    2581.64687018; 2645.51888987; 0; 2368.51236873; 1805.06846033 ]%Q.

Definition S2A_STD : list Q :=
  [ 1108.02887453; 1155.15170768; 1183.6292542; 1368.11351514;
    1370.265037; 1355.55390699; 1416.51487101; 1474.78900051;
    1439.3086061; 1582.28010962; 1; 1455.52084939; 1343.48379601 ]%Q.

(** [np.array(S2A_MEAN)], [np.array(S2A_STD)]: binary64 arrays. *)
Definition train_mean : list float := f64_of_Q <$> S2A_MEAN.
Definition train_std : list float := f64_of_Q <$> S2A_STD.

(** ** Image tensors

    A [torch] tensor of shape [(C, H, W)]: the list of its [C] channels, each
    a list of rows, together with the two spatial extents (which a tensor
    keeps even when it has no channel). *)

Definition plane : Type := list (list float).

Record Tensor := mkTensor {
  channels : list plane;
  height : nat;
  width : nat
}.

Definition shape (img : Tensor) : nat * nat * nat :=
  (length (channels img), height img, width img).

Definition plane_map (f : float → float) (p : plane) : plane :=
  fmap (M := list) (fmap (M := list) f) p.

(** A channel that holds the same value everywhere. *)
Definition const_plane (H W : nat) (v : float) : plane :=
  replicate H (replicate W v).

(** [torch.zeros((C, H, W))]. *)
Definition torch_zeros (C H W : nat) : Tensor :=
  mkTensor (replicate C (const_plane H W zero)) H W.

(** ** The transforms *)

(** The callables that the two [transforms.Compose] lists are built from. *)
#[warnings="-register-all"]
Inductive Transform :=
| Resize (size : nat * nat)
| DropSARChannels
| ZeroInitializeB10
| RandomHorizontalFlip
| RandomVerticalFlip
| RandomChoice (transforms : list Transform)
| RandomRotation (degrees : Z * Z)
| RandomResizedCrop (size : nat * nat) (scale : Q * Q)
| NormalizeWithStats (mean std : list float).

(** [NormalizeWithStats.__init__]: both arrays are stored as [np.float32],
    reshaped to [(C, 1, 1)]. *)
Definition NormalizeWithStats_init (mean std : list float) : Transform :=
  NormalizeWithStats (f32_of_f64 <$> mean) (f32_of_f64 <$> std).

(** [DropSARChannels.__call__]: [img[2:, :, :]]. *)
Definition DropSARChannels_call (img : Tensor) : Tensor :=
  mkTensor (drop 2 (channels img)) (height img) (width img).

(** [ZeroInitializeB10.__call__]:
    [torch.cat([img[:9], zeros((1, H, W)), img[9:]], dim=0)]. *)
Definition ZeroInitializeB10_call (img : Tensor) : Tensor :=
  let b10 := torch_zeros 1 (height img) (width img) in
  mkTensor (take 9 (channels img) ++ channels b10 ++ drop 9 (channels img))
           (height img) (width img).

(** NumPy broadcasting of a [(C, H, W)] array against a [(M, 1, 1)] array
    of per-channel constants: the leading extents must agree, or one of them
    must be 1. *)
Definition broadcast_stats (op : float → float → float)
    (chs : list plane) (stats : list float) : option (list plane) :=
  if decide (length chs = length stats) then
    Some (zip_with (λ p c, plane_map (λ x, op x c) p) chs stats)
  else
    match stats, chs with
    | [c], _ => Some ((λ p, plane_map (λ x, op x c) p) <$> chs)
    | _, [p] => Some ((λ c, plane_map (λ x, op x c) p) <$> stats)
    | _, _ => None
    end.

Definition broadcast_error (C H W M : nat) : PyErr :=
  ValueError ("operands could not be broadcast together with shapes ("
              +:+ pretty C +:+ "," +:+ pretty H +:+ "," +:+ pretty W +:+ ") ("
              +:+ pretty M +:+ ",1,1) ").

(** [NormalizeWithStats.__call__]: [(img.astype(float32) - mean) / std]. *)
Definition NormalizeWithStats_call (mean std : list float) (img : Tensor)
    : result Tensor :=
  let img_np := plane_map f32_of_f64 <$> channels img in
  match broadcast_stats f32_sub img_np mean with
  | None => inl (broadcast_error (length img_np) (height img) (width img)
                                 (length mean))
  | Some centred =>
      match broadcast_stats f32_div centred std with
      | None => inl (broadcast_error (length centred) (height img) (width img)
                                     (length std))
      | Some scaled => inr (mkTensor scaled (height img) (width img))
      end
  end.

(** [F.hflip] and [F.vflip]: reverse the last, respectively the second to
    last, axis. *)
Definition hflip (img : Tensor) : Tensor :=
  mkTensor (fmap (M := list) (fmap (M := list) reverse) (channels img))
           (height img) (width img).
Definition vflip (img : Tensor) : Tensor :=
  mkTensor (fmap (M := list) reverse (channels img)) (height img) (width img).

(** [F.crop(img, top, left, h, w)] on one channel. *)
Definition crop_plane (top lft h w : nat) (p : plane) : plane :=
  (λ row, take w (drop lft row)) <$> take h (drop top p).

(** Transformation pipeline for training (with augmentations). *)
Definition train_transform : list Transform :=
  [ Resize (224, 224);
    DropSARChannels;
    ZeroInitializeB10;
    RandomHorizontalFlip;
    RandomVerticalFlip;
    RandomChoice [ RandomRotation (0, 0)%Z;
                   RandomRotation (90, 90)%Z;
                   RandomRotation (180, 180)%Z;
                   RandomRotation (270, 270)%Z ];
    RandomResizedCrop (224, 224) (0.8, 1.0)%Q;
    NormalizeWithStats_init train_mean train_std ].

(** Transformation pipeline for validation (no augmentations). *)
Definition val_transform : list Transform :=
  [ Resize (224, 224);
    DropSARChannels;
    ZeroInitializeB10;
    NormalizeWithStats_init train_mean train_std ].

(** The four augmentation steps of the training pipeline. *)
Definition is_augmentation (t : Transform) : bool :=
  match t with
  | RandomHorizontalFlip | RandomVerticalFlip
  | RandomChoice _ | RandomRotation _ | RandomResizedCrop _ _ => true
  | Resize _ | DropSARChannels | ZeroInitializeB10
  | NormalizeWithStats _ _ => false
  end.

(** *** What the transforms compute

    torchvision's own operations are an interface: the interpolation of one
    channel to a given size, the rotation of one channel, and the draws from
    the global random generators, whose joint state is [Gen]. Each of them
    works channel by channel, which is how they are applied here. *)

Class Torchvision := {
  Gen : Type;
  (** [F.resize] on one channel. *)
  interpolate : nat → nat → plane → plane;
  (** [F.rotate] on one channel (nearest, no expansion, fill 0). *)
  rotate_plane : float → plane → plane;
  (** [torch.rand(1) < p] for the flips ([p = 0.5]). *)
  bernoulli : Gen → bool * Gen;
  (** [random.choices(range(n))[0]] for [RandomChoice]. *)
  choices : nat → Gen → nat * Gen;
  (** [RandomRotation.get_params]: an angle drawn between two bounds. *)
  uniform : float → float → Gen → float * Gen;
  (** [RandomResizedCrop.get_params]: the box [(top, left, h, w)]. *)
  crop_params : nat * nat → Q * Q → Gen → (nat * nat * nat * nat) * Gen
}.

(** What is assumed of torchvision: resizing or rotating an all-zero channel
    gives an all-zero channel, [random.choices] returns an index into the
    list, and the crop box lies inside the image. *)
Class TorchvisionLaws `{Torchvision} := {
  interpolate_zeros : ∀ H W h w : nat,
    (0 < H)%nat → (0 < W)%nat →
    interpolate h w (const_plane H W zero) = const_plane h w zero;
  rotate_zeros : ∀ (angle : float) (H W : nat),
    rotate_plane angle (const_plane H W zero) = const_plane H W zero;
  choices_lt : ∀ (n : nat) (g : Gen),
    (0 < n)%nat → ((choices n g).1 < n)%nat;
  crop_params_inside : ∀ (H W : nat) (scale : Q * Q) (g : Gen),
    (0 < H)%nat → (0 < W)%nat →
    let '(top, lft, h, w) := (crop_params (H, W) scale g).1 in
    (0 < h ∧ 0 < w ∧ top + h ≤ H ∧ lft + w ≤ W)%nat
}.

(** The image resized, channel by channel. *)
Definition resize_image `{Torchvision} (size : nat * nat) (img : Tensor)
    : Tensor :=
  mkTensor (interpolate size.1 size.2 <$> channels img) size.1 size.2.

(** [transforms.Resize(size)(img)]: an image without pixels (height or width
    0) cannot be interpolated, torch raises [RuntimeError] for it. *)
Definition Resize_call `{Torchvision} (size : nat * nat) (img : Tensor)
    : result Tensor :=
  if decide (height img = 0%nat ∨ width img = 0%nat) then
    inl (RuntimeError "Input and output sizes should be greater than 0")
  else inr (resize_image size img).

Definition rotate_call `{Torchvision} (angle : float) (img : Tensor)
    : Tensor :=
  mkTensor (rotate_plane angle <$> channels img) (height img) (width img).

Definition resized_crop `{Torchvision} (box : nat * nat * nat * nat)
    (size : nat * nat) (img : Tensor) : Tensor :=
  let '(top, lft, h, w) := box in
  mkTensor ((λ p, interpolate size.1 size.2 (crop_plane top lft h w p))
              <$> channels img) size.1 size.2.

(** [t(img)] for a transform [t], threading the generators' state. *)
Fixpoint apply_transform `{Torchvision} (t : Transform) (g : Gen)
    (img : Tensor) {struct t} : result (Tensor * Gen) :=
  match t with
  | Resize size => out ← Resize_call size img; mret (out, g)
  | DropSARChannels => inr (DropSARChannels_call img, g)
  | ZeroInitializeB10 => inr (ZeroInitializeB10_call img, g)
  | RandomHorizontalFlip =>
      let '(flip, g') := bernoulli g in
      inr (if flip then hflip img else img, g')
  | RandomVerticalFlip =>
      let '(flip, g') := bernoulli g in
      inr (if flip then vflip img else img, g')
  | RandomChoice ts =>
      let '(k, g') := choices (length ts) g in
      (fix pick (ts : list Transform) (k : nat) {struct ts} :=
         match ts, k with
         | [], _ => inl (IndexError "list index out of range")
         | t' :: _, O => apply_transform t' g' img
         | _ :: ts', S k' => pick ts' k'
         end) ts k
  | RandomRotation (lo, hi) =>
      let '(angle, g') := uniform (f64_of_Z lo) (f64_of_Z hi) g in
      inr (rotate_call angle img, g')
  | RandomResizedCrop size scale =>
      let '(box, g') := crop_params (height img, width img) scale g in
      inr (resized_crop box size img, g')
  | NormalizeWithStats mean std =>
      out ← NormalizeWithStats_call mean std img; mret (out, g)
  end.

(** [transforms.Compose(ts)(img)]: the transforms in order. *)
Fixpoint Compose `{Torchvision} (ts : list Transform) (g : Gen)
    (img : Tensor) : result (Tensor * Gen) :=
  match ts with
  | [] => inr (img, g)
  | t :: ts' => '(img', g') ← apply_transform t g img; Compose ts' g' img'
  end.

(** A transform that always returns, with as many channels as it is
    given. *)
Definition keeps_channels `{Torchvision} (t : Transform) : Prop :=
  ∀ g img, ∃ img' g', apply_transform t g img = inr (img', g')
                      ∧ length (channels img') = length (channels img).

(** ** Country-specific train/val split *)

(** One row of [metadata.parquet], with the columns the script reads. *)
Record MetaRow := mkRow {
  patch_id : string;
  country : string;
  split : string
}.

(** What the interpreter provides to the splitter: [repr] of a string and
    the class [random.Random] with its method [sample]. *)
Class PyRuntime := {
  py_repr : string → string;
  RandomState : Type;
  (** The generator state that [random.Random(a)] starts from. *)
  init_by_int : Z → RandomState;
  (** [rng.sample(population, k=k)]. *)
  sample : RandomState → list string → Z → result (list string)
}.

(** The contract of [random.Random.sample]: for [0 <= k <= len(population)]
    it returns [k] elements taken at [k] different positions of the
    population; any other [k] raises [ValueError]. *)
Class PyRuntimeLaws `{PyRuntime} := {
  sample_returns : ∀ g population k,
    (0 ≤ k ≤ Z.of_nat (length population))%Z →
    ∃ chosen, sample g population k = inr chosen
              ∧ length chosen = Z.to_nat k
              ∧ chosen ⊆+ population;
  sample_raises : ∀ g population k,
    ¬ (0 ≤ k ≤ Z.of_nat (length population))%Z →
    ∃ msg, sample g population k = inl (ValueError msg)
}.

(** The state of the process that a call can observe besides its arguments:
    the module-level generator of [random] (seeded at import) and the
    integer the operating system's entropy source yields next. *)
Record Process `{PyRuntime} := mkProcess {
  global_random : RandomState;
  os_urandom : Z
}.

(** [random.Random(seed)]: a generator of its own; [None] seeds it from the
    operating system. *)
Definition Random `{PyRuntime} (seed : option Z) (proc : Process)
    : RandomState :=
  match seed with
  | Some a => init_by_int a
  | None => init_by_int (os_urandom proc)
  end.

(** [l[:i]] and [l[i:]] for a Python int [i]. *)
Definition slice_index (len : nat) (i : Z) : nat :=
  if (i <? 0)%Z then Z.to_nat (Z.of_nat len + i) else Z.to_nat i.
Definition slice_to {A} (l : list A) (i : Z) : list A :=
  take (slice_index (length l) i) l.
Definition slice_from {A} (l : list A) (i : Z) : list A :=
  drop (slice_index (length l) i) l.

Definition datapath : list (string * string) :=
  [ ("images_lmdb", "/faststorage/BigEarthNet-V2/BigEarthNet-V2-LMDB");
    ("metadata_parquet", "/faststorage/BigEarthNet-V2/metadata.parquet");
    ("metadata_snow_cloud_parquet",
     "/faststorage/BigEarthNet-V2/metadata_for_patches_with_snow_cloud_or_shadow.parquet") ].

(** The handle [BENv2_DataSet.BENv2DataSet(...)] is built from. The
    prefilter [lambda pid: pid in keep_ids] is kept as the set it closes
    over. *)
Record BENv2DataSet := mkDataSet {
  data_dirs : list (string * string);
  img_size : nat * nat * nat;
  ds_split : string;
  include_snowy : bool;
  include_cloudy : bool;
  keep_ids : gset string;
  transform : list Transform
}.

Definition patch_prefilter (ds : BENv2DataSet) (pid : string) : bool :=
  bool_decide (pid ∈ keep_ids ds).

(** [meta.loc[(meta.country == country) & (meta.split == "train"),
    "patch_id"].tolist()]. *)
Definition available_ids (meta : list MetaRow) (c : string) : list string :=
  patch_id <$> filter (λ r, country r = c ∧ split r = "train") meta.

(** [int(n_samples * train_frac)]. *)
Definition split_index (n_samples : Z) (train_frac : float) : result Z :=
  py_int_mul_float n_samples train_frac ≫= py_int.

Definition load_country_train_val `{PyRuntime} (meta : list MetaRow)
    (proc : Process) (c : string) (n_samples : Z) (seed : option Z)
    (train_frac : float) (size : nat * nat * nat)
    (snowy cloudy : bool) : result (BENv2DataSet * BENv2DataSet) :=
  let available := available_ids meta c in
  if decide (available = []) then
    inl (ValueError ("No TRAIN patches found for country=" +:+ py_repr c))
  else if decide (Z.of_nat (length available) < n_samples)%Z then
    inl (ValueError ("Requested " +:+ pretty n_samples
                     +:+ " samples but only " +:+ pretty (length available)
                     +:+ " TRAIN patches available for " +:+ py_repr c))
  else
    let rng := Random seed proc in
    sampled ← sample rng available n_samples;
    split_at ← split_index n_samples train_frac;
    let train_ids : gset string := list_to_set (slice_to sampled split_at) in
    let val_ids : gset string := list_to_set (slice_from sampled split_at) in
    let _make_ds keep_ids transform :=
      mkDataSet datapath size "train" snowy cloudy keep_ids transform in
    let train_ds := _make_ds train_ids train_transform in
    let val_ds := _make_ds val_ids val_transform in
    mret (train_ds, val_ds).

(** The defaults of the keyword arguments. *)
Definition default_seed : option Z := None.
Definition default_train_frac : float := f64_of_Q 0.8%Q.
Definition default_img_size : nat * nat * nat := (14, 224, 224).

(** The call the script makes:
    [load_country_train_val("Ireland", n_samples=1000, seed=seed)] with the
    module-level [seed = 123]. *)
Definition seed : Z := 123.
Definition script_split `{PyRuntime} (meta : list MetaRow) (proc : Process)
    : result (BENv2DataSet * BENv2DataSet) :=
  load_country_train_val meta proc "Ireland" 1000 (Some seed)
    default_train_frac default_img_size false false.

(** ** Model assembly and training driver

    The parameter tensors are objects with an identity: they live in a store
    and a module refers to them by location, so that two modules (or a module
    and a state dict) can share one tensor. A module is seen through its
    [named_parameters()]: the map from qualified names to locations. *)

Definition loc : Type := positive.

Record Param (V : Type) := mkParam {
  data : V;
  requires_grad : bool
}.
Arguments mkParam {V} _ _.
Arguments data {V} _.
Arguments requires_grad {V} _.

Record Store (V G : Type) := mkStore {
  heap : gmap loc (Param V);
  torch_gen : G
}.
Arguments mkStore {V G} _ _.
Arguments heap {V G} _.
Arguments torch_gen {V G} _.

Record DataLoader := mkLoader {
  dataset : BENv2DataSet;
  batch_size : nat;
  shuffle : bool;
  num_workers : nat
}.

(** What torch, the LoRA wrapper and the Lightning trainer provide. *)
Class TorchRuntime := {
  (** The contents of a tensor, and their shape. *)
  Value : Type;
  value_shape : Value → list nat;
  (** The state of torch's global generator. *)
  TorchGen : Type;
  (** The initial weight and bias of [nn.Linear(in, out)]. *)
  linear_init : nat → nat → TorchGen → (Value * Value) * TorchGen;
  (** [LoRA_ViT_timm(vit_model, num_classes, r, alpha)]. *)
  LoRA_ViT_timm : gmap string loc → nat → nat → nat →
                  Store Value TorchGen → gmap string loc * Store Value TorchGen;
  (** [trainer.fit(model, train_loader, val_loader)]. *)
  trainer_fit : gmap string loc → DataLoader → DataLoader →
                Store Value TorchGen → Store Value TorchGen
}.

(** What is assumed of the LoRA wrapper: when the tensors of the backbone
    exist in the store, so do those of the module it returns. *)
Class TorchRuntimeLaws `{TorchRuntime} := {
  lora_allocated : ∀ (m : gmap string loc) (num_classes r alpha : nat)
                     (σ : Store Value TorchGen),
    map_img (SA := gset loc) m ⊆ dom (heap σ) →
    map_img (SA := gset loc) (LoRA_ViT_timm m num_classes r alpha σ).1
    ⊆ dom (heap (LoRA_ViT_timm m num_classes r alpha σ).2)
}.

(** The parameters of a child module, under the child's name. *)
Definition add_prefix (prefix : string) (m : gmap string loc)
    : gmap string loc :=
  kmap (String.app prefix) m.

(** [module.state_dict()]: the tensors of the module themselves, by name. *)
Definition state_dict (m : gmap string loc) : gmap string loc := m.

(** [param.copy_(input_param)] inside [load_state_dict]. *)
Definition copy_param `{TorchRuntime} (dst src : loc)
    (h : gmap loc (Param Value)) : result (gmap loc (Param Value)) :=
  match h !! dst, h !! src with
  | Some d, Some s =>
      if decide (value_shape (data s) = value_shape (data d)) then
        inr (<[dst := mkParam (data s) (requires_grad d)]> h)
      else inl (RuntimeError "Error(s) in loading state_dict: size mismatch")
  | _, _ => inr h
  end.

(** [module.load_state_dict(sd)] (strict): the keys must be those of the
    module; each tensor of [sd] is copied into the parameter of its name. *)
Definition load_state_dict `{TorchRuntime} (m sd : gmap string loc)
    (h : gmap loc (Param Value)) : result (gmap loc (Param Value)) :=
  if decide (dom sd = dom m) then
    map_fold (λ name dst acc,
                h' ← acc;
                match sd !! name with
                | Some src => copy_param dst src h'
                | None => inr h'
                end) (inr h) m
  else
    inl (RuntimeError
           "Error(s) in loading state_dict: missing or unexpected key(s)").

(** [nn.Linear(in_features, out_features)]: two new parameter tensors. *)
Definition nn_Linear `{TorchRuntime} (in_features out_features : nat)
    (σ : Store Value TorchGen) : gmap string loc * Store Value TorchGen :=
  let '((w, b), g') := linear_init in_features out_features (torch_gen σ) in
  let lw := fresh (dom (heap σ)) in
  let h1 := <[lw := mkParam w true]> (heap σ) in
  let lb := fresh (dom h1) in
  let h2 := <[lb := mkParam b true]> h1 in
  (<["weight" := lw]> {["bias" := lb]}, mkStore h2 g').

(** [nn.Sequential(m0, m1)]. *)
Definition nn_Sequential (m0 m1 : gmap string loc) : gmap string loc :=
  add_prefix "0." m0 ∪ add_prefix "1." m1.

(** [for param in m.parameters(): param.requires_grad = True]. *)
Definition mark_trainable {V} (m : gmap string loc)
    (h : gmap loc (Param V)) : gmap loc (Param V) :=
  map_fold (λ _ l acc, alter (λ p, mkParam (data p) true) l acc) h m.

(** Freezing: [param.requires_grad = False] for a module's parameters. *)
Definition mark_frozen {V} (m : gmap string loc)
    (h : gmap loc (Param V)) : gmap loc (Param V) :=
  map_fold (λ _ l acc, alter (λ p, mkParam (data p) false) l acc) h m.

(** [SoftConLightningModule.__init__]: [self.model = model], and a
    classifier [nn.Linear(embed_dim, num_classes)] of its own (the
    criterion has no parameter). *)
Definition SoftConLightningModule `{TorchRuntime} (model : gmap string loc)
    (embed_dim num_classes : nat) (σ : Store Value TorchGen)
    : gmap string loc * gmap string loc * Store Value TorchGen :=
  let '(classifier, σ') := nn_Linear embed_dim num_classes σ in
  (add_prefix "model." model ∪ add_prefix "classifier." classifier,
   classifier, σ').

(** The objects the module-level code of the model setup binds. *)
Record Assembly `{TorchRuntime} := mkAssembly {
  loaded_store : Store Value TorchGen;   (* after [load_state_dict] *)
  lora_model : gmap string loc;
  classifier : gmap string loc;
  lora_with_head : gmap string loc;
  assembled_store : Store Value TorchGen
}.

(** Model setup: lines "Model setup" to "Move model to device". The
    backbone [model_vitb14] (built by [vit_base]) and the checkpoint read by
    [torch.load] are the inputs. *)
Definition assemble `{TorchRuntime} (model_vitb14 : gmap string loc)
    (embed_dim : nat) (checkpoint_file : gmap string Value)
    (σ0 : Store Value TorchGen) : result Assembly :=
  let ckpt_vitb14 := checkpoint_file in
  let model_state := state_dict model_vitb14 in
  h1 ← load_state_dict model_vitb14 model_state (heap σ0);
  let σ1 := mkStore h1 (torch_gen σ0) in
  let '(lora_model, σ2) := LoRA_ViT_timm model_vitb14 0 4 16 σ1 in
  let num_classes := 19 in
  let '(classifier, σ3) := nn_Linear embed_dim num_classes σ2 in
  let lora_with_head := nn_Sequential lora_model classifier in
  let σ4 := mkStore (mark_trainable classifier (heap σ3)) (torch_gen σ3) in
  (* [lora_with_head.to(device)] moves the tensors in place: no tensor
     changes its identity or its contents *)
  mret (mkAssembly _ σ1 lora_model classifier lora_with_head σ4).

(** What the training part of the script leaves behind. *)
Record Training `{TorchRuntime} := mkTraining {
  pl_model : gmap string loc;
  pl_classifier : gmap string loc;   (* [pl_model.classifier] *)
  fit_calls : list (gmap string loc);  (* models handed to [trainer.fit] *)
  saved_state : gmap string loc;     (* the state dict given to [torch.save] *)
  saved_file : gmap string Value;    (* what [torch.save] writes *)
  final_store : Store Value TorchGen
}.

(** A call [trainer.fit(model, train_loader, val_loader)]: the store the
    trainer leaves, and the model added to those the trainer has been
    given. *)
Definition Trainer_fit `{TorchRuntime} (model : gmap string loc)
    (train_loader val_loader : DataLoader)
    (run : Store Value TorchGen * list (gmap string loc))
    : Store Value TorchGen * list (gmap string loc) :=
  (trainer_fit model train_loader val_loader run.1, run.2 ++ [model])%list.

(** Lines "Pass the embed_dim explicitly" to "Save model". *)
Definition train_and_save `{TorchRuntime} (a : Assembly) (embed_dim : nat)
    (train_loader val_loader : DataLoader) : Training :=
  let '(pl_model, head, σ5) :=
    SoftConLightningModule (lora_model a) embed_dim 19 (assembled_store a) in
  let '(σ6, calls) := Trainer_fit pl_model train_loader val_loader (σ5, []) in
  let sd := state_dict pl_model in
  mkTraining _ pl_model head calls sd
             (omap (λ l, data <$> heap σ6 !! l) sd) σ6.

(** The script from the split to the saved file. The exceptions of the
    splitter and of [load_state_dict] end the script; the calls of the
    libraries that follow the split ([DataLoader], [vit_base], [torch.load],
    the trainer, [torch.save]) are taken to return, so this definition says
    where the script stops at the split, and what it has built if those
    calls return - not that they do. *)
Definition main `{PyRuntime, TorchRuntime} (meta : list MetaRow)
    (proc : Process) (model_vitb14 : gmap string loc) (embed_dim : nat)
    (checkpoint_file : gmap string Value) (σ0 : Store Value TorchGen)
    : result Training :=
  '(ds_train, ds_val) ← script_split meta proc;
  let train_loader := mkLoader ds_train 32 true 4 in
  let val_loader := mkLoader ds_val 32 false 4 in
  a ← assemble model_vitb14 embed_dim checkpoint_file σ0;
  mret (train_and_save a embed_dim train_loader val_loader).

(** ** Reference instances of the interfaces

    Small executable stand-ins for the libraries, used to run the script's
    functions on concrete inputs. *)

Module Reference.

(** Nearest-neighbour resampling of one channel. *)
Definition nearest (h w : nat) (p : plane) : plane :=
  (λ i, (λ j, nth (j * length (nth 0 p []) / w)
                  (nth (i * length p / h) p []) zero) <$> seq 0 w)
    <$> seq 0 h.

Definition lcg (g : nat) : nat := (g * 5 + 3) mod 64.

#[export] Instance vision : Torchvision := {|
  Gen := nat;
  interpolate := nearest;
  rotate_plane := λ _ p, p;
  bernoulli := λ g, (Nat.even g, lcg g);
  choices := λ n g, (g mod n, lcg g);
  uniform := λ lo _ g, (lo, lcg g);
  crop_params := λ '(H, W) _ g, ((0, 0, H, W), lcg g)
|}.

(** A sampler that starts at a position given by the state and takes the
    next [k] elements, wrapping around. *)
Definition sample_window (g : nat) (population : list string) (k : Z)
    : result (list string) :=
  if decide (0 ≤ k ≤ Z.of_nat (length population))%Z then
    inr (take (Z.to_nat k) (rotate g population))
  else inl (ValueError "Sample larger than population or is negative").

#[export] Instance python : PyRuntime := {|
  py_repr := λ s, "'" +:+ s +:+ "'";
  RandomState := nat;
  init_by_int := Z.abs_nat;
  sample := sample_window
|}.

(** A wrapper that freezes the backbone and adds one adapter tensor. *)
Definition wrap_one_adapter (m : gmap string loc) (num_classes r alpha : nat)
    (σ : Store Z nat) : gmap string loc * Store Z nat :=
  let frozen := mark_frozen m (heap σ) in
  let la := fresh (dom frozen) in
  (<["w_a" := la]> (add_prefix "lora_vit." m),
   mkStore (<[la := mkParam (Z.of_nat (r * alpha)) true]> frozen)
           (S (torch_gen σ))).

(** A trainer that adds one to every trainable tensor of the model. *)
Definition fit_one_step (m : gmap string loc) (train val : DataLoader)
    (σ : Store Z nat) : Store Z nat :=
  mkStore (map_fold (λ _ l acc,
                       alter (λ p, if requires_grad p
                                   then mkParam (data p + 1)%Z true else p)
                             l acc) (heap σ) m)
          (torch_gen σ).

#[export] Instance torch : TorchRuntime := {|
  Value := Z;
  value_shape := λ _, [];
  TorchGen := nat;
  linear_init := λ i o g, ((Z.of_nat (g + i), Z.of_nat (g + o)), S g);
  LoRA_ViT_timm := wrap_one_adapter;
  trainer_fit := fit_one_step
|}.

(** Three Irish training patches, one Irish test patch, one from Austria. *)
Definition meta5 : list MetaRow :=
  [ mkRow "p1" "Ireland" "train"; mkRow "p2" "Ireland" "train";
    mkRow "p3" "Austria" "train"; mkRow "p4" "Ireland" "test";
    mkRow "p5" "Ireland" "train" ].

Definition proc0 : Process := mkProcess _ 7 11%Z.

(** A thousand Irish training patches, named by their number. *)
Definition meta1000 : list MetaRow :=
  (λ i : nat, mkRow (pretty i) "Ireland" "train") <$> seq 0 1000.

(** A backbone with two parameter tensors. *)
Definition backbone2 : gmap string loc :=
  <["cls_token" := 1%positive]> {["patch_embed.proj.weight" := 2%positive]}.
Definition store2 : Store Z nat :=
  mkStore (<[1%positive := mkParam 5%Z true]>
             {[2%positive := mkParam 6%Z true]}) 0.

End Reference.

(** * Properties of the transform pipelines *)

(* [set_solver] clears hypotheses it has already consumed. *)
#[local] Set Warnings "-clear-no-such-hyp".

Section Pipelines.

Context {tv : Torchvision}.

Lemma length_DropSARChannels (img : Tensor) :
  length (channels (DropSARChannels_call img)) = length (channels img) - 2.
Proof. unfold DropSARChannels_call. cbn [channels]. apply length_drop. Qed.

Lemma length_ZeroInitializeB10 (img : Tensor) :
  length (channels (ZeroInitializeB10_call img)) = S (length (channels img)).
Proof.
  unfold ZeroInitializeB10_call, torch_zeros. cbn [channels].
  rewrite !length_app, length_take, length_drop, length_replicate. lia.
Qed.

Lemma length_Resize size (img : Tensor) :
  length (channels (resize_image size img)) = length (channels img).
Proof. unfold resize_image. cbn [channels]. apply length_fmap. Qed.

(** The two cases of broadcasting that the pipelines can meet. *)
Lemma broadcast_stats_same op (chs : list plane) (stats : list float) :
  length chs = length stats →
  broadcast_stats op chs stats
  = Some (zip_with (λ p c, plane_map (λ x, op x c) p) chs stats).
Proof. intros Hlen. unfold broadcast_stats. by rewrite decide_True. Qed.

Lemma broadcast_stats_mismatch op (chs : list plane) (stats : list float) :
  length chs ≠ length stats → length chs ≠ 1 → length stats ≠ 1 →
  broadcast_stats op chs stats = None.
Proof.
  intros Hne Hc Hs. unfold broadcast_stats. rewrite decide_False by done.
  destruct stats as [|c [|c' stats]]; try done;
    destruct chs as [|p [|p' chs]]; done.
Qed.

Lemma length_train_mean : length (f32_of_f64 <$> train_mean) = 13.
Proof. reflexivity. Qed.

Lemma length_train_std : length (f32_of_f64 <$> train_std) = 13.
Proof. reflexivity. Qed.

(** Normalization of a 13-channel tensor succeeds, channel by channel. *)
Lemma NormalizeWithStats_13 (img : Tensor) :
  length (channels img) = 13 →
  NormalizeWithStats_call (f32_of_f64 <$> train_mean)
                          (f32_of_f64 <$> train_std) img
  = inr (mkTensor
           (zip_with (λ p c, plane_map (λ x, f32_div x c) p)
              (zip_with (λ p c, plane_map (λ x, f32_sub x c) p)
                 (plane_map f32_of_f64 <$> channels img)
                 (f32_of_f64 <$> train_mean))
              (f32_of_f64 <$> train_std))
           (height img) (width img)).
Proof.
  intros Hlen. unfold NormalizeWithStats_call.
  rewrite broadcast_stats_same
    by (rewrite length_fmap, Hlen; symmetry; apply length_train_mean).
  rewrite broadcast_stats_same; [done|].
  rewrite length_zip_with, length_fmap, Hlen, length_train_mean.
  rewrite length_train_std. done.
Qed.

(** With any other channel count above one, the subtraction cannot be
    broadcast and nothing is returned. *)
Lemma NormalizeWithStats_mismatch (img : Tensor) :
  length (channels img) ≠ 13 → length (channels img) ≠ 1 →
  NormalizeWithStats_call (f32_of_f64 <$> train_mean)
                          (f32_of_f64 <$> train_std) img
  = inl (broadcast_error (length (channels img)) (height img) (width img) 13).
Proof.
  intros H13 H1. unfold NormalizeWithStats_call.
  rewrite broadcast_stats_mismatch.
  - by rewrite length_fmap, length_train_mean.
  - by rewrite length_fmap, length_train_mean.
  - by rewrite length_fmap.
  - by rewrite length_train_mean.
Qed.

(** [Resize] on an image that has pixels, and on one that has none. *)
Lemma Resize_call_pixels size (img : Tensor) :
  (0 < height img)%nat → (0 < width img)%nat →
  Resize_call size img = inr (resize_image size img).
Proof.
  intros Hh Hw. unfold Resize_call. rewrite decide_False; [done|lia].
Qed.

Lemma Resize_call_empty size (img : Tensor) :
  height img = 0%nat ∨ width img = 0%nat →
  Resize_call size img
  = inl (RuntimeError "Input and output sizes should be greater than 0").
Proof. intros Hempty. unfold Resize_call. by rewrite decide_True. Qed.

(** The validation pipeline, step by step; the generators are not used. *)
Lemma Compose_val_transform (g : Gen) (img : Tensor) :
  (0 < height img)%nat → (0 < width img)%nat →
  Compose val_transform g img
  = (λ out, (out, g)) <$>
      NormalizeWithStats_call (f32_of_f64 <$> train_mean)
        (f32_of_f64 <$> train_std)
        (ZeroInitializeB10_call
           (DropSARChannels_call (resize_image (224, 224) img))).
Proof.
  intros Hh Hw. unfold val_transform, NormalizeWithStats_init.
  cbn [Compose apply_transform]. rewrite Resize_call_pixels by done.
  cbn [mbind result_bind mret result_ret].
  destruct (NormalizeWithStats_call _ _ _); done.
Qed.

(** An image without pixels stops the validation pipeline at its first
    step. *)
Lemma Compose_val_transform_empty (g : Gen) (img : Tensor) :
  height img = 0%nat ∨ width img = 0%nat →
  Compose val_transform g img
  = inl (RuntimeError "Input and output sizes should be greater than 0").
Proof.
  intros Hempty. unfold val_transform. cbn [Compose apply_transform].
  by rewrite Resize_call_empty.
Qed.

End Pipelines.

Section PipelineClaims.

Context {tv : Torchvision}.

Lemma length_pipeline_head (img : Tensor) :
  length (channels (ZeroInitializeB10_call
                      (DropSARChannels_call (resize_image (224, 224) img))))
  = S (length (channels img) - 2).
Proof.
  by rewrite length_ZeroInitializeB10, length_DropSARChannels, length_Resize.
Qed.

(** With 15 channels or more the validation pipeline raises. *)
Lemma val_transform_rejects (g : Gen) (img : Tensor) :
  (0 < height img)%nat → (0 < width img)%nat →
  (15 ≤ length (channels img))%nat →
  Compose val_transform g img
  = inl (broadcast_error (length (channels img) - 1) 224 224 13).
Proof.
  intros Hh Hw Hlen. rewrite Compose_val_transform by done.
  rewrite NormalizeWithStats_mismatch; rewrite length_pipeline_head; try lia.
  cbn [height width ZeroInitializeB10_call DropSARChannels_call resize_image
       fst snd fmap result_fmap].
  do 2 f_equal. lia.
Qed.

(** With 14 channels the validation pipeline returns 13 channels. *)
Lemma val_transform_accepts (g : Gen) (img : Tensor) :
  (0 < height img)%nat → (0 < width img)%nat →
  length (channels img) = 14 →
  ∃ out, Compose val_transform g img = inr (out, g)
         ∧ length (channels out) = 13
         ∧ height out = 224 ∧ width out = 224.
Proof.
  intros Hh Hw Hlen. rewrite Compose_val_transform by done.
  rewrite NormalizeWithStats_13 by (rewrite length_pipeline_head; lia).
  eexists. split; [reflexivity|]. cbn [channels height width].
  split; [|done].
  rewrite !length_zip_with, length_fmap, length_pipeline_head, Hlen.
  rewrite length_train_mean, length_train_std. done.
Qed.

Lemma RandomHorizontalFlip_keeps : keeps_channels RandomHorizontalFlip.
Proof.
  intros g img. cbn [apply_transform].
  destruct (bernoulli g) as [[] g']; do 2 eexists; (split; [reflexivity|]);
    [apply length_fmap | done].
Qed.

Lemma RandomVerticalFlip_keeps : keeps_channels RandomVerticalFlip.
Proof.
  intros g img. cbn [apply_transform].
  destruct (bernoulli g) as [[] g']; do 2 eexists; (split; [reflexivity|]);
    [apply length_fmap | done].
Qed.

Lemma RandomRotation_keeps degrees : keeps_channels (RandomRotation degrees).
Proof.
  intros g img. destruct degrees as [lo hi]. cbn [apply_transform].
  destruct (uniform _ _ g) as [angle g']. do 2 eexists.
  split; [reflexivity|]. apply length_fmap.
Qed.

Lemma RandomResizedCrop_keeps size scale :
  keeps_channels (RandomResizedCrop size scale).
Proof.
  intros g img. cbn [apply_transform].
  destruct (crop_params _ _ g) as [[[[top lft] h] w] g']. do 2 eexists.
  split; [reflexivity|]. apply length_fmap.
Qed.

(** [RandomChoice] returns what the chosen transform returns, provided the
    index drawn lies in the list (which [random.choices] guarantees). *)
Lemma RandomChoice_keeps (ts : list Transform) :
  (∀ n g, (0 < n)%nat → ((choices n g).1 < n)%nat) →
  ts ≠ [] → Forall keeps_channels ts → keeps_channels (RandomChoice ts).
Proof.
  intros Hchoice Hne Hall g img. cbn [apply_transform].
  pose proof (Hchoice (length ts) g) as Hk.
  destruct (choices (length ts) g) as [k g']. cbn [fst] in Hk.
  assert (k < length ts)%nat as Hlt by (apply Hk; destruct ts; [done|simpl; lia]).
  clear Hk Hne. revert k Hlt.
  induction Hall as [|t ts' Ht _ IH]; intros k Hlt; [simpl in Hlt; lia|].
  destruct k as [|k]; [apply Ht|]. apply IH. simpl in Hlt. lia.
Qed.

Lemma Compose_cons (t : Transform) (ts : list Transform) g img :
  Compose (t :: ts) g img
  = apply_transform t g img ≫= (λ '(img', g'), Compose ts g' img').
Proof. reflexivity. Qed.

(** With 14 channels the training pipeline returns 13 channels. *)
Lemma train_transform_accepts (g : Gen) (img : Tensor) :
  (∀ n g, (0 < n)%nat → ((choices n g).1 < n)%nat) →
  (0 < height img)%nat → (0 < width img)%nat →
  length (channels img) = 14 →
  ∃ out g', Compose train_transform g img = inr (out, g')
            ∧ length (channels out) = 13.
Proof.
  intros Hchoice Hh Hw Hlen. unfold train_transform, NormalizeWithStats_init.
  rewrite Compose_cons. cbn [apply_transform].
  rewrite Resize_call_pixels by done. cbn [mbind result_bind mret result_ret].
  do 2 (rewrite Compose_cons; cbn [apply_transform mbind result_bind]).
  pose proof (length_pipeline_head img) as H0. rewrite Hlen in H0.
  set (img0 := ZeroInitializeB10_call _) in *.
  rewrite Compose_cons.
  destruct (RandomHorizontalFlip_keeps g img0) as (img1 & g1 & -> & H1).
  cbn [mbind result_bind]. rewrite Compose_cons.
  destruct (RandomVerticalFlip_keeps g1 img1) as (img2 & g2 & -> & H2).
  cbn [mbind result_bind]. rewrite Compose_cons.
  destruct (RandomChoice_keeps
              [RandomRotation (0, 0)%Z; RandomRotation (90, 90)%Z;
               RandomRotation (180, 180)%Z; RandomRotation (270, 270)%Z]
              Hchoice ltac:(done)
              ltac:(repeat constructor; apply RandomRotation_keeps) g2 img2)
    as (img3 & g3 & -> & H3).
  cbn [mbind result_bind]. rewrite Compose_cons.
  destruct (RandomResizedCrop_keeps (224, 224) (0.8, 1.0)%Q g3 img3)
    as (img4 & g4 & -> & H4).
  cbn [mbind result_bind]. rewrite Compose_cons.
  cbn [apply_transform mbind result_bind Compose].
  rewrite NormalizeWithStats_13 by lia.
  do 2 eexists. split; [reflexivity|]. cbn [channels].
  rewrite !length_zip_with, length_fmap, length_train_mean, length_train_std.
  lia.
Qed.

End PipelineClaims.

(** ** All-zero tensors through the pipelines *)

Lemma plane_map_const (f : float → float) (H W : nat) (v : float) :
  plane_map f (const_plane H W v) = const_plane H W (f v).
Proof. unfold plane_map, const_plane. by rewrite !fmap_replicate. Qed.

Lemma zip_with_replicate_l {A B C} (f : A → B → C) (n : nat) (x : A)
    (l : list B) :
  length l = n → zip_with f (replicate n x) l = f x <$> l.
Proof.
  revert n. induction l as [|y l IH]; intros [|n] Hlen; try done.
  simpl in *. f_equal. apply IH. lia.
Qed.

Lemma ZeroInitializeB10_zeros (C H W : nat) :
  ZeroInitializeB10_call (torch_zeros C H W) = torch_zeros (S C) H W.
Proof.
  unfold ZeroInitializeB10_call, torch_zeros. cbn [channels height width].
  rewrite take_replicate, drop_replicate.
  rewrite <- !replicate_add. do 2 f_equal. lia.
Qed.

Lemma DropSARChannels_zeros (C H W : nat) :
  DropSARChannels_call (torch_zeros C H W) = torch_zeros (C - 2) H W.
Proof.
  unfold DropSARChannels_call, torch_zeros. cbn [channels height width].
  by rewrite drop_replicate.
Qed.

Lemma hflip_zeros (C H W : nat) :
  hflip (torch_zeros C H W) = torch_zeros C H W.
Proof.
  unfold hflip, torch_zeros, const_plane. cbn [channels height width].
  by rewrite !fmap_replicate, reverse_replicate.
Qed.

Lemma vflip_zeros (C H W : nat) :
  vflip (torch_zeros C H W) = torch_zeros C H W.
Proof.
  unfold vflip, torch_zeros, const_plane. cbn [channels height width].
  by rewrite !fmap_replicate, reverse_replicate.
Qed.

Lemma crop_plane_const (top lft h w H W : nat) (v : float) :
  crop_plane top lft h w (const_plane H W v)
  = const_plane (h `min` (H - top)) (w `min` (W - lft)) v.
Proof.
  unfold crop_plane, const_plane.
  by rewrite drop_replicate, take_replicate, fmap_replicate, drop_replicate,
    take_replicate.
Qed.

(** Normalizing 13 all-zero channels: channel [c] becomes the constant
    [(0 - mean_c) / std_c]. *)
Lemma NormalizeWithStats_zeros (H W : nat) :
  NormalizeWithStats_call (f32_of_f64 <$> train_mean)
    (f32_of_f64 <$> train_std) (torch_zeros 13 H W)
  = inr (mkTensor
           (zip_with (λ m s, const_plane H W (f32_div (f32_sub zero m) s))
                     (f32_of_f64 <$> train_mean) (f32_of_f64 <$> train_std))
           H W).
Proof.
  rewrite NormalizeWithStats_13 by apply length_replicate.
  unfold torch_zeros. cbn [channels height width]. do 2 f_equal.
  rewrite fmap_replicate, plane_map_const.
  change (f32_of_f64 zero) with zero.
  rewrite zip_with_replicate_l by (by rewrite length_train_mean).
  rewrite zip_with_fmap_l. apply zip_with_ext; [|done|done].
  intros m s. by rewrite !plane_map_const.
Qed.

Section ZeroInput.

Context {tv : Torchvision} {tvl : TorchvisionLaws}.

Lemma Resize_zeros (size : nat * nat) (C H W : nat) :
  (0 < H)%nat → (0 < W)%nat →
  resize_image size (torch_zeros C H W) = torch_zeros C size.1 size.2.
Proof.
  intros HH HW. unfold resize_image, torch_zeros. cbn [channels].
  by rewrite fmap_replicate, interpolate_zeros.
Qed.

Lemma rotate_zeros_call (angle : float) (C H W : nat) :
  rotate_call angle (torch_zeros C H W) = torch_zeros C H W.
Proof.
  unfold rotate_call, torch_zeros. cbn [channels height width].
  by rewrite fmap_replicate, rotate_zeros.
Qed.

Lemma resized_crop_zeros (top lft h w : nat) (size : nat * nat)
    (C H W : nat) :
  (0 < h ∧ 0 < w ∧ top + h ≤ H ∧ lft + w ≤ W)%nat →
  resized_crop (top, lft, h, w) size (torch_zeros C H W)
  = torch_zeros C size.1 size.2.
Proof.
  intros (Hh & Hw & Htop & Hlft). unfold resized_crop, torch_zeros.
  cbn [channels]. rewrite fmap_replicate, crop_plane_const.
  rewrite interpolate_zeros by lia. done.
Qed.

(** The first three steps, common to both pipelines. *)
Lemma pipeline_head_zeros (H W : nat) :
  (0 < H)%nat → (0 < W)%nat →
  ZeroInitializeB10_call
    (DropSARChannels_call (resize_image (224, 224) (torch_zeros 14 H W)))
  = torch_zeros 13 224 224.
Proof.
  intros HH HW.
  by rewrite Resize_zeros, DropSARChannels_zeros, ZeroInitializeB10_zeros.
Qed.

(** The validation pipeline on an all-zero tensor with 14 channels. *)
Lemma val_transform_zeros (H W : nat) (g : Gen) :
  (0 < H)%nat → (0 < W)%nat →
  Compose val_transform g (torch_zeros 14 H W)
  = inr (mkTensor
           (zip_with (λ m s, const_plane 224 224 (f32_div (f32_sub zero m) s))
                     (f32_of_f64 <$> train_mean) (f32_of_f64 <$> train_std))
           224 224, g).
Proof.
  intros HH HW. rewrite Compose_val_transform, pipeline_head_zeros by done.
  by rewrite NormalizeWithStats_zeros.
Qed.

(** The rotation that [RandomChoice] picks leaves an all-zero tensor as it
    is. *)
Lemma RandomChoice_rotation_zeros (g : Gen) (C H W : nat) :
  ∃ g', apply_transform
          (RandomChoice [ RandomRotation (0, 0)%Z; RandomRotation (90, 90)%Z;
                          RandomRotation (180, 180)%Z;
                          RandomRotation (270, 270)%Z ])
          g (torch_zeros C H W)
        = inr (torch_zeros C H W, g').
Proof.
  cbn [apply_transform length].
  pose proof (choices_lt 4 g ltac:(lia)) as Hk.
  destruct (choices 4 g) as [k g1]. cbn [fst] in Hk.
  destruct k as [|[|[|[|k]]]]; [| | | |lia];
    match goal with
    | |- context [uniform ?lo ?hi g1] =>
        destruct (uniform lo hi g1) as [angle g2]
    end; exists g2; by rewrite rotate_zeros_call.
Qed.

(** The training pipeline on an all-zero tensor with 14 channels: the
    augmentations leave the zeros in place. *)
Lemma train_transform_zeros (H W : nat) (g : Gen) :
  (0 < H)%nat → (0 < W)%nat →
  ∃ g',
    Compose train_transform g (torch_zeros 14 H W)
    = inr (mkTensor
             (zip_with
                (λ m s, const_plane 224 224 (f32_div (f32_sub zero m) s))
                (f32_of_f64 <$> train_mean) (f32_of_f64 <$> train_std))
             224 224, g').
Proof.
  intros HH HW. unfold train_transform, NormalizeWithStats_init.
  rewrite Compose_cons. cbn [apply_transform].
  rewrite Resize_call_pixels by done. cbn [mbind result_bind mret result_ret].
  do 2 (rewrite Compose_cons; cbn [apply_transform mbind result_bind]).
  rewrite pipeline_head_zeros by done.
  do 2 (rewrite Compose_cons; cbn [apply_transform];
        destruct (bernoulli _) as [[] ?]; cbn [mbind result_bind];
        rewrite ?hflip_zeros, ?vflip_zeros).
  all: rewrite Compose_cons;
    match goal with
    | |- context [apply_transform (RandomChoice ?ts) ?g0 _] =>
        destruct (RandomChoice_rotation_zeros g0 13 224 224) as [g3 ->]
    end; cbn [mbind result_bind];
    rewrite Compose_cons; cbn [apply_transform];
    change (height (torch_zeros 13 224 224)) with 224%nat;
    change (width (torch_zeros 13 224 224)) with 224%nat;
    pose proof (crop_params_inside 224 224 (0.8, 1.0)%Q g3
                  ltac:(lia) ltac:(lia)) as Hbox;
    destruct (crop_params (224, 224) (0.8, 1.0)%Q g3)
      as [[[[top lft] h] w] g4];
    cbn [fst] in Hbox; cbn [mbind result_bind];
    rewrite (resized_crop_zeros _ _ _ _ _ _ _ _ Hbox);
    rewrite Compose_cons; cbn [apply_transform fst snd];
    rewrite NormalizeWithStats_zeros;
    cbn [mbind result_bind mret result_ret Compose]; by eexists.
Qed.

End ZeroInput.

(** ** The reference torchvision instance obeys the laws used below *)

Lemma fmap_constant {A B} (f : A → B) (c : B) (l : list A) :
  (∀ x, f x = c) → f <$> l = replicate (length l) c.
Proof. intros Hf. induction l as [|x l IH]; csimpl; [done|]. by rewrite Hf, IH. Qed.

Lemma nth_replicate_default {A} (k n : nat) (x : A) :
  nth k (replicate n x) x = x.
Proof. revert k. induction n as [|n IH]; intros [|k]; simpl; auto. Qed.

Lemma nth_replicate_or {A} (k n : nat) (x d : A) :
  nth k (replicate n x) d = x ∨ nth k (replicate n x) d = d.
Proof. revert k. induction n as [|n IH]; intros [|k]; simpl; auto. Qed.

Lemma nearest_zero (H W h w : nat) :
  Reference.nearest h w (const_plane H W zero) = const_plane h w zero.
Proof.
  unfold Reference.nearest, const_plane.
  rewrite (fmap_constant _ (replicate w zero)), length_seq; [done|].
  intros i. rewrite (fmap_constant _ zero), length_seq; [done|].
  intros j.
  destruct (nth_replicate_or (i * length (replicate H (replicate W zero)) / h)
              H (replicate W zero) []) as [-> | ->].
  - apply nth_replicate_default.
  - by destruct (_ / _)%nat.
Qed.

#[export] Instance reference_vision_laws :
  TorchvisionLaws (H := Reference.vision).
Proof.
  split.
  - intros H W h w _ _. apply nearest_zero.
  - done.
  - intros n g Hn. simpl. apply Nat.mod_upper_bound. lia.
  - intros H W scale g HH HW. simpl. lia.
Qed.

(** ** Claims about the band/transform pipeline *)

(** C8. The validation pipeline is the training pipeline with exactly its
    four augmentation steps (random horizontal flip, random vertical flip,
    random choice of a rotation by 0, 90, 180 or 270 degrees, random resized
    crop) removed: what is left is the same resize, SAR-channel drop,
    zero-channel insertion and normalization, in the same order. *)
Theorem val_transform_is_train_without_augmentations :
  val_transform
  = List.filter (λ t, negb (is_augmentation t)) train_transform
  ∧ List.filter is_augmentation train_transform
    = [ RandomHorizontalFlip;
        RandomVerticalFlip;
        RandomChoice [ RandomRotation (0, 0)%Z; RandomRotation (90, 90)%Z;
                       RandomRotation (180, 180)%Z;
                       RandomRotation (270, 270)%Z ];
        RandomResizedCrop (224, 224) (0.8, 1.0)%Q ]
  ∧ val_transform
    = [ Resize (224, 224); DropSARChannels; ZeroInitializeB10;
        NormalizeWithStats_init train_mean train_std ].
Proof. repeat split. Qed.

(** C9. The validation pipeline is deterministic: applied twice to the same
    input, in whatever state the random generators are at each application,
    it gives the same outcome (the same output tensor, or the same error),
    and it leaves the generators as they were. *)
Theorem val_transform_deterministic {tv : Torchvision} (g1 g2 : Gen)
    (img : Tensor) :
  fst <$> Compose val_transform g1 img = fst <$> Compose val_transform g2 img
  ∧ snd <$> Compose val_transform g1 img = (λ _, g1) <$> Compose val_transform g1 img.
Proof.
  destruct (decide (height img = 0%nat ∨ width img = 0%nat))
    as [Hempty|Hpixels].
  - by rewrite !Compose_val_transform_empty.
  - rewrite !Compose_val_transform by lia.
    by destruct (NormalizeWithStats_call _ _ _).
Qed.

(** C4, counterexample. An input with 15 channels (one by one pixel) has at
    least 15 channels, and the validation pipeline returns no tensor for it:
    after the drop and the insertion 14 channels meet 13 constants. *)
Lemma fifteen_channels_give_no_output :
  ¬ (∀ (tv : Torchvision) (g : Gen) (img : Tensor),
       (15 ≤ length (channels img))%nat →
       ∃ out g', Compose val_transform g img = inr (out, g')
                 ∧ length (channels out) = 13%nat).
Proof.
  intros Hclaim.
  destruct (Hclaim Reference.vision 0%nat (torch_zeros 15 1 1))
    as (out & g' & Hrun & _); [simpl; lia|].
  rewrite val_transform_rejects in Hrun by (simpl; lia). discriminate.
Qed.

(** C4, amended. For every input with exactly 14 channels (2 SAR and 12
    optical) and any spatial size that is not empty (height and width at
    least 1), the training pipeline and the validation pipeline both return
    a tensor with exactly 13 channels. ([random.choices] returns an index
    into the list it is given.) *)
Theorem pipelines_return_13_channels {tv : Torchvision} (g : Gen)
    (img : Tensor) :
  (∀ n g, (0 < n)%nat → ((choices n g).1 < n)%nat) →
  (0 < height img)%nat → (0 < width img)%nat →
  length (channels img) = 14%nat →
  (∃ out g', Compose train_transform g img = inr (out, g')
             ∧ length (channels out) = 13%nat)
  ∧ (∃ out g', Compose val_transform g img = inr (out, g')
               ∧ length (channels out) = 13%nat).
Proof.
  intros Hchoice Hh Hw Hlen. split.
  - by apply train_transform_accepts.
  - destruct (val_transform_accepts g img Hh Hw Hlen)
      as (out & Hrun & Hout & _).
    eauto.
Qed.

Lemma pipelines_return_13_channels_witness :
  (0 < height (torch_zeros 14 2 3))%nat
  ∧ (0 < width (torch_zeros 14 2 3))%nat
  ∧ length (channels (torch_zeros 14 2 3)) = 14%nat
  ∧ (∃ out g', Compose (H := Reference.vision) train_transform 0%nat
                 (torch_zeros 14 2 3) = inr (out, g')
               ∧ length (channels out) = 13%nat)
  ∧ (∃ out g', Compose (H := Reference.vision) val_transform 0%nat
                 (torch_zeros 14 2 3) = inr (out, g')
               ∧ length (channels out) = 13%nat).
Proof.
  split; [simpl; lia|]. split; [simpl; lia|]. split; [reflexivity|].
  apply (pipelines_return_13_channels (tv := Reference.vision) 0%nat
           (torch_zeros 14 2 3)).
  - exact (choices_lt (TorchvisionLaws := reference_vision_laws)).
  - simpl. lia.
  - simpl. lia.
  - reflexivity.
Defined.

(** C3, counterexample. The all-zero tensor of shape (15, 1, 1): the
    validation pipeline raises the broadcasting error instead of returning a
    tensor of shape (13, 224, 224). *)
Lemma zero_input_15_channels_raises :
  shape (torch_zeros 15 1 1) = (15, 1, 1)%nat
  ∧ Compose (H := Reference.vision) val_transform 0%nat (torch_zeros 15 1 1)
    = inl (ValueError
             "operands could not be broadcast together with shapes (14,224,224) (13,1,1) ").
Proof.
  split; [reflexivity|].
  rewrite val_transform_rejects by (simpl; lia). reflexivity.
Qed.

(** C3, amended. For an all-zero input tensor of shape (14, H, W) (2 SAR and
    12 optical channels) the band-transform pipeline, training or
    validation, returns a tensor of shape (13, 224, 224) in which every
    channel [c] other than the inserted one (index 9) equals the constant
    [(0 - mean_c) / std_c], the subtraction and the division being those of
    [np.float32]. *)
Theorem zero_input_is_normalized_constant {tv : Torchvision}
    {tvl : TorchvisionLaws} (H W : nat)
    (g : Gen) (pipeline : list Transform) :
  (0 < H)%nat → (0 < W)%nat →
  pipeline = train_transform ∨ pipeline = val_transform →
  ∃ out g',
    Compose pipeline g (torch_zeros 14 H W) = inr (out, g')
    ∧ shape out = (13, 224, 224)%nat
    ∧ ∀ (c : nat) (mean_c std_c : float),
        c ≠ 9%nat →
        (f32_of_f64 <$> train_mean) !! c = Some mean_c →
        (f32_of_f64 <$> train_std) !! c = Some std_c →
        channels out !! c
        = Some (const_plane 224 224 (f32_div (f32_sub zero mean_c) std_c)).
Proof.
  intros HH HW Hpipeline.
  assert (∃ g', Compose pipeline g (torch_zeros 14 H W)
                = inr (mkTensor
                         (zip_with
                            (λ m s, const_plane 224 224
                                      (f32_div (f32_sub zero m) s))
                            (f32_of_f64 <$> train_mean)
                            (f32_of_f64 <$> train_std))
                         224 224, g')) as [g' Hrun].
  { destruct Hpipeline as [-> | ->].
    - by apply train_transform_zeros.
    - exists g. by apply val_transform_zeros. }
  eexists _, g'. split; [exact Hrun|]. split; [reflexivity|].
  intros c mean_c std_c _ Hm Hs. cbn [channels].
  rewrite lookup_zip_with, Hm, Hs. reflexivity.
Qed.

Lemma zero_input_is_normalized_constant_witness :
  ∃ out g',
    Compose (H := Reference.vision) train_transform 0%nat (torch_zeros 14 1 1)
    = inr (out, g')
    ∧ shape out = (13, 224, 224)%nat
    ∧ ∀ (c : nat) (mean_c std_c : float),
        c ≠ 9%nat →
        (f32_of_f64 <$> train_mean) !! c = Some mean_c →
        (f32_of_f64 <$> train_std) !! c = Some std_c →
        channels out !! c
        = Some (const_plane 224 224 (f32_div (f32_sub zero mean_c) std_c)).
Proof.
  apply (zero_input_is_normalized_constant (tv := Reference.vision)
           (tvl := reference_vision_laws) 1 1 0%nat train_transform).
  - lia.
  - lia.
  - by left.
Defined.

(** C2, the code at the failing input. [ZeroInitializeB10] puts the zero
    channel after the first nine channels, at index 9. In
    [ALL_BANDS_S2_L2A] index 9 is B9 and B10 is index 10; the constants
    (mean 0, std 1) are at index 10, those at index 9 are B9's. So the
    inserted channel is normalized with B9's constants: on an all-zero
    input it comes out as [(0 - 2645.51888987) / 1582.28010962], about
    -1.672, not as 0, and it is the channel after it that is divided by 1. *)
Theorem zero_channel_is_normalized_as_B9 {tv : Torchvision} (g : Gen) :
  (∀ img, channels (ZeroInitializeB10_call img)
          = (take 9 (channels img)
             ++ [const_plane (height img) (width img) zero]
             ++ drop 9 (channels img))%list)
  ∧ ALL_BANDS_S2_L2A !! 9%nat = Some "B9"
  ∧ ALL_BANDS_S2_L2A !! 10%nat = Some "B10"
  ∧ S2A_MEAN !! 10%nat = Some 0%Q ∧ S2A_STD !! 10%nat = Some 1%Q
  ∧ S2A_MEAN !! 9%nat = Some 2645.51888987%Q
  ∧ S2A_STD !! 9%nat = Some 1582.28010962%Q
  ∧ ∃ out,
      Compose val_transform g (torch_zeros 14 1 1) = inr (out, g)
      ∧ channels out !! 9%nat
        = Some (const_plane 224 224 (S754_finite true 14025468 (-23)))
      ∧ S754_finite true 14025468 (-23)
        = f32_div (f32_sub zero (f32_of_f64 (f64_of_Q 2645.51888987%Q)))
                  (f32_of_f64 (f64_of_Q 1582.28010962%Q)).
Proof.
  split; [reflexivity|]. do 6 (split; [reflexivity|]).
  eexists. split.
  { rewrite Compose_val_transform by (simpl; lia).
    rewrite NormalizeWithStats_13 by (rewrite length_pipeline_head; done).
    cbn [fmap result_fmap]. reflexivity. }
  split; [|by vm_compute]. cbn [channels].
  rewrite !lookup_zip_with, !list_lookup_fmap.
  unfold ZeroInitializeB10_call, torch_zeros. cbn [channels height width
    DropSARChannels_call resize_image fst snd].
  rewrite lookup_app_r; rewrite length_take, length_drop, length_fmap,
    length_replicate; [|simpl; lia].
  change (9 - 9 `min` (14 - 2))%nat with 0%nat.
  change (train_mean !! 9%nat) with (Some (f64_of_Q 2645.51888987%Q)).
  change (train_std !! 9%nat) with (Some (f64_of_Q 1582.28010962%Q)).
  cbn [replicate app lookup list_lookup fmap option_fmap option_map
       mbind option_bind].
  rewrite !plane_map_const.
  apply (f_equal (λ v, Some (const_plane 224 224 v))). by vm_compute.
Qed.

(** * Binary64 facts behind [int(n_samples * train_frac)] *)

Section Rounding.

Local Open Scope Z_scope.

Lemma digits2_pos_size (p : positive) : digits2_pos p = Pos.size p.
Proof. induction p as [p IH|p IH|]; simpl; congruence. Qed.

Lemma digits2_pos_gt (p : positive) : Zpos p < 2 ^ Zpos (digits2_pos p).
Proof.
  rewrite digits2_pos_size. pose proof (Pos.size_gt p) as Hgt.
  apply Pos2Z.pos_lt_pos in Hgt. by rewrite Pos2Z.inj_pow in Hgt.
Qed.

Lemma digits2_pos_le (p : positive) : 2 ^ (Zpos (digits2_pos p) - 1) ≤ Zpos p.
Proof.
  rewrite digits2_pos_size. pose proof (Pos.size_le p) as Hle.
  apply Pos2Z.pos_le_pos in Hle. rewrite Pos2Z.inj_pow in Hle.
  replace (Zpos (Pos.size p)) with (Z.succ (Zpos (Pos.size p) - 1)) in Hle by lia.
  rewrite Z.pow_succ_r in Hle by lia. lia.
Qed.

(** A positive number below [2 ^ k] has at most [k] digits. *)
Lemma digits2_pos_bound (p : positive) (k : Z) :
  Zpos p < 2 ^ k → Zpos (digits2_pos p) ≤ k.
Proof.
  intros Hlt. destruct (Z.le_gt_cases (Zpos (digits2_pos p)) k) as [|Hgt]; [done|].
  pose proof (digits2_pos_le p) as Hle.
  assert (2 ^ k ≤ 2 ^ (Zpos (digits2_pos p) - 1)); [|lia].
  apply Z.pow_le_mono_r; lia.
Qed.

Lemma iter_xO_mul (p : positive) (d : positive) :
  Zpos (Pos.iter xO p d) = Zpos p * 2 ^ Zpos d.
Proof.
  revert p. induction d as [|d IH] using Pos.peano_ind; intros p.
  - simpl. lia.
  - rewrite Pos.iter_succ, Pos2Z.inj_succ, Z.pow_succ_r by lia.
    rewrite Pos2Z.inj_xO, IH. lia.
Qed.

Lemma iter_xO_digits (p : positive) (d : positive) :
  Zpos (digits2_pos (Pos.iter xO p d)) = Zpos (digits2_pos p) + Zpos d.
Proof.
  revert p. induction d as [|d IH] using Pos.peano_ind; intros p.
  - simpl. lia.
  - rewrite Pos.iter_succ. simpl. rewrite Pos2Z.inj_succ, IH. lia.
Qed.

(** *** Shifting a mantissa to the right *)

Lemma shr_1_spec (mrs : shr_record) :
  0 ≤ shr_m mrs →
  shr_m (shr_1 mrs) = shr_m mrs / 2
  ∧ (shr_r mrs = false → shr_s mrs = false → (2 | shr_m mrs) →
     shr_r (shr_1 mrs) = false ∧ shr_s (shr_1 mrs) = false).
Proof.
  destruct mrs as [m r s]. simpl. intros Hm.
  destruct m as [|[p|p|]|p]; simpl; try lia.
  - split; [done|]. intros -> ->. done.
  - split; [rewrite Pos2Z.inj_xI; rewrite Z.mul_comm, Z.div_add_l by lia; done|].
    intros _ _ [q Hq]. lia.
  - split; [rewrite Pos2Z.inj_xO; rewrite Z.mul_comm, Z.div_mul by lia; done|].
    intros -> ->. done.
  - split; [done|]. intros _ _ [q Hq]. lia.
Qed.

Lemma divide_pow2_split (a b m : Z) :
  0 ≤ a → 0 ≤ b → (2 ^ (a + b) | m) → (2 ^ a | m) ∧ (2 ^ b | m / 2 ^ a).
Proof.
  intros Ha Hb [q ->]. rewrite Z.pow_add_r by done.
  assert (0 < 2 ^ a) by (apply Z.pow_pos_nonneg; lia).
  split.
  - exists (q * 2 ^ b). lia.
  - replace (q * (2 ^ a * 2 ^ b)) with (q * 2 ^ b * 2 ^ a) by lia.
    rewrite Z.div_mul by lia. by exists q.
Qed.

Lemma pow2_xO (p : positive) : 2 ^ Zpos p~0 = 2 ^ Zpos p * 2 ^ Zpos p.
Proof.
  replace (Zpos p~0) with (Zpos p + Zpos p) by lia. apply Z.pow_add_r; lia.
Qed.

Lemma pow2_xI (p : positive) : 2 ^ Zpos p~1 = 2 * (2 ^ Zpos p * 2 ^ Zpos p).
Proof.
  replace (Zpos p~1) with (Z.succ (Zpos p~0)) by lia.
  rewrite Z.pow_succ_r by lia. by rewrite pow2_xO.
Qed.

Lemma iter_shr_1_spec (p : positive) (mrs : shr_record) :
  0 ≤ shr_m mrs →
  shr_m (SpecFloat.iter_pos shr_1 p mrs) = shr_m mrs / 2 ^ Zpos p
  ∧ (shr_r mrs = false → shr_s mrs = false → (2 ^ Zpos p | shr_m mrs) →
     shr_r (SpecFloat.iter_pos shr_1 p mrs) = false
     ∧ shr_s (SpecFloat.iter_pos shr_1 p mrs) = false).
Proof.
  revert mrs. induction p as [p IH|p IH|]; intros mrs Hm.
  - simpl SpecFloat.iter_pos.
    destruct (shr_1_spec mrs Hm) as [H1 E1].
    assert (0 ≤ shr_m (shr_1 mrs)) as Hm1
      by (rewrite H1; apply Z.div_pos; lia).
    destruct (IH _ Hm1) as [H2 E2].
    assert (0 ≤ shr_m (SpecFloat.iter_pos shr_1 p (shr_1 mrs))) as Hm2
      by (rewrite H2; apply Z.div_pos; [lia|apply Z.pow_pos_nonneg; lia]).
    destruct (IH _ Hm2) as [H3 E3].
    assert (0 < 2 ^ Zpos p) by (apply Z.pow_pos_nonneg; lia).
    split.
    + rewrite H3, H2, H1, !Z.div_div by lia. f_equal.
      rewrite pow2_xI. lia.
    + intros Hr Hs Hdiv.
      replace (Zpos p~1) with (1 + (Zpos p + Zpos p)) in Hdiv by lia.
      apply divide_pow2_split in Hdiv as [Hd1 Hd2]; [|lia..].
      change (2 ^ 1) with 2 in Hd1, Hd2. rewrite <- H1 in Hd2.
      apply divide_pow2_split in Hd2 as [Hd2 Hd3]; [|lia..].
      rewrite <- H2 in Hd3.
      destruct (E1 Hr Hs Hd1) as [Hr1 Hs1].
      destruct (E2 Hr1 Hs1 Hd2) as [Hr2 Hs2].
      exact (E3 Hr2 Hs2 Hd3).
  - simpl SpecFloat.iter_pos.
    destruct (IH _ Hm) as [H2 E2].
    assert (0 ≤ shr_m (SpecFloat.iter_pos shr_1 p mrs)) as Hm2
      by (rewrite H2; apply Z.div_pos; [lia|apply Z.pow_pos_nonneg; lia]).
    destruct (IH _ Hm2) as [H3 E3].
    assert (0 < 2 ^ Zpos p) by (apply Z.pow_pos_nonneg; lia).
    split.
    + rewrite H3, H2, !Z.div_div by lia. f_equal.
      rewrite pow2_xO. lia.
    + intros Hr Hs Hdiv.
      replace (Zpos p~0) with (Zpos p + Zpos p) in Hdiv by lia.
      apply divide_pow2_split in Hdiv as [Hd2 Hd3]; [|lia..].
      rewrite <- H2 in Hd3.
      destruct (E2 Hr Hs Hd2) as [Hr2 Hs2].
      exact (E3 Hr2 Hs2 Hd3).
  - simpl SpecFloat.iter_pos. change (2 ^ 1) with 2. apply shr_1_spec, Hm.
Qed.

Lemma shr_fexp_exact_spec (m e : Z) :
  0 ≤ m →
  let e' := Z.max e (fexp 53 1024 (Zdigits2 m + e)) in
  snd (shr_fexp 53 1024 m e loc_Exact) = e'
  ∧ shr_m (fst (shr_fexp 53 1024 m e loc_Exact)) = m / 2 ^ (e' - e)
  ∧ ((2 ^ (e' - e) | m) →
     loc_of_shr_record (fst (shr_fexp 53 1024 m e loc_Exact)) = loc_Exact).
Proof.
  intros Hm e'. unfold shr_fexp, shr. fold (fexp 53 1024 (Zdigits2 m + e)).
  destruct (fexp 53 1024 (Zdigits2 m + e) - e) as [|p|p] eqn:Hq; simpl fst;
    simpl snd.
  - replace (e' - e) with 0 by lia. rewrite Z.div_1_r.
    split; [lia|]. split; [done|]. done.
  - replace (e' - e) with (Zpos p) by lia.
    destruct (iter_shr_1_spec p (Build_shr_record m false false) Hm)
      as [Hdiv Hexact].
    split; [lia|]. split; [exact Hdiv|].
    intros Hd. destruct (Hexact eq_refl eq_refl Hd) as [Hr Hs].
    destruct (SpecFloat.iter_pos shr_1 p _) as [m' r' s'].
    simpl in Hr, Hs. by subst.
  - replace (e' - e) with 0 by lia. rewrite Z.div_1_r.
    split; [lia|]. split; [done|]. done.
Qed.

Lemma round_nearest_even_bounds (m : Z) (l : location) :
  m ≤ round_nearest_even m l ≤ m + 1.
Proof.
  destruct l as [|[]]; simpl; try lia. destruct (Z.even m); lia.
Qed.

Lemma fexp64_le_0 (d : Z) : d ≤ 53 → fexp 53 1024 d ≤ 0.
Proof. unfold fexp, emin. lia. Qed.

(** Rounding to binary64 a positive value that does not exceed an integer
    [N] below [2 ^ 53] gives a float that does not exceed [N]. *)
Lemma round_below_integer (M : positive) (E N : Z) :
  E ≤ 0 → 0 ≤ N < 2 ^ 53 → Zpos M ≤ N * 2 ^ (- E) →
  at_most N (binary_round_aux 53 1024 false (Zpos M) E loc_Exact).
Proof.
  intros HE HN HM. unfold binary_round_aux.
  assert (0 < 2 ^ (- E)) by (apply Z.pow_pos_nonneg; lia).
  (* the first shift, to the exponent of the result *)
  destruct (shr_fexp_exact_spec (Zpos M) E ltac:(lia)) as (He1 & Hm1 & Hx1).
  destruct (shr_fexp 53 1024 (Zpos M) E loc_Exact) as [mrs1 e1].
  simpl fst in *; simpl snd in *.
  assert (e1 ≤ 0) as He1le.
  { rewrite He1. apply Z.max_lub; [done|]. apply fexp64_le_0.
    simpl Zdigits2. cut (Zpos (digits2_pos M) ≤ 53 - E); [lia|].
    apply digits2_pos_bound.
    replace (53 - E) with (53 + - E) by lia. rewrite Z.pow_add_r by lia. nia. }
  assert (E ≤ e1) as HEe1 by lia.
  rewrite <- He1 in Hm1, Hx1. set (s := e1 - E) in *.
  assert (0 < 2 ^ s) by (apply Z.pow_pos_nonneg; lia).
  assert (0 < 2 ^ (- e1)) by (apply Z.pow_pos_nonneg; lia).
  assert (N * 2 ^ (- E) = N * 2 ^ (- e1) * 2 ^ s) as Hsplit.
  { replace (- E) with (- e1 + s) by lia. rewrite Z.pow_add_r by lia. lia. }
  set (m1 := round_nearest_even (shr_m mrs1) (loc_of_shr_record mrs1)).
  assert (0 ≤ m1 ≤ N * 2 ^ (- e1)) as Hm1b.
  { pose proof (round_nearest_even_bounds (shr_m mrs1)
                  (loc_of_shr_record mrs1)) as Hrne. fold m1 in Hrne.
    assert (0 ≤ shr_m mrs1) by (rewrite Hm1; apply Z.div_pos; lia).
    split; [lia|].
    destruct (Z.eq_dec (Zpos M mod 2 ^ s) 0) as [Hmod|Hmod].
    - apply Z.mod_divide in Hmod; [|lia]. unfold m1.
      rewrite (Hx1 Hmod). simpl. rewrite Hm1.
      apply Z.div_le_upper_bound; lia.
    - assert (Zpos M ≠ N * 2 ^ (- e1) * 2 ^ s) as Hne.
      { intros Heq. apply Hmod. rewrite Heq. apply Z.mod_mul. lia. }
      assert (shr_m mrs1 < N * 2 ^ (- e1)); [|lia].
      rewrite Hm1. apply Z.div_lt_upper_bound; lia. }
  (* the second shift, after a carry *)
  destruct (shr_fexp_exact_spec m1 e1 ltac:(lia)) as (He2 & Hm2 & _).
  destruct (shr_fexp 53 1024 m1 e1 loc_Exact) as [mrs2 e2].
  simpl fst in *; simpl snd in *.
  assert (e2 ≤ 0) as He2le.
  { rewrite He2. apply Z.max_lub; [done|]. apply fexp64_le_0.
    destruct m1 as [|p1|p1]; simpl Zdigits2; [lia| |lia].
    cut (Zpos (digits2_pos p1) ≤ 53 - e1); [lia|].
    apply digits2_pos_bound.
    replace (53 - e1) with (53 + - e1) by lia. rewrite Z.pow_add_r by lia.
    nia. }
  assert (e1 ≤ e2) as He12 by lia.
  rewrite <- He2 in Hm2. set (t := e2 - e1) in *.
  assert (0 < 2 ^ t) by (apply Z.pow_pos_nonneg; lia).
  assert (0 < 2 ^ (- e2)) by (apply Z.pow_pos_nonneg; lia).
  assert (0 ≤ shr_m mrs2 ≤ N * 2 ^ (- e2)) as Hm2b.
  { rewrite Hm2. split; [apply Z.div_pos; lia|].
    apply Z.div_le_upper_bound; [lia|].
    replace (- e1) with (t + - e2) in Hm1b by lia.
    rewrite Z.pow_add_r in Hm1b by lia. lia. }
  destruct (shr_m mrs2) as [|m|m]; [done| |lia].
  replace (e2 <=? 1024 - 53) with true by (symmetry; apply Z.leb_le; lia).
  simpl. lia.
Qed.

(** The integer part of such a float lies between 0 and [N]; rounding down
    and rounding toward zero agree on it. *)
Lemma at_most_int (N : Z) (x : float) :
  0 ≤ N → at_most N x →
  ∃ k, py_int x = inr k ∧ py_floor x = inr k ∧ 0 ≤ k ≤ N.
Proof.
  intros HN Hx. destruct x as [s|s| |[] m e]; try done.
  - exists 0. simpl. repeat split; lia.
  - destruct Hx as [He Hm].
    unfold py_int, py_floor, trunc_finite, floor_finite, cond_Zopp.
    destruct e as [|p|p]; [| lia |].
    + exists (Zpos m). rewrite Z.shiftl_0_r. simpl in Hm. repeat split; lia.
    + exists (Zpos m / 2 ^ Zpos p). rewrite Z.shiftr_div_pow2 by lia.
      change (- Z.neg p) with (Zpos p) in *.
      assert (0 < 2 ^ Zpos p) by (apply Z.pow_pos_nonneg; lia).
      repeat split.
      * apply Z.div_pos; lia.
      * apply Z.div_le_upper_bound; lia.
Qed.

(** [float(n)] for [0 <= n < 2 ^ 53] does not exceed [n]. *)
Lemma f64_of_Z_at_most (n : Z) : 0 ≤ n < 2 ^ 53 → at_most n (f64_of_Z n).
Proof.
  intros Hn. unfold f64_of_Z, binary_normalize.
  destruct n as [|p|p]; [done| |lia].
  unfold binary_round, shl_align.
  destruct (fexp 53 1024 (Zpos (digits2_pos p) + 0) - 0) as [|d|d] eqn:Hd.
  - apply round_below_integer; [lia|lia|]. simpl. lia.
  - apply round_below_integer; [lia|lia|]. simpl. lia.
  - assert (fexp 53 1024 (Zpos (digits2_pos p) + 0) = Zneg d) as -> by lia.
    apply round_below_integer; [lia|lia|].
    change (- Z.neg d) with (Zpos d). rewrite iter_xO_mul. lia.
Qed.

Lemma compare_cont_le (p q : positive) :
  match Pos.compare_cont Eq p q with Gt => false | _ => true end = true →
  Zpos p ≤ Zpos q.
Proof.
  change (Pos.compare_cont Eq p q) with (Pos.compare p q).
  destruct (Pos.compare_spec p q); intros; try done; lia.
Qed.

(** A fraction does not exceed 1. *)
Lemma is_fraction_at_most (x : float) : is_fraction x → at_most 1 x.
Proof.
  intros (Hvalid & H0 & H1). destruct x as [s|s| |s m e]; try done.
  - by destruct s.
  - destruct s; [done|]. clear H0.
    change (f64_of_Z 1) with (S754_finite false 4503599627370496 (-52)) in H1.
    simpl in Hvalid. apply andb_prop in Hvalid as [Hcanon _].
    unfold canonical_mantissa in Hcanon. apply Z.eqb_eq in Hcanon.
    unfold fexp, emin in Hcanon.
    pose proof (digits2_pos_gt m) as Hgt.
    assert (Zpos (digits2_pos m) ≤ 53) as Hdig by lia.
    assert (Zpos m < 2 ^ 53) as Hm.
    { eapply Z.lt_le_trans; [exact Hgt|]. apply Z.pow_le_mono_r; lia. }
    revert H1. unfold SFleb, SFcompare.
    destruct (Z.compare_spec e (-52)) as [->|Hlt|Hgt']; [| |done].
    + intros H1. apply compare_cont_le in H1.
      split; [lia|]. change (- -52) with 52.
      assert (2 ^ 52 = 4503599627370496) as -> by (by vm_compute). lia.
    + intros _. split; [lia|]. rewrite Z.mul_1_l.
      apply Z.lt_le_incl, (Z.lt_le_trans _ _ _ Hm).
      apply Z.pow_le_mono_r; lia.
Qed.

(** The product of [float(n)] and a fraction does not exceed [n]. *)
Lemma f64_mul_at_most (n : Z) (x y : float) :
  0 ≤ n < 2 ^ 53 → at_most n x → at_most 1 y → at_most n (f64_mul x y).
Proof.
  intros Hn Hx Hy.
  destruct x as [sx|sx| |[] mx ex]; try done;
    destruct y as [sy|sy| |[] my ey]; try done.
  destruct Hx as [Hex Hmx], Hy as [Hey Hmy].
  unfold f64_mul, SFmul. simpl xorb.
  apply round_below_integer; [lia|lia|].
  replace (- (ex + ey)) with (- ex + - ey) by lia.
  rewrite Z.pow_add_r by lia. rewrite Pos2Z.inj_mul.
  assert (0 < 2 ^ (- ex)) by (apply Z.pow_pos_nonneg; lia).
  assert (0 < 2 ^ (- ey)) by (apply Z.pow_pos_nonneg; lia).
  nia.
Qed.

(** [int(n_samples * train_frac)] for a fraction: an index between 0 and
    [n_samples], equal to [math.floor(n_samples * train_frac)]. *)
Lemma split_index_fraction (n : Z) (train_frac : float) :
  0 ≤ n < 2 ^ 53 → is_fraction train_frac →
  ∃ k, split_index n train_frac = inr k
       ∧ (py_int_mul_float n train_frac ≫= py_floor) = inr k
       ∧ 0 ≤ k ≤ n.
Proof.
  intros Hn Hfrac. unfold split_index, py_int_mul_float, py_int_to_float.
  pose proof (f64_of_Z_at_most n Hn) as Hx.
  assert (at_most n (f64_mul (f64_of_Z n) train_frac)) as Hprod
    by (apply f64_mul_at_most; [done|done|by apply is_fraction_at_most]).
  destruct (at_most_int n _ ltac:(lia) Hprod) as (k & Hint & Hfloor & Hk).
  exists k. destruct (f64_of_Z n) as [s|s| |s m e]; try done.
Qed.

End Rounding.

(** * Properties of the country splitter *)

Section Splitter.

Context {py : PyRuntime}.

Lemma length_slice_to {A} (l : list A) (k : Z) :
  (0 ≤ k ≤ Z.of_nat (length l))%Z → length (slice_to l k) = Z.to_nat k.
Proof.
  intros Hk. unfold slice_to, slice_index.
  destruct (Z.ltb_spec k 0); [lia|]. rewrite length_take. lia.
Qed.

Lemma slice_to_from {A} (l : list A) (k : Z) :
  (slice_to l k ++ slice_from l k)%list = l.
Proof. apply take_drop. Qed.

(** The two identifier sets of a sample without repetition: disjoint, of
    sizes [k] and [n - k], and inside the population. *)
Lemma split_sets (population sampled : list string) (k : Z) :
  NoDup population → sampled ⊆+ population →
  (0 ≤ k ≤ Z.of_nat (length sampled))%Z →
  let train_ids : gset string := list_to_set (slice_to sampled k) in
  let val_ids : gset string := list_to_set (slice_from sampled k) in
  train_ids ## val_ids
  ∧ size train_ids = Z.to_nat k
  ∧ (size train_ids + size val_ids)%nat = length sampled
  ∧ train_ids ⊆ list_to_set population
  ∧ val_ids ⊆ list_to_set population.
Proof.
  intros Hnodup Hsub Hk train_ids val_ids.
  assert (NoDup sampled) as Hnd.
  { destruct (submseteq_Permutation _ _ Hsub) as [rest Hperm].
    rewrite Hperm in Hnodup. by apply NoDup_app in Hnodup as [? _]. }
  rewrite <- (slice_to_from sampled k) in Hnd, Hsub.
  apply NoDup_app in Hnd as (Hnd1 & Hdisj & Hnd2).
  assert (size train_ids = Z.to_nat k) as Htrain.
  { unfold train_ids. rewrite size_list_to_set by done.
    by apply length_slice_to. }
  repeat split.
  - intros x Hx1 Hx2. unfold train_ids, val_ids in *.
    rewrite elem_of_list_to_set in Hx1, Hx2. by eapply Hdisj.
  - done.
  - unfold train_ids, val_ids. rewrite !size_list_to_set by done.
    rewrite <- length_app. by rewrite slice_to_from.
  - intros x Hx. unfold train_ids in Hx. rewrite elem_of_list_to_set in Hx.
    rewrite elem_of_list_to_set. eapply elem_of_submseteq; [|exact Hsub].
    apply elem_of_app. by left.
  - intros x Hx. unfold val_ids in Hx. rewrite elem_of_list_to_set in Hx.
    rewrite elem_of_list_to_set. eapply elem_of_submseteq; [|exact Hsub].
    apply elem_of_app. by right.
Qed.

End Splitter.

(** ** The reference sampler obeys the contract of [random.sample] *)

Lemma rotate_Permutation {A} (n : nat) (l : list A) : rotate n l ≡ₚ l.
Proof.
  unfold rotate. rewrite Permutation_app_comm. by rewrite take_drop.
Qed.

#[export] Instance reference_python_laws :
  PyRuntimeLaws (H := Reference.python).
Proof.
  split.
  - intros g population k Hk. simpl. unfold Reference.sample_window.
    rewrite decide_True by done. eexists. split; [reflexivity|]. split.
    + rewrite length_take, length_rotate. lia.
    + etrans; [apply submseteq_take|].
      apply Permutation_submseteq, rotate_Permutation.
  - intros g population k Hk. simpl. unfold Reference.sample_window.
    rewrite decide_False by done. eauto.
Qed.

(** What a valid call returns. *)
Lemma split_partition `{PyRuntimeLaws}
    (meta : list MetaRow) (proc : Process) (c : string) (n_samples : Z)
    (seed : option Z) (train_frac : float) (size3 : nat * nat * nat)
    (snowy cloudy : bool) :
  let available := available_ids meta c in
  NoDup available →
  available ≠ [] →
  (0 ≤ n_samples ≤ Z.of_nat (length available))%Z →
  (n_samples < 2 ^ 53)%Z →
  is_fraction train_frac →
  ∃ train_ds val_ds,
    load_country_train_val meta proc c n_samples seed train_frac size3
                           snowy cloudy = inr (train_ds, val_ds)
    ∧ keep_ids train_ds ## keep_ids val_ds
    ∧ (py_int_mul_float n_samples train_frac ≫= py_floor)
      = inr (Z.of_nat (size (keep_ids train_ds)))
    ∧ Z.of_nat (size (keep_ids train_ds) + size (keep_ids val_ds)) = n_samples
    ∧ keep_ids train_ds ⊆ list_to_set available
    ∧ keep_ids val_ds ⊆ list_to_set available.
Proof.
  intros available Hnodup Hne Hn H53 Hfrac. unfold load_country_train_val.
  fold available. rewrite decide_False by done.
  rewrite decide_False by lia.
  destruct (sample_returns (Random seed proc) available n_samples Hn)
    as (sampled & -> & Hlen & Hsub).
  destruct (split_index_fraction n_samples train_frac ltac:(lia) Hfrac)
    as (k & -> & Hfloor & Hk).
  cbn [mbind result_bind mret result_ret].
  destruct (split_sets available sampled k Hnodup Hsub ltac:(lia))
    as (Hdisj & Hsize & Hsum & Htrain & Hval).
  do 2 eexists. split; [reflexivity|]. cbn [keep_ids].
  repeat split; try done.
  - rewrite Hfloor, Hsize. f_equal. lia.
  - rewrite Hsum. lia.
Qed.

(** The default [train_frac=0.8] is a fraction. *)
Lemma default_train_frac_is_fraction : is_fraction default_train_frac.
Proof. repeat split; by vm_compute. Qed.

Lemma floor_1000_default :
  (py_int_mul_float 1000 default_train_frac ≫= py_floor) = inr 800%Z.
Proof. by vm_compute. Qed.

(** ** Claims about the splitter *)


(** C6. When the country has no patch with [split == "train"] in the
    metadata, or when [n_samples] exceeds the number of matches, the
    splitter raises [ValueError] (the script's exception for what the
    specification calls a configuration error) with a message that names
    the country, and for the second case the two counts; no dataset, hence
    no identifier set, is returned. *)
Theorem splitter_rejects_invalid_requests {py : PyRuntime}
    (meta : list MetaRow) (proc : Process) (c : string) (n_samples : Z)
    (seed : option Z) (train_frac : float) (size3 : nat * nat * nat)
    (snowy cloudy : bool) :
  available_ids meta c = []
  ∨ (Z.of_nat (length (available_ids meta c)) < n_samples)%Z →
  ∃ msg,
    load_country_train_val meta proc c n_samples seed train_frac size3
                           snowy cloudy = inl (ValueError msg)
    ∧ (msg = "No TRAIN patches found for country=" +:+ py_repr c
       ∨ msg = "Requested " +:+ pretty n_samples +:+ " samples but only "
               +:+ pretty (length (available_ids meta c))
               +:+ " TRAIN patches available for " +:+ py_repr c).
Proof.
  intros Hbad. unfold load_country_train_val.
  destruct (decide (available_ids meta c = [])) as [Hnil|Hnil].
  - eexists. split; [reflexivity|]. by left.
  - destruct Hbad as [?|Hlt]; [done|]. rewrite decide_True by done.
    eexists. split; [reflexivity|]. by right.
Qed.

Lemma splitter_rejects_invalid_requests_witness :
  ∃ msg,
    load_country_train_val (H := Reference.python) Reference.meta5
      Reference.proc0 "Ireland" 4 (Some 5%Z) default_train_frac
      default_img_size false false = inl (ValueError msg)
    ∧ (msg = "No TRAIN patches found for country="
             +:+ @py_repr Reference.python "Ireland"
       ∨ msg = "Requested " +:+ pretty 4%Z +:+ " samples but only "
               +:+ pretty (length (available_ids Reference.meta5 "Ireland"))
               +:+ " TRAIN patches available for "
               +:+ @py_repr Reference.python "Ireland").
Proof.
  apply (splitter_rejects_invalid_requests (py := Reference.python)
           Reference.meta5 Reference.proc0 "Ireland" 4 (Some 5%Z)
           default_train_frac default_img_size false false).
  right. vm_compute. reflexivity.
Defined.

(** C7. With a seed given, the outcome of the splitter is a function of its
    arguments (and of the metadata): two calls with the same country,
    [n_samples], seed and [train_frac] give the same pair of datasets, hence
    the same [(train_ids, val_ids)], whatever the state of the global random
    generator and of the system's entropy source at either call. *)
Theorem splitter_is_deterministic_given_seed {py : PyRuntime}
    (meta : list MetaRow) (proc1 proc2 : Process) (c : string)
    (n_samples : Z) (the_seed : Z) (train_frac : float)
    (size3 : nat * nat * nat) (snowy cloudy : bool) :
  load_country_train_val meta proc1 c n_samples (Some the_seed) train_frac
                         size3 snowy cloudy
  = load_country_train_val meta proc2 c n_samples (Some the_seed) train_frac
                           size3 snowy cloudy.
Proof. reflexivity. Qed.

(** Without a seed (the default [seed=None]) the sample does depend on the
    entropy source: the reference sampler gives two different splits. *)
Lemma unseeded_split_depends_on_entropy :
  fst <$> load_country_train_val (H := Reference.python) Reference.meta5
            (@mkProcess Reference.python 0%nat 0%Z) "Ireland" 2 None default_train_frac
            default_img_size false false
  ≠ fst <$> load_country_train_val (H := Reference.python) Reference.meta5
              (@mkProcess Reference.python 0%nat 1%Z) "Ireland" 2 None default_train_frac
              default_img_size false false.
Proof.
  vm_compute. intros Heq. injection Heq as Heq. discriminate.
Qed.

(** The call the script makes: 800 training and 200 validation identifiers,
    all among Ireland's train-split patches. *)
Lemma script_split_800_200 `{PyRuntimeLaws} (meta : list MetaRow)
    (proc : Process) :
  NoDup (available_ids meta "Ireland") →
  (1000 ≤ length (available_ids meta "Ireland"))%nat →
  ∃ train_ds val_ds,
    script_split meta proc = inr (train_ds, val_ds)
    ∧ size (keep_ids train_ds) = 800%nat
    ∧ size (keep_ids val_ds) = 200%nat
    ∧ keep_ids train_ds ## keep_ids val_ds
    ∧ keep_ids train_ds ∪ keep_ids val_ds
      ⊆ list_to_set (available_ids meta "Ireland").
Proof.
  intros Hnodup Hlen.
  assert (available_ids meta "Ireland" ≠ []) as Hne.
  { intros Hnil. rewrite Hnil in Hlen. simpl in Hlen. lia. }
  destruct (split_partition meta proc "Ireland" 1000 (Some seed)
              default_train_frac default_img_size false false
              Hnodup Hne ltac:(lia) eq_refl default_train_frac_is_fraction)
    as (train_ds & val_ds & Hrun & Hdisj & Hfloor & Hsum & Htrain & Hval).
  exists train_ds, val_ds. split; [exact Hrun|].
  rewrite floor_1000_default in Hfloor. injection Hfloor as Hfloor.
  repeat split; [lia|lia|done|]. by apply union_least.
Qed.

(** * Properties of the model assembly and of the training driver *)

Section Assembly.

Context {rt : TorchRuntime}.

Lemma copy_param_self (l : loc) (h : gmap loc (Param Value)) :
  copy_param l l h = inr h.
Proof.
  unfold copy_param. destruct (h !! l) as [[v g]|] eqn:Hl; [|done].
  rewrite decide_True by done. simpl. by rewrite insert_id.
Qed.

(** Loading a module's own state dict copies every tensor onto itself. *)
Lemma load_state_dict_self (m : gmap string loc)
    (h : gmap loc (Param Value)) :
  load_state_dict m (state_dict m) h = inr h.
Proof.
  unfold load_state_dict, state_dict. rewrite decide_True by done.
  cut (m ⊆ m → map_fold (λ name dst acc,
                  h' ← acc;
                  match m !! name with
                  | Some src => copy_param dst src h'
                  | None => inr h'
                  end) (inr h) m = inr h); [auto|].
  generalize m at 1 4. intros m'.
  apply (map_fold_weak_ind (λ r (m0 : gmap string loc), m0 ⊆ m → r = inr h)).
  - done.
  - intros name dst m0 r Hfresh IH Hsub.
    rewrite IH by (etrans; [by apply insert_subseteq|done]).
    cbn [mbind result_bind].
    rewrite (lookup_weaken _ _ name dst (lookup_insert_eq _ _ _) Hsub).
    apply copy_param_self.
Qed.

Lemma dom_map_fold_alter {V} (f : Param V → Param V) (m : gmap string loc)
    (h : gmap loc (Param V)) :
  dom (map_fold (λ _ l acc, alter f l acc) h m) = dom h.
Proof.
  apply (map_fold_weak_ind (λ r (_ : gmap string loc), dom r = dom h)).
  - done.
  - intros name l m0 r _ IH. by rewrite dom_alter_L.
Qed.

(** After [mark_trainable], the tensors of the module that exist in the
    store require a gradient. *)
Lemma mark_trainable_spec {V} (m : gmap string loc) (h : gmap loc (Param V))
    (name : string) (l : loc) :
  m !! name = Some l → l ∈ dom h →
  requires_grad <$> mark_trainable m h !! l = Some true.
Proof.
  unfold mark_trainable. revert name l.
  apply (map_fold_weak_ind
           (λ r (m0 : gmap string loc),
              dom r = dom h
              ∧ ∀ name l, m0 !! name = Some l → l ∈ dom h →
                          requires_grad <$> r !! l = Some true)).
  - split; [done|]. intros name l. by rewrite lookup_empty.
  - intros name0 l0 m0 r Hfresh [Hdom IH]. split; [by rewrite dom_alter_L|].
    intros name l Hl Hin. destruct (decide (l = l0)) as [->|Hne].
    + rewrite lookup_alter_eq.
      assert (is_Some (r !! l0)) as [p ->]
        by (apply elem_of_dom; by rewrite Hdom).
      done.
    + rewrite lookup_alter_ne by done.
      apply lookup_insert_Some in Hl as [[_ ->]|[_ Hl]]; [done|].
      by eapply IH.
Qed.

(** The two tensors of a new [nn.Linear]: different, and not in the store
    before. *)
Lemma nn_Linear_spec (i o : nat) (σ : Store Value TorchGen) :
  ∃ lw lb : loc,
    (nn_Linear i o σ).1 = <["weight" := lw]> {["bias" := lb]}
    ∧ (lw ∉ dom (heap σ)) ∧ (lb ∉ dom (heap σ)) ∧ lw ≠ lb
    ∧ dom (heap (nn_Linear i o σ).2) = {[lw; lb]} ∪ dom (heap σ).
Proof.
  unfold nn_Linear. destruct (linear_init i o (torch_gen σ)) as [[w b] g'].
  set (lw := fresh (dom (heap σ))).
  set (lb := fresh (dom (<[lw := mkParam w true]> (heap σ)))).
  assert (lw ∉ dom (heap σ)) as Hlw by apply is_fresh.
  assert (lb ∉ dom (<[lw := mkParam w true]> (heap σ))) as Hlb
    by apply is_fresh.
  rewrite dom_insert_L in Hlb.
  exists lw, lb. cbn [fst snd heap]. split; [done|].
  split; [done|]. split; [set_solver|]. split; [set_solver|].
  rewrite !dom_insert_L. set_solver.
Qed.

Lemma map_img_linear (lw lb : loc) :
  map_img (SA := gset loc)
    (<["weight" := lw]> ({["bias" := lb]} : gmap string loc))
  = {[lw; lb]}.
Proof.
  rewrite map_img_insert_notin_L by done. by rewrite map_img_singleton_L.
Qed.

Lemma map_img_add_prefix (prefix : string) (m : gmap string loc) :
  map_img (SA := gset loc) (add_prefix prefix m) = map_img m.
Proof. unfold add_prefix. apply map_img_kmap_L, _. Qed.

Lemma lookup_add_prefix (prefix name : string) (m : gmap string loc) :
  add_prefix prefix m !! (prefix +:+ name) = m !! name.
Proof. unfold add_prefix. apply (lookup_kmap (String.app prefix)). Qed.

End Assembly.

Section AssemblyClaims.

Context {rt : TorchRuntime}.

(** The model setup always returns: the load step cannot fail. *)
Lemma assemble_returns (model_vitb14 : gmap string loc) (embed_dim : nat)
    (checkpoint_file : gmap string Value) (σ0 : Store Value TorchGen) :
  ∃ a, assemble model_vitb14 embed_dim checkpoint_file σ0 = inr a
       ∧ loaded_store a = σ0
       ∧ (lora_model a, (nn_Linear embed_dim 19
                           (LoRA_ViT_timm model_vitb14 0 4 16 σ0).2).1)
         = ((LoRA_ViT_timm model_vitb14 0 4 16 σ0).1, classifier a)
       ∧ lora_with_head a = nn_Sequential (lora_model a) (classifier a)
       ∧ heap (assembled_store a)
         = mark_trainable (classifier a)
             (heap (nn_Linear embed_dim 19
                      (LoRA_ViT_timm model_vitb14 0 4 16 σ0).2).2).
Proof.
  unfold assemble. rewrite load_state_dict_self.
  cbn [mbind result_bind mret result_ret].
  replace (mkStore (heap σ0) (torch_gen σ0)) with σ0 by (by destruct σ0).
  destruct (LoRA_ViT_timm model_vitb14 0 4 16 σ0) as [lora σ2].
  cbn [fst snd]. destruct (nn_Linear embed_dim 19 σ2) as [head σ3].
  eexists. split; [reflexivity|]. done.
Qed.

Lemma not_prefixed (prefix name : string) (m : gmap string loc) :
  (∀ rest, name ≠ prefix +:+ rest) → add_prefix prefix m !! name = None.
Proof.
  intros Hne. unfold add_prefix. apply lookup_kmap_None; [apply _|].
  intros rest Heq. by destruct (Hne rest).
Qed.

End AssemblyClaims.

(** ** The reference torch instance obeys the law of the wrapper *)

#[export] Instance reference_torch_laws :
  TorchRuntimeLaws (H := Reference.torch).
Proof.
  split. intros m num_classes r alpha σ Hm. simpl.
  unfold Reference.wrap_one_adapter. cbn [fst snd heap].
  rewrite dom_insert_L. unfold mark_frozen. rewrite dom_map_fold_alter.
  etrans; [apply map_img_insert_subseteq|].
  rewrite map_img_add_prefix. set_solver.
Qed.

(** ** Claims about the model assembly and the training driver *)

(** C5. The model setup loads the backbone's own freshly initialized state
    dict back into the backbone: the load step returns the store it was
    given, so every parameter still has its initial value, and the
    checkpoint read from disk has no effect on the assembled model, nor on
    what is trained and saved. *)
Theorem checkpoint_is_never_applied {py : PyRuntime} {rt : TorchRuntime}
    (model_vitb14 : gmap string loc) (embed_dim : nat)
    (σ0 : Store Value TorchGen) :
  load_state_dict model_vitb14 (state_dict model_vitb14) (heap σ0)
  = inr (heap σ0)
  ∧ (∃ a, ∀ checkpoint_file,
       assemble model_vitb14 embed_dim checkpoint_file σ0 = inr a
       ∧ loaded_store a = σ0)
  ∧ ∀ (checkpoint1 checkpoint2 : gmap string Value) meta proc,
      assemble model_vitb14 embed_dim checkpoint1 σ0
      = assemble model_vitb14 embed_dim checkpoint2 σ0
      ∧ main meta proc model_vitb14 embed_dim checkpoint1 σ0
        = main meta proc model_vitb14 embed_dim checkpoint2 σ0.
Proof.
  split; [apply load_state_dict_self|]. split; [|done].
  destruct (assemble_returns model_vitb14 embed_dim ∅ σ0)
    as (a & Hrun & Hloaded & _).
  exists a. intros checkpoint_file. split; [exact Hrun|exact Hloaded].
Qed.

(** C10. What is trained, and what is saved at the end of the run, is the
    Lightning module: [lora_model] under the name [model] together with a
    linear head of its own under the name [classifier], created (by
    [nn.Linear]) when the module is built, from two tensors that did not
    exist before. The store the run ends with is the one [trainer.fit]
    returns when it is called with that module, on the store the module was
    built in; the only model the trainer is given is that module, so the
    Sequential [lora_with_head] is never handed to it; what is saved are the
    values that the module's tensors have in the store the trainer
    returned, and the tensors of the script's classifier - which the script
    has marked trainable - are not among those of the saved state. *)
Theorem lightning_module_is_trained_and_saved `{TorchRuntimeLaws}
    (model_vitb14 : gmap string loc) (embed_dim : nat)
    (checkpoint_file : gmap string Value) (σ0 : Store Value TorchGen)
    (train_loader val_loader : DataLoader) :
  map_img (SA := gset loc) model_vitb14 ⊆ dom (heap σ0) →
  ∃ a, assemble model_vitb14 embed_dim checkpoint_file σ0 = inr a
    ∧ let t := train_and_save a embed_dim train_loader val_loader in
      final_store t
      = trainer_fit (pl_model t) train_loader val_loader
          (nn_Linear embed_dim 19 (assembled_store a)).2
      ∧ fit_calls t = [pl_model t]
      ∧ pl_model t = add_prefix "model." (lora_model a)
                     ∪ add_prefix "classifier." (pl_classifier t)
      ∧ pl_classifier t = (nn_Linear embed_dim 19 (assembled_store a)).1
      ∧ map_img (SA := gset loc) (pl_classifier t)
        ## dom (heap (assembled_store a))
      ∧ lora_with_head a = nn_Sequential (lora_model a) (classifier a)
      ∧ (lora_with_head a ∉ fit_calls t)
      ∧ (∀ name l, classifier a !! name = Some l →
           requires_grad <$> heap (assembled_store a) !! l = Some true)
      ∧ saved_state t = state_dict (pl_model t)
      ∧ saved_file t
        = omap (λ l, data <$> heap (final_store t) !! l) (pl_model t)
      ∧ map_img (SA := gset loc) (classifier a)
        ## map_img (SA := gset loc) (saved_state t).
Proof.
  intros Hbackbone.
  destruct (assemble_returns model_vitb14 embed_dim checkpoint_file σ0)
    as (a & Hrun & _ & Hparts & Hseq & Hheap).
  exists a. split; [exact Hrun|]. intros t.
  (* the objects of the model setup *)
  pose proof (lora_allocated model_vitb14 0 4 16 σ0 Hbackbone) as Hlora.
  destruct (LoRA_ViT_timm model_vitb14 0 4 16 σ0) as [lora σ2].
  cbn [fst snd] in *.
  destruct (nn_Linear_spec embed_dim 19 σ2)
    as (lw & lb & Hhead & Hlw & Hlb & Hne & Hdom3).
  injection Hparts as Hlm Hcl. rewrite Hhead in Hcl.
  assert (dom (heap (assembled_store a)) = {[lw; lb]} ∪ dom (heap σ2))
    as Hdom4.
  { rewrite Hheap. unfold mark_trainable.
    by rewrite dom_map_fold_alter, Hdom3. }
  assert (map_img (SA := gset loc) (classifier a) = {[lw; lb]}) as Himg
    by (rewrite <- Hcl; apply map_img_linear).
  (* the Lightning module *)
  destruct (nn_Linear_spec embed_dim 19 (assembled_store a))
    as (lw' & lb' & Hhead' & Hlw' & Hlb' & Hne' & _).
  assert (pl_classifier t = (nn_Linear embed_dim 19 (assembled_store a)).1
          ∧ pl_model t = add_prefix "model." (lora_model a)
                         ∪ add_prefix "classifier." (pl_classifier t)
          ∧ fit_calls t = [pl_model t]
          ∧ saved_state t = pl_model t
          ∧ saved_file t
            = omap (λ l, data <$> heap (final_store t) !! l) (pl_model t)
          ∧ final_store t
            = trainer_fit (pl_model t) train_loader val_loader
                (nn_Linear embed_dim 19 (assembled_store a)).2)
    as (Hplc & Hpl & Hfit & Hsaved & Hfile & Hfinal).
  { unfold t, train_and_save, SoftConLightningModule, Trainer_fit.
    destruct (nn_Linear embed_dim 19 (assembled_store a)) as [head σ5].
    done. }
  assert (map_img (SA := gset loc) (pl_classifier t) = {[lw'; lb']})
    as Himg' by (rewrite Hplc, Hhead'; apply map_img_linear).
  assert (pl_model t !! "classifier.weight" = Some lw') as Hkey.
  { rewrite Hpl. rewrite lookup_union_r
      by (apply not_prefixed; intros rest; simpl; discriminate).
    rewrite (lookup_add_prefix "classifier." "weight"), Hplc, Hhead'.
    apply lookup_insert_eq. }
  assert (lora_with_head a !! "classifier.weight" = None) as Hnokey.
  { rewrite Hseq. unfold nn_Sequential. apply lookup_union_None.
    split; apply not_prefixed; intros rest; simpl; discriminate. }
  repeat split.
  - exact Hfinal.
  - exact Hfit.
  - exact Hpl.
  - exact Hplc.
  - rewrite Himg'. set_solver.
  - exact Hseq.
  - rewrite Hfit. intros Hin%list_elem_of_singleton. congruence.
  - intros name l Hl. rewrite Hheap.
    apply (mark_trainable_spec _ _ name); [done|].
    rewrite Hdom3. apply (elem_of_map_img_2 (SA := gset loc)) in Hl.
    rewrite Himg in Hl. set_solver.
  - exact Hsaved.
  - exact Hfile.
  - rewrite Hsaved, Hpl, Himg.
    intros l Hl Hl'. apply map_img_union_subseteq in Hl'.
    rewrite !map_img_add_prefix, Himg', Hlm in Hl'.
    rewrite Hdom4 in Hlw', Hlb'. set_solver.
Qed.

Lemma lightning_module_is_trained_and_saved_witness :
  let train_loader := mkLoader (mkDataSet datapath default_img_size "train"
                                  false false {["p1"]} train_transform)
                               32 true 4 in
  let val_loader := mkLoader (mkDataSet datapath default_img_size "train"
                                false false {["p2"]} val_transform)
                             32 false 4 in
  ∃ a, assemble (H := Reference.torch) Reference.backbone2 3 ∅
         Reference.store2 = inr a
    ∧ let t := train_and_save a 3 train_loader val_loader in
      final_store t
      = @trainer_fit Reference.torch (pl_model t) train_loader val_loader
          (nn_Linear 3 19 (assembled_store a)).2
      ∧ fit_calls t = [pl_model t]
      ∧ pl_model t = add_prefix "model." (lora_model a)
                     ∪ add_prefix "classifier." (pl_classifier t)
      ∧ pl_classifier t = (nn_Linear 3 19 (assembled_store a)).1
      ∧ map_img (SA := gset loc) (pl_classifier t)
        ## dom (heap (assembled_store a))
      ∧ lora_with_head a = nn_Sequential (lora_model a) (classifier a)
      ∧ (lora_with_head a ∉ fit_calls t)
      ∧ (∀ name l, classifier a !! name = Some l →
           requires_grad <$> heap (assembled_store a) !! l = Some true)
      ∧ saved_state t = state_dict (pl_model t)
      ∧ saved_file t
        = omap (λ l, data <$> heap (final_store t) !! l) (pl_model t)
      ∧ map_img (SA := gset loc) (classifier a)
        ## map_img (SA := gset loc) (saved_state t).
Proof.
  intros train_loader val_loader.
  apply (lightning_module_is_trained_and_saved (H := Reference.torch)
           Reference.backbone2 3 ∅ Reference.store2 train_loader val_loader).
  apply (bool_decide_unpack _). by vm_compute.
Defined.

(** * Further properties of the band transforms *)

Lemma plane_map_compose (f g : float → float) (p : plane) :
  plane_map f (plane_map g p) = plane_map (f ∘ g) p.
Proof.
  unfold plane_map. rewrite <- list_fmap_compose. apply list_fmap_ext.
  intros _ row _. simpl. by rewrite <- list_fmap_compose.
Qed.

(** The channels after [DropSARChannels] and [ZeroInitializeB10], by
    position. *)
Lemma band_steps_lookup (img : Tensor) :
  let out := ZeroInitializeB10_call (DropSARChannels_call img) in
  let k := 9 `min` (length (channels img) - 2) in
  (∀ i, (i < k)%nat → channels out !! i = channels img !! (i + 2)%nat)
  ∧ channels out !! k = Some (const_plane (height img) (width img) zero)
  ∧ (∀ i, (k < i)%nat → channels out !! i = channels img !! (i + 1)%nat).
Proof.
  intros out k. unfold out, ZeroInitializeB10_call, DropSARChannels_call.
  cbn [channels height width torch_zeros replicate].
  set (chs := channels img) in *.
  assert (length (take 9 (drop 2 chs)) = k) as Hk
    by (rewrite length_take, length_drop; done).
  repeat split.
  - intros i Hi. rewrite lookup_app_l by lia.
    rewrite lookup_take_lt by lia. rewrite lookup_drop. f_equal. lia.
  - by apply list_lookup_middle.
  - intros i Hi. rewrite lookup_app_r by lia. rewrite Hk.
    destruct (i - k)%nat as [|j] eqn:Hj; [lia|]. cbn [app].
    rewrite lookup_cons_ne_0, !lookup_drop by done. simpl Nat.pred.
    destruct (decide (9 ≤ length chs - 2)%nat) as [Hlong|Hshort].
    + f_equal. lia.
    + rewrite !lookup_ge_None_2; [done|lia|lia].
Qed.

(** Which input channel ends where. After [DropSARChannels] and
    [ZeroInitializeB10] the first nine optical channels (input positions 2
    to 10) are at positions 0 to 8, the all-zero channel follows them, and
    the optical channels after the ninth are one position further than in
    the input. When the input has fewer than nine optical channels the
    all-zero channel is the last one. Nothing is raised, and the spatial
    size is kept. *)
Theorem band_steps_place_channels (img : Tensor) :
  let out := ZeroInitializeB10_call (DropSARChannels_call img) in
  let k := 9 `min` (length (channels img) - 2) in
  (∀ i, (i < k)%nat → channels out !! i = channels img !! (i + 2)%nat)
  ∧ channels out !! k = Some (const_plane (height img) (width img) zero)
  ∧ (∀ i, (k < i)%nat → channels out !! i = channels img !! (i + 1)%nat)
  ∧ height out = height img ∧ width out = width img.
Proof.
  intros out k. destruct (band_steps_lookup img) as (Hlow & Hzero & Hhigh).
  repeat split; done.
Qed.

(** [ZeroInitializeB10] only inserts: the output has one channel more, the
    all-zero channel stands at position 9 (at the end when the input has
    fewer than nine channels), and taking it out gives the input back. *)
Theorem ZeroInitializeB10_only_inserts (img : Tensor) :
  let out := ZeroInitializeB10_call img in
  let k := 9 `min` length (channels img) in
  channels out !! k = Some (const_plane (height img) (width img) zero)
  ∧ delete k (channels out) = channels img
  ∧ shape out = (S (length (channels img)), height img, width img).
Proof.
  intros out k. unfold shape, out. rewrite length_ZeroInitializeB10.
  unfold ZeroInitializeB10_call.
  cbn [channels height width torch_zeros replicate app].
  assert (length (take 9 (channels img)) = k) as Hk by apply length_take.
  repeat split.
  - by apply list_lookup_middle.
  - rewrite <- Hk, delete_middle. apply take_drop.
Qed.

(** ** Broadcasting in [NormalizeWithStats] *)

Lemma broadcast_stats_one_stat op (chs : list plane) (c : float) :
  broadcast_stats op chs [c]
  = Some ((λ p, plane_map (λ x, op x c) p) <$> chs).
Proof.
  unfold broadcast_stats. destruct (decide _) as [Hlen|Hlen]; [|done].
  destruct chs as [|p [|p' chs]]; done.
Qed.

Lemma broadcast_stats_one_channel op (p : plane) (stats : list float) :
  length stats ≠ 1%nat →
  broadcast_stats op [p] stats
  = Some ((λ c, plane_map (λ x, op x c) p) <$> stats).
Proof.
  intros Hlen. unfold broadcast_stats.
  rewrite decide_False by (simpl; lia).
  destruct stats as [|c [|c' stats]]; done.
Qed.

(** When two extents can be broadcast, the result has the one that is not
    1. *)
Lemma broadcast_stats_returns op (chs : list plane) (stats : list float) :
  length chs = length stats ∨ length chs = 1%nat ∨ length stats = 1%nat →
  ∃ out, broadcast_stats op chs stats = Some out
         ∧ length out = if decide (length chs = 1%nat) then length stats
                        else length chs.
Proof.
  intros Hcompat.
  destruct (decide (length chs = length stats)) as [Hsame|Hdiff].
  - rewrite broadcast_stats_same by done. eexists. split; [done|].
    rewrite length_zip_with. case_decide; lia.
  - destruct Hcompat as [?|[Hone|Hone]]; [done| |].
    + destruct chs as [|p [|p' chs]]; [done| |done].
      rewrite broadcast_stats_one_channel by (simpl in Hdiff; lia).
      eexists. split; [done|]. by rewrite length_fmap.
    + destruct stats as [|c [|c' stats]]; [done| |done].
      rewrite broadcast_stats_one_stat. eexists. split; [done|].
      rewrite length_fmap. case_decide; [|done]. simpl in Hdiff. lia.
Qed.

(** [NormalizeWithStats] follows NumPy's broadcasting. With [M] means and
    [M] standard deviations, an image of [C] channels is accepted when
    [C = M], when [C = 1] (the single channel is then repeated against each
    of the [M] constants: the output has [M] channels) or when [M = 1]; the
    spatial size is kept. Any other image raises [ValueError] for the
    subtraction. *)
Theorem NormalizeWithStats_follows_broadcasting (mean std : list float)
    (img : Tensor) :
  length mean = length std →
  let C := length (channels img) in
  let M := length mean in
  (C = M ∨ C = 1%nat ∨ M = 1%nat →
   ∃ out, NormalizeWithStats_call mean std img = inr out
          ∧ shape out = (if decide (C = 1%nat) then M else C,
                         height img, width img))
  ∧ (¬ (C = M ∨ C = 1%nat ∨ M = 1%nat) →
     NormalizeWithStats_call mean std img
     = inl (broadcast_error C (height img) (width img) M)).
Proof.
  intros Hstats C M. unfold NormalizeWithStats_call.
  set (img_np := plane_map f32_of_f64 <$> channels img).
  assert (length img_np = C) as Hnp by apply length_fmap.
  split.
  - intros Hcompat.
    destruct (broadcast_stats_returns f32_sub img_np mean)
      as (centred & -> & Hcentred); [by rewrite Hnp|].
    rewrite Hnp in Hcentred. fold M in Hcentred.
    destruct (broadcast_stats_returns f32_div centred std)
      as (scaled & -> & Hscaled).
    { rewrite Hcentred, <- Hstats. fold M. case_decide; lia. }
    eexists. split; [done|]. unfold shape. cbn [channels height width].
    do 2 f_equal. rewrite Hscaled, Hcentred, <- Hstats. fold M.
    repeat case_decide; lia.
  - intros Hbad. rewrite broadcast_stats_mismatch; [by rewrite Hnp|..];
      rewrite ?Hnp; fold M; lia.
Qed.

Lemma NormalizeWithStats_follows_broadcasting_witness :
  (∃ out, NormalizeWithStats_call [zero; zero] [f64_of_Z 1; f64_of_Z 1]
            (torch_zeros 1 2 3) = inr out
          ∧ shape out = (2, 2, 3)%nat)
  ∧ NormalizeWithStats_call [zero; zero] [f64_of_Z 1; f64_of_Z 1]
      (torch_zeros 3 2 3)
    = inl (broadcast_error 3 2 3 2).
Proof.
  split.
  - apply (NormalizeWithStats_follows_broadcasting [zero; zero]
             [f64_of_Z 1; f64_of_Z 1] (torch_zeros 1 2 3) eq_refl).
    right. left. reflexivity.
  - apply (NormalizeWithStats_follows_broadcasting [zero; zero]
             [f64_of_Z 1; f64_of_Z 1] (torch_zeros 3 2 3) eq_refl).
    simpl. lia.
Defined.

(** ** The pipelines on any number of channels *)

Section PipelineDomain.

Context {tv : Torchvision}.

(** The training pipeline up to its last step: the tensor that reaches the
    normalization has one channel more than the optical channels of the
    input, and is 224 by 224. *)
Lemma train_transform_steps (g : Gen) (img : Tensor) :
  (∀ n g, (0 < n)%nat → ((choices n g).1 < n)%nat) →
  (0 < height img)%nat → (0 < width img)%nat →
  ∃ img4 g4,
    length (channels img4) = S (length (channels img) - 2)
    ∧ height img4 = 224%nat ∧ width img4 = 224%nat
    ∧ Compose train_transform g img
      = (λ out, (out, g4)) <$>
          NormalizeWithStats_call (f32_of_f64 <$> train_mean)
            (f32_of_f64 <$> train_std) img4.
Proof.
  intros Hchoice Hh Hw. unfold train_transform, NormalizeWithStats_init.
  rewrite Compose_cons. cbn [apply_transform].
  rewrite Resize_call_pixels by done. cbn [mbind result_bind mret result_ret].
  do 2 (rewrite Compose_cons; cbn [apply_transform mbind result_bind]).
  pose proof (length_pipeline_head img) as H0.
  set (img0 := ZeroInitializeB10_call _) in *.
  rewrite Compose_cons.
  destruct (RandomHorizontalFlip_keeps g img0) as (img1 & g1 & -> & H1).
  cbn [mbind result_bind]. rewrite Compose_cons.
  destruct (RandomVerticalFlip_keeps g1 img1) as (img2 & g2 & -> & H2).
  cbn [mbind result_bind]. rewrite Compose_cons.
  destruct (RandomChoice_keeps
              [RandomRotation (0, 0)%Z; RandomRotation (90, 90)%Z;
               RandomRotation (180, 180)%Z; RandomRotation (270, 270)%Z]
              Hchoice ltac:(done)
              ltac:(repeat constructor; apply RandomRotation_keeps) g2 img2)
    as (img3 & g3 & -> & H3).
  cbn [mbind result_bind]. rewrite Compose_cons. cbn [apply_transform].
  destruct (crop_params _ _ g3) as [[[[top lft] h] w] g4].
  cbn [mbind result_bind]. rewrite Compose_cons.
  cbn [apply_transform mbind result_bind Compose].
  exists (resized_crop (top, lft, h, w) (224, 224) img3), g4.
  split; [|split; [|split]].
  - unfold resized_crop. cbn [channels]. rewrite length_fmap. lia.
  - reflexivity.
  - reflexivity.
  - destruct (NormalizeWithStats_call _ _ _); reflexivity.
Qed.

(** Either pipeline up to the normalization. *)
Lemma pipeline_steps (g : Gen) (img : Tensor) (pipeline : list Transform) :
  (∀ n g, (0 < n)%nat → ((choices n g).1 < n)%nat) →
  (0 < height img)%nat → (0 < width img)%nat →
  pipeline = train_transform ∨ pipeline = val_transform →
  ∃ img4 g4,
    length (channels img4) = S (length (channels img) - 2)
    ∧ height img4 = 224%nat ∧ width img4 = 224%nat
    ∧ Compose pipeline g img
      = (λ out, (out, g4)) <$>
          NormalizeWithStats_call (f32_of_f64 <$> train_mean)
            (f32_of_f64 <$> train_std) img4.
Proof.
  intros Hchoice Hh Hw [-> | ->].
  - by apply train_transform_steps.
  - eexists _, g. rewrite Compose_val_transform by done.
    split; [apply length_pipeline_head|]. done.
Qed.

(** The normalization with the script's 13 constants, on one channel: the
    channel is set against each constant. *)
Lemma NormalizeWithStats_one_channel (p : plane) (H W : nat) :
  NormalizeWithStats_call (f32_of_f64 <$> train_mean)
    (f32_of_f64 <$> train_std) (mkTensor [p] H W)
  = inr (mkTensor
           (zip_with (λ m s, plane_map (λ x, f32_div (f32_sub (f32_of_f64 x) m) s) p)
                     (f32_of_f64 <$> train_mean) (f32_of_f64 <$> train_std))
           H W).
Proof.
  unfold NormalizeWithStats_call. cbn [channels height width fmap list_fmap].
  rewrite broadcast_stats_one_channel by (by rewrite length_train_mean).
  rewrite broadcast_stats_same
    by (by rewrite length_fmap, length_train_mean, length_train_std).
  do 2 f_equal. rewrite zip_with_fmap_l.
  apply zip_with_ext; [|done|done]. intros m s.
  by rewrite !plane_map_compose.
Qed.

End PipelineDomain.

(** Which inputs the pipelines accept. For an image that has pixels (height
    and width at least 1), either pipeline returns a tensor, of shape
    (13, 224, 224), when the input has 14 channels and also when it has one
    or two (nothing is then left after the SAR drop, and the single all-zero
    channel is broadcast against the 13 constants). With any other number
    [C] of channels, from three on, the normalization raises [ValueError]:
    [C - 1] channels cannot be broadcast against 13 constants. *)
Theorem pipelines_accept_14_channels_or_sar_only {tv : Torchvision}
    (g : Gen) (img : Tensor) (pipeline : list Transform) :
  (∀ n g, (0 < n)%nat → ((choices n g).1 < n)%nat) →
  (0 < height img)%nat → (0 < width img)%nat →
  pipeline = train_transform ∨ pipeline = val_transform →
  let C := length (channels img) in
  (C = 14%nat ∨ (1 ≤ C ≤ 2)%nat →
   ∃ out g', Compose pipeline g img = inr (out, g')
             ∧ shape out = (13, 224, 224)%nat)
  ∧ ((3 ≤ C)%nat ∧ C ≠ 14%nat →
     Compose pipeline g img = inl (broadcast_error (C - 1) 224 224 13)).
Proof.
  intros Hchoice Hpixh Hpixw Hpipeline C.
  destruct (pipeline_steps g img pipeline Hchoice Hpixh Hpixw Hpipeline)
    as (img4 & g4 & Hlen & Hh & Hw & ->). fold C in Hlen.
  split.
  - intros HC.
    assert (length (channels img4) = 13%nat ∨ length (channels img4) = 1%nat)
      as [H13|H1] by lia.
    + rewrite NormalizeWithStats_13 by done. eexists _, g4.
      split; [reflexivity|]. unfold shape. cbn [channels height width].
      rewrite !length_zip_with, length_fmap, H13, Hh, Hw.
      by rewrite length_train_mean, length_train_std.
    + destruct img4 as [[|p [|p' chs]] H4 W4]; try done.
      rewrite NormalizeWithStats_one_channel. eexists _, g4.
      split; [reflexivity|]. unfold shape. cbn [channels height width] in *.
      rewrite length_zip_with, length_train_mean, length_train_std.
      by rewrite Hh, Hw.
  - intros HC. rewrite NormalizeWithStats_mismatch by lia.
    cbn [fmap result_fmap]. rewrite Hlen, Hh, Hw. do 2 f_equal. lia.
Qed.

Lemma pipelines_accept_14_channels_or_sar_only_witness :
  (∃ out g', Compose (H := Reference.vision) train_transform 0%nat
               (torch_zeros 2 1 1) = inr (out, g')
             ∧ shape out = (13, 224, 224)%nat)
  ∧ Compose (H := Reference.vision) val_transform 0%nat (torch_zeros 5 1 1)
    = inl (broadcast_error 4 224 224 13).
Proof.
  split.
  - apply (pipelines_accept_14_channels_or_sar_only (tv := Reference.vision)
             0%nat (torch_zeros 2 1 1) train_transform).
    + exact (choices_lt (TorchvisionLaws := reference_vision_laws)).
    + simpl. lia.
    + simpl. lia.
    + by left.
    + right. simpl. lia.
  - apply (pipelines_accept_14_channels_or_sar_only (tv := Reference.vision)
             0%nat (torch_zeros 5 1 1) val_transform).
    + exact (choices_lt (TorchvisionLaws := reference_vision_laws)).
    + simpl. lia.
    + simpl. lia.
    + by right.
    + simpl. split; [lia|discriminate].
Defined.

(** An input without optical channels is not rejected. For an image of one
    or two channels, with pixels (height and width at least 1), the
    validation pipeline returns 13 constant channels, channel [c] holding
    [(0 - mean_c) / std_c]: the same tensor whatever the contents of the
    image and whatever its size. *)
Theorem val_transform_without_optical_channels {tv : Torchvision} (g : Gen)
    (img : Tensor) :
  (0 < height img)%nat → (0 < width img)%nat →
  (1 ≤ length (channels img) ≤ 2)%nat →
  Compose val_transform g img
  = inr (mkTensor
           (zip_with (λ m s, const_plane 224 224 (f32_div (f32_sub zero m) s))
                     (f32_of_f64 <$> train_mean) (f32_of_f64 <$> train_std))
           224 224, g).
Proof.
  intros Hh Hw Hlen. rewrite Compose_val_transform by done.
  unfold ZeroInitializeB10_call, DropSARChannels_call, resize_image.
  cbn [channels height width torch_zeros replicate fst snd].
  rewrite (nil_length_inv (drop 2 _))
    by (rewrite length_drop, length_fmap; lia).
  cbn [take drop app]. rewrite NormalizeWithStats_one_channel.
  cbn [fmap result_fmap].
  match goal with
  | |- inr (mkTensor ?a _ _, _) = inr (mkTensor ?b _ _, _) =>
      replace a with b; [done|]
  end.
  apply zip_with_ext; [|done|done]. intros m s. by rewrite plane_map_const.
Qed.

Lemma val_transform_without_optical_channels_witness :
  Compose (H := Reference.vision) val_transform 0%nat (torch_zeros 2 3 5)
  = inr (mkTensor
           (zip_with (λ m s, const_plane 224 224 (f32_div (f32_sub zero m) s))
                     (f32_of_f64 <$> train_mean) (f32_of_f64 <$> train_std))
           224 224, 0%nat).
Proof.
  apply (val_transform_without_optical_channels (tv := Reference.vision)
           0%nat (torch_zeros 2 3 5)).
  - simpl. lia.
  - simpl. lia.
  - simpl. lia.
Defined.

(** What the validation pipeline computes on a 14-channel image that has
    pixels (height and width at least 1). Output
    channel [i] is, for [i < 9], input channel [i + 2] resized to 224 by 224
    and normalized, value by value in [np.float32], with the constants at
    position [i]; output channel 9 is the constant that the zero channel
    becomes under the constants at position 9; for [i > 9] it is input
    channel [i + 1] resized and normalized with the constants at position
    [i]. *)
Theorem val_transform_normalizes_each_band {tv : Torchvision} (g : Gen)
    (img : Tensor) :
  (0 < height img)%nat → (0 < width img)%nat →
  length (channels img) = 14%nat →
  ∃ out,
    Compose val_transform g img = inr (out, g)
    ∧ shape out = (13, 224, 224)%nat
    ∧ ∀ (i : nat) (mean_i std_i : float),
        (f32_of_f64 <$> train_mean) !! i = Some mean_i →
        (f32_of_f64 <$> train_std) !! i = Some std_i →
        channels out !! i
        = if decide (i = 9%nat) then
            Some (const_plane 224 224 (f32_div (f32_sub zero mean_i) std_i))
          else
            plane_map (λ x, f32_div (f32_sub (f32_of_f64 x) mean_i) std_i)
            ∘ interpolate 224 224
              <$> channels img !! (if decide (i < 9)%nat then i + 2 else i + 1)%nat.
Proof.
  intros Hh Hw Hlen. rewrite Compose_val_transform by done.
  rewrite NormalizeWithStats_13 by (rewrite length_pipeline_head; lia).
  cbn [fmap result_fmap]. eexists. split; [reflexivity|]. split.
  { unfold shape. cbn [channels height width].
    rewrite !length_zip_with, length_fmap, length_pipeline_head, Hlen.
    by rewrite length_train_mean, length_train_std. }
  intros i mean_i std_i Hm Hs. cbn [channels].
  rewrite !lookup_zip_with, Hm, Hs, list_lookup_fmap.
  destruct (band_steps_lookup (resize_image (224, 224) img))
    as (Hlow & Hzero & Hhigh).
  rewrite length_Resize, Hlen in Hlow, Hzero, Hhigh.
  change (9 `min` (14 - 2))%nat with 9%nat in Hlow, Hzero, Hhigh.
  destruct (decide (i = 9%nat)) as [->|Hne].
  - rewrite Hzero. cbn [height width resize_image fst snd fmap option_fmap
      option_map mbind option_bind].
    by rewrite !plane_map_const.
  - destruct (decide (i < 9)%nat) as [Hlt|Hge].
    + rewrite Hlow by done. unfold resize_image. cbn [channels fst snd].
      rewrite list_lookup_fmap.
      destruct (channels img !! (i + 2)%nat) as [p|]; [|done].
      cbn [fmap option_fmap option_map mbind option_bind compose].
      by rewrite !plane_map_compose.
    + rewrite Hhigh by lia. unfold resize_image. cbn [channels fst snd].
      rewrite list_lookup_fmap.
      destruct (channels img !! (i + 1)%nat) as [p|]; [|done].
      cbn [fmap option_fmap option_map mbind option_bind compose].
      by rewrite !plane_map_compose.
Qed.

Lemma val_transform_normalizes_each_band_witness :
  ∃ out,
    Compose (H := Reference.vision) val_transform 0%nat (torch_zeros 14 1 1)
    = inr (out, 0%nat)
    ∧ shape out = (13, 224, 224)%nat
    ∧ ∀ (i : nat) (mean_i std_i : float),
        (f32_of_f64 <$> train_mean) !! i = Some mean_i →
        (f32_of_f64 <$> train_std) !! i = Some std_i →
        channels out !! i
        = if decide (i = 9%nat) then
            Some (const_plane 224 224 (f32_div (f32_sub zero mean_i) std_i))
          else
            plane_map (λ x, f32_div (f32_sub (f32_of_f64 x) mean_i) std_i)
            ∘ @interpolate Reference.vision 224 224
              <$> channels (torch_zeros 14 1 1)
                  !! (if decide (i < 9)%nat then i + 2 else i + 1)%nat.
Proof.
  apply (val_transform_normalizes_each_band (tv := Reference.vision) 0%nat
           (torch_zeros 14 1 1)).
  - simpl. lia.
  - simpl. lia.
  - reflexivity.
Defined.

(** * The channel that is normalized with mean 0 and deviation 1 *)

Section Binary32.

Local Open Scope Z_scope.

Lemma shr_fexp_canonical (prec emax : Z) (m : positive) (e : Z) :
  canonical_mantissa prec emax m e = true →
  shr_fexp prec emax (Zpos m) e loc_Exact
  = (Build_shr_record (Zpos m) false false, e).
Proof.
  intros Hc. apply Z.eqb_eq in Hc. unfold shr_fexp. simpl Zdigits2.
  rewrite Hc, Z.sub_diag. reflexivity.
Qed.

(** Rounding a number that is already in the format gives the number. *)
Lemma binary_round_aux_canonical (prec emax : Z) (s : bool) (m : positive)
    (e : Z) :
  bounded prec emax m e = true →
  binary_round_aux prec emax s (Zpos m) e loc_Exact = S754_finite s m e.
Proof.
  intros Hb. apply andb_prop in Hb as [Hc He]. unfold binary_round_aux.
  rewrite shr_fexp_canonical by done. cbn [shr_m loc_of_shr_record
    round_nearest_even].
  rewrite shr_fexp_canonical by done. cbn [shr_m]. by rewrite He.
Qed.

(** Converting a binary32 number to binary32 changes nothing. *)
Lemma f32_of_f64_valid (x : float) :
  valid_binary 24 128 x = true → f32_of_f64 x = x.
Proof.
  destruct x as [s|s| |s m e]; try done. cbn [valid_binary f32_of_f64].
  intros Hb. unfold binary_round, shl_align.
  pose proof Hb as Hb'. apply andb_prop in Hb' as [Hc _].
  apply Z.eqb_eq in Hc. rewrite Hc, Z.sub_diag.
  by apply binary_round_aux_canonical.
Qed.

(** [x - 0] is [x]. *)
Lemma f32_sub_zero (x : float) : f32_sub x zero = x.
Proof. by destruct x as [[]|[]| |]. Qed.

Lemma div_eucl_mul (a b : Z) : 0 < b → Z.div_eucl (a * b) b = (a, 0).
Proof.
  intros Hb.
  assert (Z.div_eucl (a * b) b = (a * b / b, (a * b) mod b)) as ->
    by (unfold Z.div, Z.modulo; by destruct (Z.div_eucl (a * b) b)).
  by rewrite Z.div_mul, Z.mod_mul by lia.
Qed.

(** The quotient that [x / 1] is rounded from: the mantissa of [x], or
    twice the mantissa with the exponent one lower, and no remainder. *)
Lemma div_core_one (m : positive) (e : Z) :
  canonical_mantissa 24 128 m e = true →
  SFdiv_core_binary 24 128 (Zpos m) e (Zpos 8388608) (-23)
  = if decide (e = -149) then (Zpos m, e, loc_Exact)
    else (Zpos m~0, e - 1, loc_Exact).
Proof.
  intros Hc. apply Z.eqb_eq in Hc. unfold SFdiv_core_binary.
  change (Zdigits2 (Zpos 8388608)) with 24.
  change (Zdigits2 (Zpos m)) with (Zpos (digits2_pos m)).
  destruct (decide (e = -149)) as [He|He].
  - assert (Z.min (fexp 24 128 (Zpos (digits2_pos m) + e - (24 + -23)))
                  (e - -23) = e) as ->
      by (unfold fexp, emin in *; lia).
    replace (e - -23 - e) with 23 by lia. cbv iota.
    rewrite Z.shiftl_mul_pow2 by lia. change (2 ^ 23) with 8388608.
    by rewrite div_eucl_mul.
  - assert (Z.min (fexp 24 128 (Zpos (digits2_pos m) + e - (24 + -23)))
                  (e - -23) = e - 1) as ->
      by (unfold fexp, emin in *; lia).
    replace (e - -23 - (e - 1)) with 24 by lia. cbv iota.
    rewrite Z.shiftl_mul_pow2 by lia.
    replace (Zpos m * 2 ^ 24) with (Zpos m~0 * 8388608) by lia.
    by rewrite div_eucl_mul.
Qed.

(** [x / 1] is [x], for a binary32 number [x]. *)
Lemma f32_div_one (x : float) :
  valid_binary 24 128 x = true →
  f32_div x (S754_finite false 8388608 (-23)) = x.
Proof.
  destruct x as [[]|[]| |s m e]; try done. cbn [valid_binary].
  intros Hb. pose proof Hb as Hb'. apply andb_prop in Hb' as [Hc He].
  unfold f32_div, SFdiv. rewrite div_core_one by done.
  replace (xorb s false) with s by (by destruct s).
  destruct (decide (e = -149)) as [He149|He149].
  - by apply binary_round_aux_canonical.
  - unfold binary_round_aux.
    assert (shr_fexp 24 128 (Zpos m~0) (e - 1) loc_Exact
            = (Build_shr_record (Zpos m) false false, e)) as ->.
    { unfold shr_fexp. apply Z.eqb_eq in Hc.
      assert (fexp 24 128 (Zdigits2 (Zpos m~0) + (e - 1)) - (e - 1) = 1)
        as ->.
      { simpl Zdigits2. rewrite Pos2Z.inj_succ.
        replace (Z.succ (Zpos (digits2_pos m)) + (e - 1))
          with (Zpos (digits2_pos m) + e) by lia.
        rewrite Hc. lia. }
      cbn [shr shr_record_of_loc SpecFloat.iter_pos shr_1 orb].
      f_equal. lia. }
    cbn [shr_m loc_of_shr_record round_nearest_even].
    rewrite shr_fexp_canonical by done. cbn [shr_m]. by rewrite He.
Qed.

(** Normalizing with mean 0 and standard deviation 1 returns the binary32
    number it is given. *)
Lemma normalize_0_1 (x : float) :
  valid_binary 24 128 x = true →
  f32_div (f32_sub (f32_of_f64 x) zero) (S754_finite false 8388608 (-23)) = x.
Proof.
  intros Hx. by rewrite f32_of_f64_valid, f32_sub_zero, f32_div_one.
Qed.

End Binary32.

Lemma plane_map_id_on (f : float → float) (p : plane) :
  Forall (Forall (λ x, f x = x)) p → plane_map f p = p.
Proof.
  intros Hp. unfold plane_map.
  induction Hp as [|row p Hrow _ IH]; csimpl; [done|]. f_equal; [|done].
  clear IH. induction Hrow as [|x row Hx _ IH]; csimpl; [done|].
  by rewrite Hx, IH.
Qed.

(** The band that follows the zero channel leaves the pipeline as it came.
    The constants at position 10 are mean 0 and deviation 1, and position 10
    of the tensor that is normalized holds input channel 11 (the tenth
    optical channel), not the zero channel. So for a 14-channel image that
    has pixels (height and width at least 1) and whose resized channel 11
    holds [float32] numbers, output channel 10 of the validation pipeline is
    that resized channel, value for value: it is the one optical band that
    is not normalized. *)
Theorem band_after_the_zero_channel_is_not_normalized {tv : Torchvision}
    (g : Gen) (img : Tensor) (p : plane) :
  (0 < height img)%nat → (0 < width img)%nat →
  length (channels img) = 14%nat →
  channels img !! 11%nat = Some p →
  Forall (Forall (λ x, valid_binary 24 128 x = true)) (interpolate 224 224 p) →
  ∃ out,
    Compose val_transform g img = inr (out, g)
    ∧ channels out !! 10%nat = Some (interpolate 224 224 p)
    ∧ S2A_MEAN !! 10%nat = Some 0%Q ∧ S2A_STD !! 10%nat = Some 1%Q.
Proof.
  intros Hh Hw Hlen Hp Hvalid. rewrite Compose_val_transform by done.
  rewrite NormalizeWithStats_13 by (rewrite length_pipeline_head; lia).
  cbn [fmap result_fmap]. eexists. split; [reflexivity|].
  split; [|by split]. cbn [channels].
  destruct (band_steps_lookup (resize_image (224, 224) img))
    as (_ & _ & Hhigh).
  rewrite length_Resize, Hlen in Hhigh.
  change (9 `min` (14 - 2))%nat with 9%nat in Hhigh.
  rewrite !lookup_zip_with.
  change ((f32_of_f64 <$> train_mean) !! 10%nat) with (Some zero).
  change ((f32_of_f64 <$> train_std) !! 10%nat)
    with (Some (S754_finite false 8388608 (-23))).
  rewrite list_lookup_fmap, (Hhigh 10%nat) by lia.
  unfold resize_image. cbn [channels fst snd].
  change (10 + 1)%nat with 11%nat. rewrite list_lookup_fmap, Hp.
  cbn [fmap option_fmap option_map mbind option_bind].
  rewrite !plane_map_compose. f_equal. apply plane_map_id_on.
  eapply Forall_impl; [exact Hvalid|]. intros row Hrow.
  eapply Forall_impl; [exact Hrow|]. intros x Hx. by apply normalize_0_1.
Qed.

Lemma band_after_the_zero_channel_is_not_normalized_witness :
  let one := S754_finite false 8388608 (-23) in
  let img := mkTensor (replicate 14 (const_plane 1 1 one)) 1 1 in
  ∃ out,
    Compose (H := Reference.vision) val_transform 0%nat img = inr (out, 0%nat)
    ∧ channels out !! 10%nat
      = Some (@interpolate Reference.vision 224 224 (const_plane 1 1 one))
    ∧ S2A_MEAN !! 10%nat = Some 0%Q ∧ S2A_STD !! 10%nat = Some 1%Q.
Proof.
  intros one img.
  apply (band_after_the_zero_channel_is_not_normalized
           (tv := Reference.vision) 0%nat img (const_plane 1 1 one)).
  - simpl. lia.
  - simpl. lia.
  - reflexivity.
  - reflexivity.
  - apply (bool_decide_unpack _). by vm_compute.
Defined.

(** * Binary64 products between two bounds *)

Section Bounds.

Local Open Scope Z_scope.

Lemma fexp64_le (d F : Z) : -1074 ≤ F → d ≤ 53 + F → fexp 53 1024 d ≤ F.
Proof. unfold fexp, emin. lia. Qed.

Lemma digits_below (m : Z) (k : Z) : 0 ≤ m < 2 ^ k → 0 ≤ k → Zdigits2 m ≤ k.
Proof.
  intros Hm Hk. destruct m as [|p|p]; simpl; [lia| |lia].
  apply digits2_pos_bound. lia.
Qed.

(** Rounding to binary64 a positive value between [lo * 2 ^ F] and
    [hi * 2 ^ F], where [hi] is below [2 ^ 53], gives a float between the
    same bounds: both bounds are binary64 numbers, and rounding to nearest
    does not cross a binary64 number. *)
Lemma round_between (M : positive) (E F lo hi : Z) :
  E ≤ F → -1074 ≤ F ≤ 971 → 0 ≤ lo → hi < 2 ^ 53 →
  lo * 2 ^ (F - E) ≤ Zpos M ≤ hi * 2 ^ (F - E) →
  between lo hi F (binary_round_aux 53 1024 false (Zpos M) E loc_Exact).
Proof.
  intros HE HF Hlo Hhi HM. unfold binary_round_aux.
  assert (0 < 2 ^ (F - E)) by (apply Z.pow_pos_nonneg; lia).
  assert (0 < 2 ^ 53) by (apply Z.pow_pos_nonneg; lia).
  (* the first shift, to the exponent of the result *)
  destruct (shr_fexp_exact_spec (Zpos M) E ltac:(lia)) as (He1 & Hm1 & Hx1).
  destruct (shr_fexp 53 1024 (Zpos M) E loc_Exact) as [mrs1 e1].
  simpl fst in *; simpl snd in *.
  assert (e1 ≤ F) as He1le.
  { rewrite He1. apply Z.max_lub; [done|]. apply fexp64_le; [lia|].
    cut (Zdigits2 (Zpos M) ≤ 53 + (F - E)); [lia|].
    apply digits_below; [|lia]. rewrite Z.pow_add_r by lia. nia. }
  assert (E ≤ e1) as HEe1 by lia.
  rewrite <- He1 in Hm1, Hx1. set (s := e1 - E) in *.
  assert (0 < 2 ^ s) by (apply Z.pow_pos_nonneg; lia).
  assert (0 < 2 ^ (F - e1)) by (apply Z.pow_pos_nonneg; lia).
  assert (2 ^ (F - E) = 2 ^ (F - e1) * 2 ^ s) as Hsplit.
  { replace (F - E) with (F - e1 + s) by lia. apply Z.pow_add_r; lia. }
  set (m1 := round_nearest_even (shr_m mrs1) (loc_of_shr_record mrs1)).
  assert (lo * 2 ^ (F - e1) ≤ m1 ≤ hi * 2 ^ (F - e1)) as Hm1b.
  { pose proof (round_nearest_even_bounds (shr_m mrs1)
                  (loc_of_shr_record mrs1)) as Hrne. fold m1 in Hrne.
    assert (lo * 2 ^ (F - e1) ≤ shr_m mrs1).
    { rewrite Hm1. apply Z.div_le_lower_bound; [lia|]. nia. }
    split; [lia|].
    destruct (Z.eq_dec (Zpos M mod 2 ^ s) 0) as [Hmod|Hmod].
    - apply Z.mod_divide in Hmod; [|lia]. unfold m1.
      rewrite (Hx1 Hmod). simpl. rewrite Hm1.
      apply Z.div_le_upper_bound; [lia|]. nia.
    - assert (Zpos M ≠ hi * 2 ^ (F - e1) * 2 ^ s) as Hne.
      { intros Heq. apply Hmod. rewrite Heq. apply Z.mod_mul. lia. }
      assert (shr_m mrs1 < hi * 2 ^ (F - e1)); [|lia].
      rewrite Hm1. apply Z.div_lt_upper_bound; [lia|]. nia. }
  assert (0 ≤ m1) as Hm1pos by nia.
  (* the second shift, after a carry *)
  destruct (shr_fexp_exact_spec m1 e1 Hm1pos) as (He2 & Hm2 & _).
  destruct (shr_fexp 53 1024 m1 e1 loc_Exact) as [mrs2 e2].
  simpl fst in *; simpl snd in *.
  assert (e2 ≤ F) as He2le.
  { rewrite He2. apply Z.max_lub; [done|]. apply fexp64_le; [lia|].
    cut (Zdigits2 m1 ≤ 53 + (F - e1)); [lia|].
    apply digits_below; [|lia]. rewrite Z.pow_add_r by lia. nia. }
  assert (e1 ≤ e2) as He12 by lia.
  rewrite <- He2 in Hm2. set (t := e2 - e1) in *.
  assert (0 < 2 ^ t) by (apply Z.pow_pos_nonneg; lia).
  assert (0 < 2 ^ (F - e2)) by (apply Z.pow_pos_nonneg; lia).
  assert (2 ^ (F - e1) = 2 ^ (F - e2) * 2 ^ t) as Hsplit2.
  { replace (F - e1) with (F - e2 + t) by lia. apply Z.pow_add_r; lia. }
  assert (lo * 2 ^ (F - e2) ≤ shr_m mrs2 ≤ hi * 2 ^ (F - e2)) as Hm2b.
  { rewrite Hm2. split.
    - apply Z.div_le_lower_bound; [lia|]. nia.
    - apply Z.div_le_upper_bound; [lia|]. nia. }
  destruct (shr_m mrs2) as [|m|m].
  - simpl. nia.
  - replace (e2 <=? 1024 - 53) with true by (symmetry; apply Z.leb_le; lia).
    simpl. lia.
  - nia.
Qed.

(** The integer part of such a float: rounding down and rounding toward
    zero agree on it, and it lies between the integer parts of the
    bounds. *)
Lemma between_int (lo hi F : Z) (x : float) :
  F ≤ 0 → 0 ≤ lo → between lo hi F x →
  ∃ k, py_int x = inr k ∧ py_floor x = inr k
       ∧ lo / 2 ^ (- F) ≤ k ≤ hi / 2 ^ (- F).
Proof.
  intros HF Hlo Hx. assert (0 < 2 ^ (- F)) by (apply Z.pow_pos_nonneg; lia).
  destruct x as [s|s| |[] m e]; try done.
  - simpl in Hx. exists 0. assert (lo = 0) as -> by lia.
    simpl. repeat split; [by rewrite Z.div_0_l by lia|].
    apply Z.div_pos; lia.
  - destruct Hx as (He & Hlow & Hhigh).
    assert (0 < 2 ^ (F - e)) by (apply Z.pow_pos_nonneg; lia).
    assert (2 ^ (- e) = 2 ^ (F - e) * 2 ^ (- F)) as Hsplit.
    { replace (- e) with (F - e + - F) by lia. apply Z.pow_add_r; lia. }
    exists (Zpos m / 2 ^ (- e)).
    unfold py_int, py_floor, trunc_finite, floor_finite, cond_Zopp.
    split; [|split].
    + destruct e as [|p|p]; [|lia|].
      * by rewrite Z.shiftl_0_r, Z.div_1_r.
      * by rewrite Z.shiftr_div_pow2 by lia.
    + destruct e as [|p|p]; [|lia|].
      * by rewrite Z.shiftl_0_r, Z.div_1_r.
      * done.
    + rewrite Hsplit, <- Z.div_div by lia. split.
      * apply Z.div_le_mono; [lia|]. apply Z.div_le_lower_bound; lia.
      * apply Z.div_le_mono; [lia|]. apply Z.div_le_upper_bound; lia.
Qed.

(** [float(n)] for [0 <= n < 2 ^ 53] is [n] itself. *)
Lemma f64_of_Z_exact (n : Z) : 0 ≤ n < 2 ^ 53 → between n n 0 (f64_of_Z n).
Proof.
  intros Hn. unfold f64_of_Z, binary_normalize.
  destruct n as [|p|p]; [simpl; lia| |lia].
  unfold binary_round, shl_align.
  destruct (fexp 53 1024 (Zpos (digits2_pos p) + 0) - 0) as [|d|d] eqn:Hd.
  - apply round_between; [lia..|]. simpl. lia.
  - apply round_between; [lia..|]. simpl. lia.
  - assert (fexp 53 1024 (Zpos (digits2_pos p) + 0) = Zneg d) as -> by lia.
    apply round_between; [lia| |lia|lia|].
    + unfold fexp, emin in Hd. lia.
    + change (0 - Z.neg d) with (Zpos d). rewrite iter_xO_mul. lia.
Qed.

(** The product of [float(n)] and a positive float [B * 2 ^ eB], when its
    exact value [n * B * 2 ^ eB] is between [lo * 2 ^ F] and
    [hi * 2 ^ F]. *)
Lemma f64_mul_between (n : Z) (B : positive) (eB F lo hi : Z) (x : float) :
  between n n 0 x → eB ≤ F → -1074 ≤ F ≤ 971 → 0 ≤ lo → hi < 2 ^ 53 →
  lo * 2 ^ (F - eB) ≤ n * Zpos B ≤ hi * 2 ^ (F - eB) →
  between lo hi F (f64_mul x (S754_finite false B eB)).
Proof.
  intros Hx HeB HF Hlo Hhi Hprod.
  assert (0 < 2 ^ (F - eB)) by (apply Z.pow_pos_nonneg; lia).
  destruct x as [s|s| |[] m e]; try done.
  - simpl in Hx. assert (n = 0) as -> by lia. simpl. nia.
  - destruct Hx as (He & Hlow & Hhigh).
    unfold f64_mul, SFmul. simpl xorb.
    assert (0 < 2 ^ (0 - e)) by (apply Z.pow_pos_nonneg; lia).
    apply round_between; [lia..|].
    replace (F - (e + eB)) with (F - eB + (0 - e)) by lia.
    rewrite Z.pow_add_r by lia. rewrite Pos2Z.inj_mul.
    assert (Zpos m = n * 2 ^ (0 - e)) as -> by lia. nia.
Qed.

End Bounds.

(** * Further properties of the country splitter *)

(** ** The split index for particular fractions *)

Section SplitIndex.

Local Open Scope Z_scope.

Lemma default_train_frac_bits :
  default_train_frac = S754_finite false 7205759403792794 (-53).
Proof. by vm_compute. Qed.

Lemma f64_one_bits : f64_of_Z 1 = S754_finite false 4503599627370496 (-52).
Proof. by vm_compute. Qed.

(** A product that lies between two bounds with the same integer part. *)
Lemma split_index_between (n k lo hi F : Z) (B : positive) (eB : Z) :
  0 ≤ n < 2 ^ 53 → eB ≤ F → -1074 ≤ F ≤ 0 → 0 ≤ lo → hi < 2 ^ 53 →
  lo * 2 ^ (F - eB) ≤ n * Zpos B ≤ hi * 2 ^ (F - eB) →
  k ≤ lo / 2 ^ (- F) → hi / 2 ^ (- F) ≤ k →
  split_index n (S754_finite false B eB) = inr k
  ∧ (py_int_mul_float n (S754_finite false B eB) ≫= py_floor) = inr k.
Proof.
  intros Hn HeB HF Hlo Hhi Hprod Hk1 Hk2.
  pose proof (f64_of_Z_exact n Hn) as Hx.
  pose proof (f64_mul_between n B eB F lo hi (f64_of_Z n) Hx HeB
                ltac:(lia) Hlo Hhi Hprod) as Hmul.
  destruct (between_int lo hi F _ ltac:(lia) Hlo Hmul)
    as (k' & Hint & Hfloor & Hk').
  assert (k' = k) as -> by lia.
  unfold split_index, py_int_mul_float, py_int_to_float.
  destruct (f64_of_Z n) as [s|s| |s m e]; done.
Qed.

(** [int(n * 0.8)] is the integer part of four fifths of [n]: the product
    of floats is never so far above or below [4 n / 5] that its integer
    part differs. *)
Lemma split_index_default (n : Z) :
  0 ≤ n < 2 ^ 50 →
  split_index n default_train_frac = inr (4 * n / 5)
  ∧ (py_int_mul_float n default_train_frac ≫= py_floor) = inr (4 * n / 5).
Proof.
  intros Hn. rewrite default_train_frac_bits.
  assert (2 ^ 50 = 1125899906842624) as E50 by (by vm_compute).
  assert (2 ^ 53 = 9007199254740992) as E53 by (by vm_compute).
  rewrite E50 in Hn.
  pose proof (Z.mul_div_le (4 * n) 5 ltac:(lia)) as Hlow.
  pose proof (Z.mul_succ_div_gt (4 * n) 5 ltac:(lia)) as Hhigh.
  set (k := 4 * n / 5) in *.
  apply (split_index_between n k (8 * k) (8 * k + 7) (-3)).
  - lia.
  - lia.
  - lia.
  - lia.
  - lia.
  - change (-3 - -53) with 50. rewrite E50. lia.
  - change (2 ^ (- -3)) with 8. rewrite Z.mul_comm, Z.div_mul by lia. lia.
  - change (2 ^ (- -3)) with 8.
    apply Z.lt_succ_r, Z.div_lt_upper_bound; lia.
Qed.

(** [int(n * 1.0)] is [n]. *)
Lemma split_index_one (n : Z) :
  0 ≤ n < 2 ^ 53 → split_index n (f64_of_Z 1) = inr n.
Proof.
  intros Hn. rewrite f64_one_bits.
  apply (split_index_between n n n n 0); try lia.
  - change (2 ^ (- 0)) with 1. rewrite Z.div_1_r. lia.
  - change (2 ^ (- 0)) with 1. rewrite Z.div_1_r. lia.
Qed.

(** [int(n * 0.0)] is 0. *)
Lemma split_index_zero (n : Z) (s : bool) :
  0 ≤ n < 2 ^ 53 → split_index n (S754_zero s) = inr 0.
Proof.
  intros Hn. pose proof (f64_of_Z_exact n Hn) as Hx.
  unfold split_index, py_int_mul_float, py_int_to_float.
  destruct (f64_of_Z n) as [sx|sx| |[] m e]; done.
Qed.

(** [float(n)] for a positive [n] below [2 ^ 53] is a positive number. *)
Lemma f64_of_Z_positive (n : Z) :
  0 < n < 2 ^ 53 → ∃ m e, f64_of_Z n = S754_finite false m e.
Proof.
  intros Hn. pose proof (f64_of_Z_exact n ltac:(lia)) as Hx.
  destruct (f64_of_Z n) as [sx|sx| |[] m e]; try done.
  - simpl in Hx. lia.
  - eauto.
Qed.

End SplitIndex.

(** ** What a call does once the two guards are passed *)

Section SplitterRuns.

Context `{PyRuntimeLaws}.

(** The two identifier sets, whatever the index the sample is cut at (a
    negative index counts from the end, as Python slices do). *)
Lemma split_sets_any (population sampled : list string) (k : Z) :
  NoDup population → sampled ⊆+ population →
  let train_ids : gset string := list_to_set (slice_to sampled k) in
  let val_ids : gset string := list_to_set (slice_from sampled k) in
  train_ids ## val_ids
  ∧ (size train_ids + size val_ids)%nat = length sampled
  ∧ train_ids ∪ val_ids ⊆ list_to_set population.
Proof.
  intros Hnodup Hsub train_ids val_ids.
  assert (NoDup sampled) as Hnd.
  { destruct (submseteq_Permutation _ _ Hsub) as [rest Hperm].
    rewrite Hperm in Hnodup. by apply NoDup_app in Hnodup as [? _]. }
  rewrite <- (slice_to_from sampled k) in Hnd, Hsub.
  apply NoDup_app in Hnd as (Hnd1 & Hdisj & Hnd2).
  split; [|split].
  - intros x Hx1 Hx2. unfold train_ids, val_ids in *.
    rewrite elem_of_list_to_set in Hx1, Hx2. by eapply Hdisj.
  - unfold train_ids, val_ids. rewrite !size_list_to_set by done.
    rewrite <- length_app. by rewrite slice_to_from.
  - intros x Hx. unfold train_ids, val_ids in Hx.
    rewrite elem_of_union, !elem_of_list_to_set, <- elem_of_app in Hx.
    rewrite elem_of_list_to_set. by eapply elem_of_submseteq.
Qed.

(** A call that passes the guards with a sample size that is not negative
    draws the sample, cuts it at [int(n_samples * train_frac)] and builds
    the two datasets. *)
Lemma split_run (meta : list MetaRow) (proc : Process) (c : string)
    (n_samples : Z) (seed : option Z) (train_frac : float)
    (size3 : nat * nat * nat) (snowy cloudy : bool) :
  let available := available_ids meta c in
  available ≠ [] →
  (0 ≤ n_samples ≤ Z.of_nat (length available))%Z →
  ∃ sampled,
    length sampled = Z.to_nat n_samples ∧ sampled ⊆+ available
    ∧ load_country_train_val meta proc c n_samples seed train_frac size3
        snowy cloudy
      = (λ k, (mkDataSet datapath size3 "train" snowy cloudy
                 (list_to_set (slice_to sampled k)) train_transform,
               mkDataSet datapath size3 "train" snowy cloudy
                 (list_to_set (slice_from sampled k)) val_transform))
        <$> split_index n_samples train_frac.
Proof.
  intros available Hne Hn. unfold load_country_train_val. fold available.
  rewrite decide_False by done. rewrite decide_False by lia.
  destruct (sample_returns (Random seed proc) available n_samples Hn)
    as (sampled & -> & Hlen & Hsub).
  exists sampled. split; [done|]. split; [done|].
  cbn [mbind result_bind]. by destruct (split_index n_samples train_frac).
Qed.

(** What can be said of a call that has returned. *)
Lemma split_returned (meta : list MetaRow) (proc : Process) (c : string)
    (n_samples : Z) (seed : option Z) (train_frac : float)
    (size3 : nat * nat * nat) (snowy cloudy : bool)
    (train_ds val_ds : BENv2DataSet) :
  let available := available_ids meta c in
  load_country_train_val meta proc c n_samples seed train_frac size3
    snowy cloudy = inr (train_ds, val_ds) →
  ∃ sampled k,
    (0 ≤ n_samples ≤ Z.of_nat (length available))%Z
    ∧ length sampled = Z.to_nat n_samples ∧ sampled ⊆+ available
    ∧ split_index n_samples train_frac = inr k
    ∧ keep_ids train_ds = list_to_set (slice_to sampled k)
    ∧ keep_ids val_ds = list_to_set (slice_from sampled k).
Proof.
  intros available Hrun. subst available.
  destruct (decide (available_ids meta c = [])) as [Hnil|Hne].
  { unfold load_country_train_val in Hrun.
    by rewrite decide_True in Hrun. }
  destruct (decide (Z.of_nat (length (available_ids meta c)) < n_samples)%Z)
    as [Hbig|Hle].
  { unfold load_country_train_val in Hrun.
    rewrite decide_False in Hrun by done. by rewrite decide_True in Hrun. }
  destruct (decide (0 ≤ n_samples)%Z) as [Hpos|Hneg].
  - destruct (split_run meta proc c n_samples seed train_frac size3 snowy
                cloudy Hne ltac:(lia)) as (sampled & Hlen & Hsub & Hcall).
    rewrite Hcall in Hrun.
    destruct (split_index n_samples train_frac) as [e|k]; [done|].
    injection Hrun as <- <-. exists sampled, k. repeat split; try done; lia.
  - unfold load_country_train_val in Hrun.
    rewrite decide_False in Hrun by done.
    rewrite decide_False in Hrun by done.
    destruct (sample_raises (Random seed proc) (available_ids meta c)
                n_samples ltac:(lia)) as [msg Hraise].
    by rewrite Hraise in Hrun.
Qed.

End SplitterRuns.

(** ** Edge behaviour of the splitter *)

(** A negative [n_samples] passes both guards (it does not exceed the number
    of patches); it is [random.sample] that rejects it, with [ValueError].
    No dataset is returned. *)
Theorem negative_n_samples_raises `{PyRuntimeLaws}
    (meta : list MetaRow) (proc : Process) (c : string) (n_samples : Z)
    (seed : option Z) (train_frac : float) (size3 : nat * nat * nat)
    (snowy cloudy : bool) :
  available_ids meta c ≠ [] → (n_samples < 0)%Z →
  ∃ msg,
    load_country_train_val meta proc c n_samples seed train_frac size3
      snowy cloudy = inl (ValueError msg)
    ∧ sample (Random seed proc) (available_ids meta c) n_samples
      = inl (ValueError msg).
Proof.
  intros Hne Hneg. unfold load_country_train_val.
  rewrite decide_False by done. rewrite decide_False by lia.
  destruct (sample_raises (Random seed proc) (available_ids meta c)
              n_samples ltac:(lia)) as [msg ->].
  by exists msg.
Qed.

Lemma negative_n_samples_raises_witness :
  ∃ msg,
    load_country_train_val (H := Reference.python) Reference.meta5
      Reference.proc0 "Ireland" (-1) (Some 5%Z) default_train_frac
      default_img_size false false = inl (ValueError msg)
    ∧ @sample Reference.python
        (Random (H := Reference.python) (Some 5%Z) Reference.proc0)
        (available_ids Reference.meta5 "Ireland") (-1)
      = inl (ValueError msg).
Proof.
  apply (negative_n_samples_raises (H := Reference.python) Reference.meta5
           Reference.proc0 "Ireland" (-1) (Some 5%Z) default_train_frac
           default_img_size false false).
  - discriminate.
  - lia.
Defined.

(** A [train_frac] that is not a number. With NaN the product is NaN and
    [int] raises [ValueError]; with an infinity and a positive [n_samples]
    the product is infinite and [int] raises [OverflowError]. Both happen
    after the sample has been drawn; no dataset is returned. *)
Theorem non_finite_train_frac_raises `{PyRuntimeLaws}
    (meta : list MetaRow) (proc : Process) (c : string) (n_samples : Z)
    (seed : option Z) (size3 : nat * nat * nat) (snowy cloudy : bool) :
  (0 < n_samples ≤ Z.of_nat (length (available_ids meta c)))%Z →
  (n_samples < 2 ^ 53)%Z →
  load_country_train_val meta proc c n_samples seed S754_nan size3
    snowy cloudy
  = inl (ValueError "cannot convert float NaN to integer")
  ∧ ∀ s, load_country_train_val meta proc c n_samples seed
           (S754_infinity s) size3 snowy cloudy
         = inl (OverflowError "cannot convert float infinity to integer").
Proof.
  intros Hn H53.
  assert (available_ids meta c ≠ []) as Hne.
  { intros Hnil. rewrite Hnil in Hn. simpl in Hn. lia. }
  destruct (f64_of_Z_positive n_samples ltac:(lia)) as (m & e & Hfloat).
  split; [|intros s].
  - destruct (split_run meta proc c n_samples seed S754_nan size3 snowy
                cloudy Hne ltac:(lia)) as (sampled & _ & _ & ->).
    unfold split_index, py_int_mul_float, py_int_to_float.
    by rewrite Hfloat.
  - destruct (split_run meta proc c n_samples seed (S754_infinity s) size3
                snowy cloudy Hne ltac:(lia)) as (sampled & _ & _ & ->).
    unfold split_index, py_int_mul_float, py_int_to_float.
    by rewrite Hfloat.
Qed.

Lemma non_finite_train_frac_raises_witness :
  load_country_train_val (H := Reference.python) Reference.meta5
    Reference.proc0 "Ireland" 2 (Some 5%Z) S754_nan default_img_size
    false false
  = inl (ValueError "cannot convert float NaN to integer")
  ∧ ∀ s, load_country_train_val (H := Reference.python) Reference.meta5
           Reference.proc0 "Ireland" 2 (Some 5%Z) (S754_infinity s)
           default_img_size false false
         = inl (OverflowError "cannot convert float infinity to integer").
Proof.
  apply (non_finite_train_frac_raises (H := Reference.python)
           Reference.meta5 Reference.proc0 "Ireland" 2 (Some 5%Z)
           default_img_size false false).
  - vm_compute. split; [reflexivity|discriminate].
  - reflexivity.
Defined.

(** The split is a partition whatever [train_frac] is. Whenever the call
    returns - also for a [train_frac] below 0 or above 1, where the index
    falls outside the sample or counts from its end - the two identifier
    sets are disjoint, hold [n_samples] identifiers together, and lie
    within the country's train-split identifiers. *)
Theorem split_is_a_partition_for_any_train_frac `{PyRuntimeLaws}
    (meta : list MetaRow) (proc : Process) (c : string) (n_samples : Z)
    (seed : option Z) (train_frac : float) (size3 : nat * nat * nat)
    (snowy cloudy : bool) (train_ds val_ds : BENv2DataSet) :
  NoDup (available_ids meta c) →
  load_country_train_val meta proc c n_samples seed train_frac size3
    snowy cloudy = inr (train_ds, val_ds) →
  keep_ids train_ds ## keep_ids val_ds
  ∧ Z.of_nat (size (keep_ids train_ds) + size (keep_ids val_ds)) = n_samples
  ∧ keep_ids train_ds ∪ keep_ids val_ds
    ⊆ list_to_set (available_ids meta c).
Proof.
  intros Hnodup Hrun.
  destruct (split_returned _ _ _ _ _ _ _ _ _ _ _ Hrun)
    as (sampled & k & Hn & Hlen & Hsub & _ & -> & ->).
  destruct (split_sets_any _ sampled k Hnodup Hsub) as (Hdisj & Hsum & Hin).
  split; [done|]. split; [|done]. rewrite Hsum, Hlen. lia.
Qed.

Lemma split_is_a_partition_for_any_train_frac_witness :
  let train_ds := mkDataSet datapath default_img_size "train" false false
                    (list_to_set ["p1"; "p2"]) train_transform in
  let val_ds := mkDataSet datapath default_img_size "train" false false
                  (list_to_set ["p5"]) val_transform in
  keep_ids train_ds ## keep_ids val_ds
  ∧ Z.of_nat (size (keep_ids train_ds) + size (keep_ids val_ds)) = 3%Z
  ∧ keep_ids train_ds ∪ keep_ids val_ds
    ⊆ list_to_set (available_ids Reference.meta5 "Ireland").
Proof.
  intros train_ds val_ds.
  apply (split_is_a_partition_for_any_train_frac (H := Reference.python)
           Reference.meta5 Reference.proc0 "Ireland" 3 (Some 0%Z)
           (f64_of_Q (-0.5)%Q) default_img_size false false train_ds val_ds).
  - apply (bool_decide_unpack _). by vm_compute.
  - reflexivity.
Defined.

(** Where the selected patches come from. Whenever the call returns, every
    patch identifier that the prefilter of either dataset lets through is
    the identifier of a row of the metadata whose country is the requested
    one and whose split is "train". *)
Theorem selected_patches_are_train_rows_of_the_country `{PyRuntimeLaws}
    (meta : list MetaRow) (proc : Process) (c : string) (n_samples : Z)
    (seed : option Z) (train_frac : float) (size3 : nat * nat * nat)
    (snowy cloudy : bool) (train_ds val_ds : BENv2DataSet) (pid : string) :
  load_country_train_val meta proc c n_samples seed train_frac size3
    snowy cloudy = inr (train_ds, val_ds) →
  patch_prefilter train_ds pid = true ∨ patch_prefilter val_ds pid = true →
  ∃ row, row ∈ meta ∧ patch_id row = pid ∧ country row = c
         ∧ split row = "train".
Proof.
  intros Hrun Hpid.
  destruct (split_returned _ _ _ _ _ _ _ _ _ _ _ Hrun)
    as (sampled & k & _ & _ & Hsub & _ & Htrain & Hval).
  assert (pid ∈ sampled) as Hin.
  { rewrite <- (slice_to_from sampled k). apply elem_of_app.
    unfold patch_prefilter in Hpid. rewrite Htrain, Hval in Hpid.
    destruct Hpid as [Hpid|Hpid]; apply bool_decide_eq_true in Hpid;
      apply elem_of_list_to_set in Hpid; auto. }
  apply (elem_of_submseteq _ _ _ Hin) in Hsub.
  unfold available_ids in Hsub.
  apply list_elem_of_fmap in Hsub as (row & -> & Hrow).
  apply list_elem_of_filter in Hrow as [[Hc Hs] Hrow]. by exists row.
Qed.

Lemma selected_patches_are_train_rows_of_the_country_witness :
  ∃ row, row ∈ Reference.meta5 ∧ patch_id row = "p5"
         ∧ country row = "Ireland" ∧ split row = "train".
Proof.
  apply (selected_patches_are_train_rows_of_the_country
           (H := Reference.python) Reference.meta5 Reference.proc0 "Ireland"
           3 (Some 0%Z) (f64_of_Q (-0.5)%Q) default_img_size false false
           (mkDataSet datapath default_img_size "train" false false
              (list_to_set ["p1"; "p2"]) train_transform)
           (mkDataSet datapath default_img_size "train" false false
              (list_to_set ["p5"]) val_transform) "p5").
  - reflexivity.
  - right. reflexivity.
Defined.

(** With the default [train_frac=0.8] the training part holds exactly the
    integer part of four fifths of [n_samples] identifiers and the
    validation part the rest: the float product [n_samples * 0.8] never
    falls on the wrong side of an integer (for [n_samples] below
    [2 ^ 50]). *)
Theorem default_split_is_four_fifths `{PyRuntimeLaws}
    (meta : list MetaRow) (proc : Process) (c : string) (n_samples : Z)
    (seed : option Z) (size3 : nat * nat * nat) (snowy cloudy : bool) :
  let available := available_ids meta c in
  NoDup available →
  available ≠ [] →
  (0 ≤ n_samples ≤ Z.of_nat (length available))%Z →
  (n_samples < 2 ^ 50)%Z →
  ∃ train_ds val_ds,
    load_country_train_val meta proc c n_samples seed default_train_frac
      size3 snowy cloudy = inr (train_ds, val_ds)
    ∧ Z.of_nat (size (keep_ids train_ds)) = (4 * n_samples / 5)%Z
    ∧ Z.of_nat (size (keep_ids val_ds))
      = (n_samples - 4 * n_samples / 5)%Z.
Proof.
  intros available Hnodup Hne Hn H50.
  destruct (split_run meta proc c n_samples seed default_train_frac size3
              snowy cloudy Hne Hn) as (sampled & Hlen & Hsub & ->).
  destruct (split_index_default n_samples ltac:(lia)) as [-> _].
  pose proof (Z.mul_div_le (4 * n_samples) 5 ltac:(lia)) as Hlow.
  assert (0 ≤ 4 * n_samples / 5)%Z as Hk0 by (apply Z.div_pos; lia).
  destruct (split_sets available sampled (4 * n_samples / 5) Hnodup Hsub
              ltac:(lia)) as (_ & Hsize & Hsum & _).
  do 2 eexists. split; [reflexivity|]. cbn [keep_ids]. lia.
Qed.

Lemma default_split_is_four_fifths_witness :
  ∃ train_ds val_ds,
    load_country_train_val (H := Reference.python) Reference.meta5
      Reference.proc0 "Ireland" 3 (Some 5%Z) default_train_frac
      default_img_size false false = inr (train_ds, val_ds)
    ∧ Z.of_nat (size (keep_ids train_ds)) = (4 * 3 / 5)%Z
    ∧ Z.of_nat (size (keep_ids val_ds)) = (3 - 4 * 3 / 5)%Z.
Proof.
  apply (default_split_is_four_fifths (H := Reference.python)
           Reference.meta5 Reference.proc0 "Ireland" 3 (Some 5%Z)
           default_img_size false false).
  - apply (bool_decide_unpack _). by vm_compute.
  - discriminate.
  - vm_compute. split; discriminate.
  - reflexivity.
Defined.

(** The two ends of the range of [train_frac]. With [train_frac=0.0] the
    training set is empty and the validation set holds the whole sample;
    with [train_frac=1.0] the validation set is empty and the training set
    holds the whole sample. Neither is rejected. *)
Theorem boundary_fractions_empty_one_side `{PyRuntimeLaws}
    (meta : list MetaRow) (proc : Process) (c : string) (n_samples : Z)
    (seed : option Z) (size3 : nat * nat * nat) (snowy cloudy : bool) :
  let available := available_ids meta c in
  NoDup available →
  available ≠ [] →
  (0 ≤ n_samples ≤ Z.of_nat (length available))%Z →
  (n_samples < 2 ^ 53)%Z →
  (∃ train_ds val_ds,
     load_country_train_val meta proc c n_samples seed zero size3 snowy
       cloudy = inr (train_ds, val_ds)
     ∧ keep_ids train_ds = ∅
     ∧ Z.of_nat (size (keep_ids val_ds)) = n_samples)
  ∧ (∃ train_ds val_ds,
       load_country_train_val meta proc c n_samples seed (f64_of_Z 1) size3
         snowy cloudy = inr (train_ds, val_ds)
       ∧ Z.of_nat (size (keep_ids train_ds)) = n_samples
       ∧ keep_ids val_ds = ∅).
Proof.
  intros available Hnodup Hne Hn H53. split.
  - destruct (split_run meta proc c n_samples seed zero size3 snowy cloudy
                Hne Hn) as (sampled & Hlen & Hsub & ->).
    unfold zero. rewrite split_index_zero by lia.
    destruct (split_sets available sampled 0 Hnodup Hsub ltac:(lia))
      as (_ & Hsize & Hsum & _).
    do 2 eexists. split; [reflexivity|]. cbn [keep_ids].
    split; [done|]. lia.
  - destruct (split_run meta proc c n_samples seed (f64_of_Z 1) size3 snowy
                cloudy Hne Hn) as (sampled & Hlen & Hsub & ->).
    rewrite split_index_one by lia.
    destruct (split_sets available sampled n_samples Hnodup Hsub ltac:(lia))
      as (_ & Hsize & Hsum & _).
    do 2 eexists. split; [reflexivity|]. cbn [keep_ids].
    split; [lia|]. unfold slice_from, slice_index.
    destruct (Z.ltb_spec n_samples 0); [lia|].
    by rewrite drop_ge by lia.
Qed.

Lemma boundary_fractions_empty_one_side_witness :
  (∃ train_ds val_ds,
     load_country_train_val (H := Reference.python) Reference.meta5
       Reference.proc0 "Ireland" 3 (Some 5%Z) zero default_img_size false
       false = inr (train_ds, val_ds)
     ∧ keep_ids train_ds = ∅
     ∧ Z.of_nat (size (keep_ids val_ds)) = 3%Z)
  ∧ (∃ train_ds val_ds,
       load_country_train_val (H := Reference.python) Reference.meta5
         Reference.proc0 "Ireland" 3 (Some 5%Z) (f64_of_Z 1)
         default_img_size false false = inr (train_ds, val_ds)
       ∧ Z.of_nat (size (keep_ids train_ds)) = 3%Z
       ∧ keep_ids val_ds = ∅).
Proof.
  apply (boundary_fractions_empty_one_side (H := Reference.python)
           Reference.meta5 Reference.proc0 "Ireland" 3 (Some 5%Z)
           default_img_size false false).
  - apply (bool_decide_unpack _). by vm_compute.
  - discriminate.
  - vm_compute. split; discriminate.
  - reflexivity.
Defined.

(** The two ends of the range of [n_samples]. Asking for no sample is not
    an error (as long as the country has patches): both identifier sets are
    empty. Asking for as many samples as there are patches splits all of
    them: the two sets together are the country's train-split
    identifiers. *)
Theorem n_samples_at_its_bounds `{PyRuntimeLaws}
    (meta : list MetaRow) (proc : Process) (c : string) (seed : option Z)
    (train_frac : float) (size3 : nat * nat * nat) (snowy cloudy : bool) :
  let available := available_ids meta c in
  NoDup available →
  available ≠ [] →
  (Z.of_nat (length available) < 2 ^ 53)%Z →
  is_fraction train_frac →
  (∃ train_ds val_ds,
     load_country_train_val meta proc c 0 seed train_frac size3 snowy
       cloudy = inr (train_ds, val_ds)
     ∧ keep_ids train_ds = ∅ ∧ keep_ids val_ds = ∅)
  ∧ (∃ train_ds val_ds,
       load_country_train_val meta proc c (Z.of_nat (length available)) seed
         train_frac size3 snowy cloudy = inr (train_ds, val_ds)
       ∧ keep_ids train_ds ∪ keep_ids val_ds = list_to_set available).
Proof.
  intros available Hnodup Hne H53 Hfrac. subst available. split.
  - destruct (split_run meta proc c 0 seed train_frac size3 snowy cloudy
                Hne ltac:(lia)) as (sampled & Hlen & _ & ->).
    destruct (split_index_fraction 0 train_frac ltac:(done) Hfrac)
      as (k & -> & _).
    apply nil_length_inv in Hlen as ->.
    do 2 eexists. split; [reflexivity|]. cbn [keep_ids].
    unfold slice_to, slice_from. by rewrite take_nil, drop_nil.
  - destruct (split_partition meta proc c
                (Z.of_nat (length (available_ids meta c))) seed train_frac
                size3 snowy cloudy Hnodup Hne ltac:(lia) H53 Hfrac)
      as (train_ds & val_ds & Hrun & Hdisj & _ & Hsum & Htrain & Hval).
    exists train_ds, val_ds. split; [exact Hrun|].
    apply set_subseteq_size_eq; [by apply union_least|].
    rewrite size_union, size_list_to_set by done. lia.
Qed.

Lemma n_samples_at_its_bounds_witness :
  (∃ train_ds val_ds,
     load_country_train_val (H := Reference.python) Reference.meta5
       Reference.proc0 "Ireland" 0 (Some 5%Z) default_train_frac
       default_img_size false false = inr (train_ds, val_ds)
     ∧ keep_ids train_ds = ∅ ∧ keep_ids val_ds = ∅)
  ∧ (∃ train_ds val_ds,
       load_country_train_val (H := Reference.python) Reference.meta5
         Reference.proc0 "Ireland"
         (Z.of_nat (length (available_ids Reference.meta5 "Ireland")))
         (Some 5%Z) default_train_frac default_img_size false false
       = inr (train_ds, val_ds)
       ∧ keep_ids train_ds ∪ keep_ids val_ds
         = list_to_set (available_ids Reference.meta5 "Ireland")).
Proof.
  apply (n_samples_at_its_bounds (H := Reference.python) Reference.meta5
           Reference.proc0 "Ireland" (Some 5%Z) default_train_frac
           default_img_size false false).
  - apply (bool_decide_unpack _). by vm_compute.
  - discriminate.
  - reflexivity.
  - exact default_train_frac_is_fraction.
Defined.

(** The split of the script, run on a thousand Irish training patches. *)
Lemma script_split_800_200_witness :
  ∃ train_ds val_ds,
    script_split (H := Reference.python) Reference.meta1000 Reference.proc0
    = inr (train_ds, val_ds)
    ∧ size (keep_ids train_ds) = 800%nat
    ∧ size (keep_ids val_ds) = 200%nat
    ∧ keep_ids train_ds ## keep_ids val_ds
    ∧ keep_ids train_ds ∪ keep_ids val_ds
      ⊆ list_to_set (available_ids Reference.meta1000 "Ireland").
Proof.
  apply (script_split_800_200 (H := Reference.python) Reference.meta1000
           Reference.proc0).
  - apply (bool_decide_unpack _). by vm_compute.
  - apply Nat.leb_le. by vm_compute.
Defined.

(** * The size of the training part *)

Section NearFloor.

Local Open Scope Z_scope.

(** [int(n * x)] for a fraction [x]: the floor of the exact product, or one
    more (when the product of floats is rounded up to the next integer). *)
Lemma split_index_near_floor (n : Z) (x : float) :
  0 ≤ n < 2 ^ 53 → is_fraction x →
  ∃ k F, split_index n x = inr k ∧ floor_of_product n x = Some F
         ∧ F ≤ k ≤ F + 1 ∧ 0 ≤ k ≤ n.
Proof.
  intros Hn Hfrac. pose proof (is_fraction_at_most x Hfrac) as Hx.
  destruct x as [s|s| |[] m e]; try done.
  - exists 0, 0. rewrite split_index_zero by done. simpl. repeat split; lia.
  - destruct Hx as [He Hm]. rewrite Z.mul_1_l in Hm.
    assert (0 < 2 ^ (- e)) as Hpow by (apply Z.pow_pos_nonneg; lia).
    set (F := n * Zpos m / 2 ^ (- e)).
    assert (floor_of_product n (S754_finite false m e) = Some F) as HF.
    { unfold floor_of_product, F, cond_Zopp. destruct e as [|p|p]; [|lia|].
      - by rewrite Z.div_1_r, Z.mul_1_r.
      - done. }
    pose proof (Z.mul_div_le (n * Zpos m) (2 ^ (- e)) Hpow) as Hlow.
    pose proof (Z.mul_succ_div_gt (n * Zpos m) (2 ^ (- e)) Hpow) as Hhigh.
    fold F in Hlow, Hhigh.
    assert (0 ≤ F ≤ n) as HFn.
    { split; [apply Z.div_pos; lia|].
      apply Z.div_le_upper_bound; [lia|]. nia. }
    set (hi := if decide (F = n) then n else F + 1).
    assert (F ≤ hi ≤ F + 1 ∧ hi ≤ n) as Hhi by (unfold hi; case_decide; lia).
    pose proof (f64_of_Z_exact n Hn) as Hexact.
    assert (between F hi 0 (f64_mul (f64_of_Z n) (S754_finite false m e)))
      as Hmul.
    { apply (f64_mul_between n m e 0 F hi); [done|lia|lia|lia|lia|].
      rewrite Z.sub_0_l. split; [lia|].
      unfold hi. case_decide; [nia|lia]. }
    destruct (between_int F hi 0 _ ltac:(lia) ltac:(lia) Hmul)
      as (k & Hint & _ & Hk).
    change (2 ^ (- 0)) with 1 in Hk. rewrite !Z.div_1_r in Hk.
    exists k, F. split; [|split; [done|lia]].
    unfold split_index, py_int_mul_float, py_int_to_float.
    destruct (f64_of_Z n) as [sx|sx| |sx mx ex]; done.
Qed.

End NearFloor.

(** ** The claim about the partition *)

(** C1, counterexample. The size of the training part is not the floor of
    [n_samples * train_frac]. With [n_samples = 10] and [train_frac = 0.7] (a
    valid call on a country with a thousand patches) the training part has 7
    identifiers, while the float 0.7 is a number below 7/10 and the floor of
    ten times that number is 6: the product of floats is rounded to 7.0
    before [int] is applied. Read with the decimal fraction instead of the
    float, the equation fails in the other direction: [int(100 * 0.29)] is
    28, and the floor of 100 times 29/100 is 29. *)
Lemma train_size_is_not_the_floor :
  ¬ (∀ `{PyRuntimeLaws} (meta : list MetaRow) (proc : Process) (c : string)
       (n_samples : Z) (seed : option Z) (train_frac : float)
       (size3 : nat * nat * nat) (snowy cloudy : bool),
       NoDup (available_ids meta c) →
       available_ids meta c ≠ [] →
       (0 ≤ n_samples ≤ Z.of_nat (length (available_ids meta c)))%Z →
       is_fraction train_frac →
       ∃ train_ds val_ds,
         load_country_train_val meta proc c n_samples seed train_frac size3
           snowy cloudy = inr (train_ds, val_ds)
         ∧ floor_of_product n_samples train_frac
           = Some (Z.of_nat (size (keep_ids train_ds))))
  ∧ split_index 100 (f64_of_Q 0.29%Q) = inr 28%Z
  ∧ Qfloor (inject_Z 100 * 0.29%Q) = 29%Z.
Proof.
  split; [|split; by vm_compute].
  intros Hclaim.
  destruct (Hclaim Reference.python reference_python_laws Reference.meta1000
              Reference.proc0 "Ireland" 10%Z (Some 5%Z) (f64_of_Q 0.7%Q)
              default_img_size false false)
    as (train_ds & val_ds & Hrun & Hfloor).
  - apply (bool_decide_unpack _). by vm_compute.
  - discriminate.
  - vm_compute. split; discriminate.
  - repeat split; by vm_compute.
  - assert (size (keep_ids train_ds) = 7%nat) as Hsize.
    { destruct (split_run Reference.meta1000 Reference.proc0 "Ireland" 10
                  (Some 5%Z) (f64_of_Q 0.7%Q) default_img_size false false)
        as (sampled & Hlen & Hsub & Hcall).
      - discriminate.
      - vm_compute. split; discriminate.
      - rewrite Hcall in Hrun.
        assert (split_index 10 (f64_of_Q 0.7%Q) = inr 7%Z) as Hk
          by (by vm_compute).
        rewrite Hk in Hrun. cbn [fmap result_fmap] in Hrun.
        injection Hrun as <- _. cbn [keep_ids].
        assert (NoDup (available_ids Reference.meta1000 "Ireland")) as Hnd
          by (apply (bool_decide_unpack _); by vm_compute).
        destruct (split_sets _ sampled 7 Hnd Hsub ltac:(lia))
          as (_ & Hsz & _).
        exact Hsz. }
    rewrite Hsize in Hfloor. vm_compute in Hfloor. discriminate.
Qed.

(** C1, amended. For every valid call of the splitter - the patch
    identifiers of the country's train-split rows are pairwise different,
    [n_samples] is between 0 and their number, and [train_frac] is a
    fraction between 0 and 1 - the call returns, and the two identifier sets
    are disjoint; [|train_ids|] is [int(n_samples * train_frac)], the
    product being that of Python floats, which is the floor of
    [n_samples * train_frac] or one more than it, and with the default
    [train_frac=0.8] exactly the integer part of four fifths of [n_samples];
    [|train_ids| + |val_ids| = n_samples]; and every identifier of either
    set is the identifier of a row of the metadata with the requested
    country and split "train". *)
Theorem split_is_a_partition_of_the_sample `{PyRuntimeLaws}
    (meta : list MetaRow) (proc : Process) (c : string) (n_samples : Z)
    (seed : option Z) (train_frac : float) (size3 : nat * nat * nat)
    (snowy cloudy : bool) :
  let available := available_ids meta c in
  NoDup available →
  available ≠ [] →
  (0 ≤ n_samples ≤ Z.of_nat (length available))%Z →
  (n_samples < 2 ^ 53)%Z →
  is_fraction train_frac →
  ∃ train_ds val_ds F,
    load_country_train_val meta proc c n_samples seed train_frac size3
                           snowy cloudy = inr (train_ds, val_ds)
    ∧ keep_ids train_ds ## keep_ids val_ds
    ∧ split_index n_samples train_frac
      = inr (Z.of_nat (size (keep_ids train_ds)))
    ∧ floor_of_product n_samples train_frac = Some F
    ∧ (F ≤ Z.of_nat (size (keep_ids train_ds)) ≤ F + 1)%Z
    ∧ (train_frac = default_train_frac → (n_samples < 2 ^ 50)%Z →
       Z.of_nat (size (keep_ids train_ds)) = (4 * n_samples / 5)%Z)
    ∧ Z.of_nat (size (keep_ids train_ds) + size (keep_ids val_ds)) = n_samples
    ∧ ∀ pid, pid ∈ keep_ids train_ds ∪ keep_ids val_ds →
        ∃ row, row ∈ meta ∧ patch_id row = pid ∧ country row = c
               ∧ split row = "train".
Proof.
  intros available Hnodup Hne Hn H53 Hfrac.
  destruct (split_run meta proc c n_samples seed train_frac size3 snowy
              cloudy Hne Hn) as (sampled & Hlen & Hsub & ->).
  destruct (split_index_near_floor n_samples train_frac ltac:(lia) Hfrac)
    as (k & F & Hk & HF & HkF & Hkn).
  rewrite Hk. cbn [fmap result_fmap].
  destruct (split_sets available sampled k Hnodup Hsub ltac:(lia))
    as (Hdisj & Hsize & Hsum & Htrain & Hval).
  do 2 eexists. exists F. split; [reflexivity|]. cbn [keep_ids].
  assert (Z.of_nat (size (list_to_set (slice_to sampled k) : gset string))
          = k) as Hsizek by lia.
  split; [done|]. split; [by rewrite Hsizek|]. split; [done|].
  split; [lia|]. split; [|split].
  - intros -> H50. rewrite Hsizek.
    destruct (split_index_default n_samples ltac:(lia)) as [Hdefault _].
    congruence.
  - rewrite Hsum. lia.
  - intros pid Hpid.
    assert (pid ∈ (list_to_set available : gset string)) as Hin.
    { apply elem_of_union in Hpid as [Hpid|Hpid]; [by apply Htrain|].
      by apply Hval. }
    apply elem_of_list_to_set in Hin. unfold available, available_ids in Hin.
    apply list_elem_of_fmap in Hin as (row & -> & Hrow).
    apply list_elem_of_filter in Hrow as [[Hc Hs] Hrow]. by exists row.
Qed.

Lemma split_is_a_partition_of_the_sample_witness :
  ∃ train_ds val_ds F,
    load_country_train_val (H := Reference.python) Reference.meta5
      Reference.proc0 "Ireland" 3 (Some 5%Z) default_train_frac
      default_img_size false false = inr (train_ds, val_ds)
    ∧ keep_ids train_ds ## keep_ids val_ds
    ∧ split_index 3 default_train_frac
      = inr (Z.of_nat (size (keep_ids train_ds)))
    ∧ floor_of_product 3 default_train_frac = Some F
    ∧ (F ≤ Z.of_nat (size (keep_ids train_ds)) ≤ F + 1)%Z
    ∧ (default_train_frac = default_train_frac → (3 < 2 ^ 50)%Z →
       Z.of_nat (size (keep_ids train_ds)) = (4 * 3 / 5)%Z)
    ∧ Z.of_nat (size (keep_ids train_ds) + size (keep_ids val_ds)) = 3%Z
    ∧ ∀ pid, pid ∈ keep_ids train_ds ∪ keep_ids val_ds →
        ∃ row, row ∈ Reference.meta5 ∧ patch_id row = pid
               ∧ country row = "Ireland" ∧ split row = "train".
Proof.
  apply (split_is_a_partition_of_the_sample (H := Reference.python)
           Reference.meta5 Reference.proc0 "Ireland" 3 (Some 5%Z)
           default_train_frac default_img_size false false).
  - apply (bool_decide_unpack _). by vm_compute.
  - discriminate.
  - vm_compute. split; discriminate.
  - reflexivity.
  - exact default_train_frac_is_fraction.
Defined.

(** * Further properties of the model setup and of the script as a whole *)

Section HeadLoop.

Context {rt : TorchRuntime}.

(** Marking a module trainable changes nothing when its tensors already
    require a gradient. *)
Lemma mark_trainable_id {V} (m : gmap string loc) (h : gmap loc (Param V)) :
  (∀ name l p, m !! name = Some l → h !! l = Some p →
               requires_grad p = true) →
  mark_trainable m h = h.
Proof.
  unfold mark_trainable.
  apply (map_fold_weak_ind
           (λ r (m0 : gmap string loc),
              (∀ name l p, m0 !! name = Some l → h !! l = Some p →
                           requires_grad p = true) → r = h)).
  - done.
  - intros name l m0 r Hfresh IH Hall. rewrite IH.
    + apply alter_id. intros [v g] Hl.
      pose proof (Hall name l _ (lookup_insert_eq _ _ _) Hl) as Hg.
      simpl in Hg. by subst.
    + intros name' l' p Hl' Hp. apply (Hall name' l' p); [|done].
      rewrite lookup_insert_ne; [done|]. intros ->. congruence.
Qed.

(** The tensors of a new [nn.Linear] require a gradient from the start. *)
Lemma nn_Linear_trainable (i o : nat) (σ : Store Value TorchGen)
    (name : string) (l : loc) (p : Param Value) :
  (nn_Linear i o σ).1 !! name = Some l →
  heap (nn_Linear i o σ).2 !! l = Some p → requires_grad p = true.
Proof.
  unfold nn_Linear. destruct (linear_init i o (torch_gen σ)) as [[w b] g'].
  cbn [fst snd heap]. set (lw := fresh (dom (heap σ))).
  set (lb := fresh (dom (<[lw := mkParam w true]> (heap σ)))).
  assert (lb ≠ lw) as Hne.
  { intros Heq. pose proof (is_fresh (dom (<[lw := mkParam w true]> (heap σ))))
      as Hfresh. fold lb in Hfresh. rewrite Heq, dom_insert_L in Hfresh.
    set_solver. }
  intros Hname Hp.
  apply lookup_insert_Some in Hname as [[_ <-]|[_ Hname]].
  - rewrite lookup_insert_ne, lookup_insert_eq in Hp by done.
    by injection Hp as <-.
  - apply lookup_singleton_Some in Hname as [_ <-].
    rewrite lookup_insert_eq in Hp. by injection Hp as <-.
Qed.

(** A new [nn.Linear] leaves the tensors that exist as they are. *)
Lemma nn_Linear_extends (i o : nat) (σ : Store Value TorchGen) :
  heap σ ⊆ heap (nn_Linear i o σ).2.
Proof.
  unfold nn_Linear. destruct (linear_init i o (torch_gen σ)) as [[w b] g'].
  cbn [snd heap]. set (lw := fresh (dom (heap σ))).
  set (lb := fresh (dom (<[lw := mkParam w true]> (heap σ)))).
  etrans; [apply (insert_subseteq _ lw (mkParam w true))|].
  - apply not_elem_of_dom, is_fresh.
  - apply insert_subseteq, not_elem_of_dom, is_fresh.
Qed.

End HeadLoop.

(** The loop that the script marks "IMPORTANT: Ensure classification head
    is trainable" changes nothing: [nn.Linear] creates its weight and bias
    with [requires_grad=True]. The store the model setup ends with is the
    one [nn.Linear] left, which is the store of the LoRA wrapper with the
    two tensors of the head added - no tensor of the wrapped model is
    changed after the wrapping. *)
Theorem head_loop_changes_nothing {rt : TorchRuntime}
    (model_vitb14 : gmap string loc) (embed_dim : nat)
    (checkpoint_file : gmap string Value) (σ0 : Store Value TorchGen) :
  let wrapped := (LoRA_ViT_timm model_vitb14 0 4 16 σ0).2 in
  ∃ a, assemble model_vitb14 embed_dim checkpoint_file σ0 = inr a
       ∧ assembled_store a = (nn_Linear embed_dim 19 wrapped).2
       ∧ heap wrapped ⊆ heap (assembled_store a).
Proof.
  intros wrapped. unfold assemble. rewrite load_state_dict_self.
  cbn [mbind result_bind mret result_ret].
  replace (mkStore (heap σ0) (torch_gen σ0)) with σ0 by (by destruct σ0).
  subst wrapped. destruct (LoRA_ViT_timm model_vitb14 0 4 16 σ0) as [lora σ2].
  cbn [snd].
  pose proof (nn_Linear_trainable embed_dim 19 σ2) as Htrainable.
  pose proof (nn_Linear_extends embed_dim 19 σ2) as Hextends.
  destruct (nn_Linear embed_dim 19 σ2) as [head σ3]. cbn [fst snd] in *.
  eexists. split; [reflexivity|]. cbn [assembled_store].
  rewrite mark_trainable_id by done. split; [by destruct σ3|done].
Qed.

(** The state dict that is saved fits the Lightning module and nothing
    else the script has built. Loading it back into [pl_model] succeeds and
    leaves every tensor as it is; loading it into [lora_with_head] - the
    model the script prints and moves to the device - raises
    [RuntimeError], because the names differ ("model." and "classifier."
    against "0." and "1."). *)
Theorem saved_state_fits_the_lightning_module_only {rt : TorchRuntime}
    (model_vitb14 : gmap string loc) (embed_dim : nat)
    (checkpoint_file : gmap string Value) (σ0 : Store Value TorchGen)
    (train_loader val_loader : DataLoader) (h : gmap loc (Param Value)) :
  ∃ a, assemble model_vitb14 embed_dim checkpoint_file σ0 = inr a
    ∧ let t := train_and_save a embed_dim train_loader val_loader in
      load_state_dict (pl_model t) (saved_state t) h = inr h
      ∧ load_state_dict (lora_with_head a) (saved_state t) h
        = inl (RuntimeError
                 "Error(s) in loading state_dict: missing or unexpected key(s)").
Proof.
  destruct (assemble_returns model_vitb14 embed_dim checkpoint_file σ0)
    as (a & Hrun & _ & _ & Hseq & _).
  exists a. split; [exact Hrun|]. intros t.
  destruct (nn_Linear_spec embed_dim 19 (assembled_store a))
    as (lw' & lb' & Hhead' & _).
  assert (saved_state t = pl_model t
          ∧ pl_model t = add_prefix "model." (lora_model a)
                         ∪ add_prefix "classifier."
                             (nn_Linear embed_dim 19 (assembled_store a)).1)
    as [Hsaved Hpl].
  { unfold t, train_and_save, SoftConLightningModule, Trainer_fit.
    destruct (nn_Linear embed_dim 19 (assembled_store a)) as [head σ5].
    done. }
  split.
  - rewrite Hsaved. apply load_state_dict_self.
  - unfold load_state_dict. rewrite decide_False; [done|].
    intros Hdom.
    assert ("classifier.weight" ∈ dom (saved_state t)) as Hin.
    { rewrite Hsaved, Hpl. apply elem_of_dom. exists lw'.
      rewrite lookup_union_r
        by (apply not_prefixed; intros rest; simpl; discriminate).
      rewrite (lookup_add_prefix "classifier." "weight"), Hhead'.
      apply lookup_insert_eq. }
    rewrite Hdom, Hseq in Hin. apply elem_of_dom in Hin as [l Hl].
    unfold nn_Sequential in Hl. apply lookup_union_Some_raw in Hl.
    destruct Hl as [Hl|[_ Hl]];
      rewrite not_prefixed in Hl
        by (intros rest; simpl; discriminate); done.
Qed.

(** The script stops at the split when Ireland is short of patches. With
    fewer than 1000 rows of Ireland's train split in the metadata (none
    included), the call of the splitter that the script makes raises
    [ValueError], with one of the two messages of the guards, and the
    script ends with that exception: the model setup, the training and the
    saving that come after it are not reached. *)
Theorem script_stops_without_1000_irish_train_patches {py : PyRuntime}
    {rt : TorchRuntime} (meta : list MetaRow) (proc : Process)
    (model_vitb14 : gmap string loc) (embed_dim : nat)
    (checkpoint_file : gmap string Value) (σ0 : Store Value TorchGen) :
  let available := available_ids meta "Ireland" in
  (length available < 1000)%nat →
  ∃ msg,
    script_split meta proc = inl (ValueError msg)
    ∧ main meta proc model_vitb14 embed_dim checkpoint_file σ0
      = inl (ValueError msg)
    ∧ (msg = "No TRAIN patches found for country=" +:+ py_repr "Ireland"
       ∨ msg = "Requested 1000 samples but only " +:+ pretty (length available)
               +:+ " TRAIN patches available for " +:+ py_repr "Ireland").
Proof.
  intros available Hlen. unfold main, script_split, load_country_train_val.
  fold available. destruct (decide (available = [])) as [Hnil|Hne].
  - eexists. split; [reflexivity|]. split; [reflexivity|]. by left.
  - rewrite decide_True by lia.
    eexists. split; [reflexivity|]. split; [reflexivity|]. by right.
Qed.

Lemma script_stops_without_1000_irish_train_patches_witness :
  ∃ msg,
    script_split (H := Reference.python) Reference.meta5 Reference.proc0
    = inl (ValueError msg)
    ∧ main (H := Reference.python) (H0 := Reference.torch) Reference.meta5
        Reference.proc0 Reference.backbone2 3 ∅ Reference.store2
      = inl (ValueError msg)
    ∧ (msg = "No TRAIN patches found for country="
             +:+ @py_repr Reference.python "Ireland"
       ∨ msg = "Requested 1000 samples but only "
               +:+ pretty (length (available_ids Reference.meta5 "Ireland"))
               +:+ " TRAIN patches available for "
               +:+ @py_repr Reference.python "Ireland").
Proof.
  apply (script_stops_without_1000_irish_train_patches
           (py := Reference.python) (rt := Reference.torch) Reference.meta5
           Reference.proc0 Reference.backbone2 3 ∅ Reference.store2).
  apply Nat.ltb_lt. by vm_compute.
Defined.
